(** * xhs-hotsearch: a shallow embedding of the crawler core

    The development follows the Python sources module by module:

    - [Py]            the fragment of the Python runtime the sources rely on
                      (strings as sequences of code points, exceptions,
                      [float()], [int()], true division, slices, [dict]);
    - [Models]        [crawler/models.py];
    - [BaseCrawler]   [crawler/base_crawler.py];
    - [XiaohongshuCrawler]
                      [crawler/xiaohongshu_crawler.py];
    - [XiaohongshuApiCrawler]
                      [crawler/api_crawler.py];
    - [XiaohongshuCrawlerWithFallback]
                      [crawler/crawler_with_fallback.py];
    - [DataSaver]     [utils/data_saver.py];
    - [Analysis]      [utils/analysis.py].

    Definitions come first; the properties of the specification are
    stated and proved in the second half of the file. *)

From Stdlib Require Import ZArith NArith QArith Lia Lqa List Bool String Ascii.
From Stdlib Require Import Floats.SpecFloat.
From stdpp Require Import base option list sorting gmap.

Local Open Scope Z_scope.

(** * The Python runtime fragment *)

Module Py.

(** A [str] is a sequence of Unicode code points. *)
Definition pystr := list N.

(** ASCII literals of the sources, as code points. *)
Definition str (s : string) : pystr :=
  map N_of_ascii (list_ascii_of_string s).

(** The built-in exceptions that occur in the modelled code. *)
Inductive exn :=
| ValueError
| TypeError
| OverflowError
| AttributeError
| KeyError
| OtherError.

(** Evaluation of an expression either returns or raises. *)
Inductive outcome (A : Type) :=
| Returns (a : A)
| Raises (e : exn).
Arguments Returns {A} a.
Arguments Raises {A} e.

Definition bind {A B} (o : outcome A) (k : A -> outcome B) : outcome B :=
  match o with
  | Returns a => k a
  | Raises e => Raises e
  end.

Notation "x <- o ;; k" := (bind o (fun x => k))
  (at level 100, o at next level, right associativity).

(** ** Code points used by the sources *)

Definition cp_space : N := 32.
Definition cp_comma : N := 44.
Definition cp_plus : N := 43.
Definition cp_minus : N := 45.
Definition cp_dot : N := 46.
Definition cp_question : N := 63.
Definition cp_underscore : N := 95.
Definition cp_e : N := 101.
Definition cp_k : N := 107.
Definition cp_w : N := 119.
(** U+4E07, the ten-thousand character, and U+5343, the thousand character. *)
Definition cp_wan : N := 19975.
Definition cp_qian : N := 21315.

(** ** Character classes *)

Definition is_ascii_digit (c : N) : bool := (48 <=? c)%N && (c <=? 57)%N.

(** C's [Py_ISSPACE]: the six ASCII white-space characters. *)
Definition is_c_space (c : N) : bool :=
  ((9 <=? c)%N && (c <=? 13)%N) || (c =? 32)%N.

(** [str.isspace] on one code point ([_PyUnicode_IsWhitespace]). *)
Definition is_unicode_space (c : N) : bool :=
  ((9 <=? c)%N && (c <=? 13)%N) || ((28 <=? c)%N && (c <=? 32)%N)
  || (c =? 133)%N || (c =? 160)%N || (c =? 5760)%N
  || ((8192 <=? c)%N && (c <=? 8202)%N)
  || (c =? 8232)%N || (c =? 8233)%N || (c =? 8239)%N || (c =? 8287)%N
  || (c =? 12288)%N.

Definition ascii_lower (c : N) : N :=
  if (65 <=? c)%N && (c <=? 90)%N then (c + 32)%N else c.

(** Code points on which [str.lower] is the ASCII lowering: ASCII itself
    and the two CJK unit characters, which are caseless. *)
Definition simple_cp (c : N) : Prop :=
  (c < 128)%N \/ c = cp_wan \/ c = cp_qian.

(** The Unicode character database is not part of the sources.  The two
    tables the code depends on are taken as parameters: the lowercase
    mapping behind [str.lower] and the decimal-digit property consulted
    by [float()] for non-ASCII code points. *)
Class UnicodeData := {
  str_lower : pystr -> pystr;
  decimal_value : N -> option N;
  str_lower_simple :
    forall s, Forall simple_cp s -> str_lower s = map ascii_lower s;
  str_lower_minus :
    forall s, In cp_minus (str_lower s) -> In cp_minus s
}.

(** ** String methods *)

(** [s.replace(c, '')] for a one-character [c]. *)
Definition remove_char (c : N) (s : pystr) : pystr :=
  List.filter (fun x => negb (x =? c)%N) s.

(** [c in s] for a one-character [c]. *)
Definition contains_char (c : N) (s : pystr) : bool :=
  existsb (fun x => (x =? c)%N) s.

Fixpoint lstrip (sp : N -> bool) (s : pystr) : pystr :=
  match s with
  | c :: t => if sp c then lstrip sp t else s
  | [] => []
  end.

Definition rstrip (sp : N -> bool) (s : pystr) : pystr :=
  rev (lstrip sp (rev s)).

(** [s.strip()]. *)
Definition strip (s : pystr) : pystr :=
  rstrip is_unicode_space (lstrip is_unicode_space s).

(** Truth value of a string: [not s] holds for the empty string. *)
Definition str_falsy (s : pystr) : bool :=
  match s with [] => true | _ => false end.

(** ** Binary64 floating point

    Python's [float] is IEEE-754 binary64; arithmetic is the Standard
    Library's executable specification [SpecFloat] at precision 53. *)

Definition prec : Z := 53.
Definition emax : Z := 1024.
Definition float := spec_float.

Definition float_mul (x y : float) : float := SFmul prec emax x y.

(** [float(n)] for an [int] small enough to convert. *)
Definition float_of_Z (n : Z) : float := binary_normalize prec emax n 0 false.

(** The correctly rounded value of [(-1)^neg * digits * 10^exp10], as
    produced by [strtod]: one rounding of the exact decimal value. *)
Definition float_of_decimal (neg : bool) (digits : Z) (exp10 : Z) : float :=
  match digits with
  | Zpos d =>
      if 0 <=? exp10 then
        binary_round prec emax neg (Z.to_pos (Zpos d * 10 ^ exp10)) 0
      else
        let '(mz, ez, lz) :=
          SFdiv_core_binary prec emax (Zpos d) 0 (10 ^ (- exp10)) 0 in
        binary_round_aux prec emax neg mz ez lz
  | _ => S754_zero neg
  end.

(** [int(x)] for a float: truncation toward zero; infinities raise
    [OverflowError] and NaN raises [ValueError]. *)
Definition int_of_float (x : float) : outcome Z :=
  match x with
  | S754_zero _ => Returns 0
  | S754_finite s m e =>
      let mag := if 0 <=? e then Zpos m * 2 ^ e else Zpos m / 2 ^ (- e) in
      Returns (if s then - mag else mag)
  | S754_infinity _ => Raises OverflowError
  | S754_nan => Raises ValueError
  end.

(** The integer part of a finite float, toward zero. *)
Definition truncate (x : float) : Z :=
  match int_of_float x with
  | Returns z => z
  | Raises _ => 0
  end.

Definition is_finite (x : float) : bool :=
  match x with
  | S754_zero _ | S754_finite _ _ _ => true
  | _ => false
  end.

(** [x] is a NaN or carries the sign [neg]. *)
Definition has_sign (neg : bool) (x : float) : Prop :=
  match x with
  | S754_zero s | S754_infinity s | S754_finite s _ _ => s = neg
  | S754_nan => True
  end.

(** The least magnitude that rounds to infinity: [2^1024 - 2^970]. *)
Definition overflow_threshold : Z := 2 ^ 1024 - 2 ^ 970.

(** [a / b] on two [int]s: the correctly rounded quotient;
    [ZeroDivisionError] is not reachable in the modelled code (divisors
    are lengths of non-empty lists or the literal 2). *)
Definition int_truediv (a b : Z) : outcome float :=
  if b =? 0 then Raises OtherError
  else if overflow_threshold * Z.abs b <=? Z.abs a then Raises OverflowError
  else
    let neg := xorb (a <? 0) (b <? 0) in
    match Z.abs a with
    | Z0 => Returns (S754_zero neg)
    | ma =>
        let '(mz, ez, lz) := SFdiv_core_binary prec emax ma 0 (Z.abs b) 0 in
        Returns (binary_round_aux prec emax neg mz ez lz)
    end.

(** ** [float(s)] on a string *)

Section FloatOfString.
Context `{UnicodeData}.

(** [_PyUnicode_TransformDecimalAndSpaceToASCII]: code points below 127
    are kept, other white space becomes a blank, other decimal digits
    become ASCII digits, and anything else ends the string with [?]. *)
Fixpoint transform_decimal_and_space (s : pystr) : pystr :=
  match s with
  | [] => []
  | c :: t =>
      if (c <? 127)%N then c :: transform_decimal_and_space t
      else if is_unicode_space c then cp_space :: transform_decimal_and_space t
      else match decimal_value c with
           | Some d =>
               if (d <? 10)%N then (48 + d)%N :: transform_decimal_and_space t
               else [cp_question]
           | None => [cp_question]
           end
  end.

(** [_Py_string_to_number_with_underscores]: an underscore must stand
    between two digits; the underscores are dropped. [prev] is the
    previous character (0 at the start). *)
Fixpoint drop_underscores (prev : N) (s : pystr) : option pystr :=
  match s with
  | [] => if (prev =? cp_underscore)%N then None else Some []
  | c :: t =>
      if (c =? cp_underscore)%N then
        if is_ascii_digit prev then drop_underscores c t else None
      else if (prev =? cp_underscore)%N && negb (is_ascii_digit c) then None
      else option_map (cons c) (drop_underscores c t)
  end.

(** A maximal run of ASCII digits and what follows it. *)
Fixpoint span_digits (s : pystr) : pystr * pystr :=
  match s with
  | c :: t =>
      if is_ascii_digit c then
        let '(ds, r) := span_digits t in (c :: ds, r)
      else ([], s)
  | [] => ([], [])
  end.

Definition digits_value (ds : pystr) : Z :=
  fold_left (fun acc c => 10 * acc + Z.of_N (c - 48)) ds 0.

Definition take_sign (s : pystr) : bool * pystr :=
  match s with
  | c :: t =>
      if (c =? cp_minus)%N then (true, t)
      else if (c =? cp_plus)%N then (false, t)
      else (false, s)
  | [] => (false, [])
  end.

(** The exponent part: [e], an optional sign and at least one digit;
    otherwise nothing is consumed. *)
Definition take_exponent (s : pystr) : Z * pystr :=
  match s with
  | c :: t =>
      if (ascii_lower c =? cp_e)%N then
        let '(eneg, t1) := take_sign t in
        match span_digits t1 with
        | ([], _) => (0, s)
        | (ds, r) => ((if eneg then - digits_value ds else digits_value ds), r)
        end
      else (0, s)
  | [] => (0, [])
  end.

(** [_Py_parse_inf_or_nan] on the text after the sign. *)
Definition parse_inf_or_nan (neg : bool) (s : pystr) : option float :=
  let l := map ascii_lower s in
  if decide (l = str "inf" \/ l = str "infinity") then Some (S754_infinity neg)
  else if decide (l = str "nan") then Some S754_nan
  else None.

(** [_Py_dg_strtod] on the text after the sign: digits, an optional
    fraction, an optional exponent; at least one digit; all consumed. *)
Definition parse_decimal (neg : bool) (s : pystr) : option float :=
  let '(ip, s1) := span_digits s in
  let '(fp, s2) :=
    match s1 with
    | c :: t => if (c =? cp_dot)%N then span_digits t else ([], s1)
    | [] => ([], [])
    end in
  match ip ++ fp with
  | [] => None
  | ds =>
      let '(e, s3) := take_exponent s2 in
      match s3 with
      | [] => Some (float_of_decimal neg (digits_value ds)
                      (e - Z.of_nat (length fp)))
      | _ => None
      end
  end.

(** [float(s)]: [ValueError] unless the whole text is a float literal. *)
Definition float_of_str (s : pystr) : outcome float :=
  match drop_underscores 0%N (transform_decimal_and_space s) with
  | None => Raises ValueError
  | Some s1 =>
      let s2 := rstrip is_c_space (lstrip is_c_space s1) in
      let '(neg, body) := take_sign s2 in
      match parse_inf_or_nan neg body with
      | Some x => Returns x
      | None =>
          match parse_decimal neg body with
          | Some x => Returns x
          | None => Raises ValueError
          end
      end
  end.

End FloatOfString.

(** ** Sequences and dictionaries *)

(** [range(n)]: empty when [n <= 0]. *)
Definition range (n : Z) : list Z :=
  map Z.of_nat (seq 0 (Z.to_nat n)).

(** The slice [l[:n]]; a negative [n] counts from the end. *)
Definition slice_to {A} (l : list A) (n : Z) : list A :=
  if n <? 0 then firstn (Z.to_nat (Z.of_nat (length l) + n)) l
  else firstn (Z.to_nat n) l.

(** [enumerate(l)] starting at [i]. *)
Fixpoint enumerate_from {A} (i : Z) (l : list A) : list (Z * A) :=
  match l with
  | [] => []
  | x :: t => (i, x) :: enumerate_from (i + 1) t
  end.

(** A [dict] keyed by strings keeps its keys in insertion order;
    assigning to a key that is present replaces the value in place. *)
Definition dict (V : Type) := list (pystr * V).

Fixpoint dict_set {V} (d : dict V) (k : pystr) (v : V) : dict V :=
  match d with
  | [] => [(k, v)]
  | (k', v') :: t =>
      if decide (k = k') then (k, v) :: t else (k', v') :: dict_set t k v
  end.

Fixpoint dict_get {V} (d : dict V) (k : pystr) : option V :=
  match d with
  | [] => None
  | (k', v') :: t => if decide (k = k') then Some v' else dict_get t k
  end.

Definition dict_mem {V} (d : dict V) (k : pystr) : bool :=
  match dict_get d k with Some _ => true | None => false end.

(** ** Dates

    [datetime] values are only created by [datetime.now()], printed by
    [isoformat()] and read back by [fromisoformat()]; the library
    documents the latter as the inverse of the former. *)
Class DateTimeLib := {
  datetime : Type;
  isoformat : datetime -> pystr;
  fromisoformat : pystr -> option datetime;
  (** [strftime("%Y%m%d_%H%M%S")] *)
  strftime_compact : datetime -> pystr;
  fromisoformat_isoformat : forall d, fromisoformat (isoformat d) = Some d
}.

(** ** Random numbers

    The generator is the sequence of values that successive calls of
    [random.random()] return; [uniform(a, b)] is [a + (b - a) * random()]. *)
Definition rng := nat -> Q.

Definition uniform (g : rng) (k : nat) (a b : Q) : Q :=
  (a + (b - a) * g k)%Q.

End Py.

(** * crawler/models.py *)

Module Models.
Import Py.

Section WithDates.
Context `{DateTimeLib}.

Record HotSearchItem := {
  word : pystr;
  heat : Z;
  rank : Z;
  url : pystr;
  category : option pystr;
  tags : list pystr;
  created_at : datetime
}.

(** [total] is an ordinary field with default 0: the constructor takes
    any value for it. *)
Record HotSearchResult := {
  items : list HotSearchItem;
  total : Z;
  crawl_time : datetime;
  source : pystr
}.

(** [HotSearchResult()] at time [now]. *)
Definition default_result (now : datetime) : HotSearchResult :=
  {| items := []; total := 0; crawl_time := now; source := str "xiaohongshu" |}.

(** [self.items.append(item); self.total = len(self.items)]. *)
Definition add_item (self : HotSearchResult) (item : HotSearchItem)
  : HotSearchResult :=
  let items' := items self ++ [item] in
  {| items := items';
     total := Z.of_nat (length items');
     crawl_time := crawl_time self;
     source := source self |}.

(** [return self.items[:n]]: the object after the call and the value. *)
Definition get_top_n (self : HotSearchResult) (n : Z)
  : HotSearchResult * list HotSearchItem :=
  (self, slice_to (items self) n).

Definition filter_by_category (self : HotSearchResult) (c : pystr)
  : list HotSearchItem :=
  List.filter (fun item => bool_decide (category item = Some c)) (items self).

End WithDates.

Record CrawlerConfig := {
  hot_search_url : pystr;
  timeout : Z;
  max_retries : Z;
  request_delay : Z;
  user_agent : pystr;
  limit : Z;
  use_playwright : bool;
  browser_type : pystr;
  headless : bool
}.

End Models.

(** * crawler/base_crawler.py *)

Module BaseCrawler.
Import Py Models.

(** What one [session.get] followed by [raise_for_status()] and
    [response.json()] does: it yields the decoded body or raises a
    [RequestException] (transport failure, non-2xx status, undecodable
    body). *)
Inductive reply (A : Type) :=
| Body (data : A)
| RequestException.
Arguments Body {A} data.
Arguments RequestException {A}.

(** The transport is the sequence of replies to successive requests. *)
Definition transport (A : Type) := nat -> reply A.

Inductive event :=
| RandomDelay (seconds : Q)
| Request
| Backoff (seconds : Q).

(** Requests issued and random numbers drawn so far, and the trace. *)
Record run := {
  requests : nat;
  draws : nat;
  trace : list event
}.

Definition start : run := {| requests := 0; draws := 0; trace := [] |}.

Section Requests.
Context {A : Type}.
Variable config : CrawlerConfig.
Variable net : transport A.
Variable g : rng.

(** [_add_random_delay], for a delay that [time.sleep] accepts.  For a
    negative delay [time.sleep] raises [ValueError] and for one beyond
    what its clock holds [OverflowError]; the loop below does not catch
    either, so they end [_make_request] before any request.  Those runs
    are outside the model: the statements about the runs of the helper
    assume [sleepable] and [unit_interval] (below), under which no call
    of [time.sleep] raises. *)
Definition _add_random_delay (r : run) : run :=
  let delay :=
    uniform g (draws r) (inject_Z (request_delay config))
                        (inject_Z (request_delay config + 2)) in
  {| requests := requests r;
     draws := S (draws r);
     trace := trace r ++ [RandomDelay delay] |}.

(** The body of the [for attempt in range(max_retries)] loop, over the
    attempts that remain. *)
Fixpoint attempt_loop (attempts : list Z) (r : run) : option A * run :=
  match attempts with
  | [] => (None, r)
  | attempt :: rest =>
      let r1 := _add_random_delay r in
      let r2 := {| requests := S (requests r1);
                   draws := draws r1;
                   trace := trace r1 ++ [Request] |} in
      match net (requests r1) with
      | Body data => (Some data, r2)
      | RequestException =>
          if attempt =? max_retries config - 1 then (None, r2)
          else
            let wait_time :=
              (inject_Z (2 ^ attempt) + uniform g (draws r2) 1 3)%Q in
            attempt_loop rest
              {| requests := requests r2;
                 draws := S (draws r2);
                 trace := trace r2 ++ [Backoff wait_time] |}
      end
  end.

Definition _make_request (r : run) : option A * run :=
  attempt_loop (range (max_retries config)) r.

End Requests.

(** The events of the attempt at index [i] of a run in which all earlier
    attempts failed: the random delay and the request, and after a
    failure that is not the last one the back-off of
    [2^i + uniform(1, 3)] seconds. *)
Definition attempt_events (config : CrawlerConfig) (g : rng) (i : nat)
  : list event :=
  [RandomDelay (uniform g (2 * i) (inject_Z (request_delay config))
                                  (inject_Z (request_delay config + 2)));
   Request].

Definition failed_attempt_events (config : CrawlerConfig) (g : rng) (i : nat)
  : list event :=
  attempt_events config g i ++
  [Backoff (inject_Z (2 ^ Z.of_nat i) + uniform g (2 * i + 1) 1 3)%Q].

(** The state after [k] failed attempts that were not the last one. *)
Definition after_failures (config : CrawlerConfig) (g : rng) (k : nat) : run :=
  {| requests := k;
     draws := 2 * k;
     trace := concat (map (failed_attempt_events config g) (seq 0 k)) |}.

(** Observations on a trace. *)
Definition is_request (e : event) : bool :=
  match e with Request => true | _ => false end.

Definition is_backoff (e : event) : bool :=
  match e with Backoff _ => true | _ => false end.

Definition count_requests (t : list event) : nat :=
  length (List.filter is_request t).

Definition count_backoffs (t : list event) : nat :=
  length (List.filter is_backoff t).

(** The seconds spent in [time.sleep] along a trace. *)
Definition slept (t : list event) : Q :=
  fold_right (fun e acc =>
                match e with
                | RandomDelay s | Backoff s => (s + acc)%Q
                | Request => acc
                end) 0%Q t.

(** The generator behaves as [random.random()] does: every value lies
    between 0 and 1. *)
Definition unit_interval (g : rng) : Prop :=
  forall k, (0 <= g k)%Q /\ (g k <= 1)%Q.

(** [time.sleep] raises on a negative duration and on one beyond about
    [2^33] seconds, and neither exception is a [RequestException].  The
    configurations whose delays and back-offs stay inside that range: *)
Definition sleepable (config : CrawlerConfig) : Prop :=
  0 <= request_delay config <= 2 ^ 32 /\ max_retries config <= 32.

(** A duration that [time.sleep] accepts. *)
Definition accepted (e : event) : Prop :=
  match e with
  | RandomDelay s | Backoff s => (0 <= s)%Q /\ (s <= inject_Z (2 ^ 33))%Q
  | Request => True
  end.

End BaseCrawler.

(** * crawler/xiaohongshu_crawler.py *)

Module XiaohongshuCrawler.
Import Py Models.

(** The endpoint answers [{data: [{word, heat, url}]}]; every key may be
    missing, and a key that is present holds a value of its type. *)
Record page_entry := {
  e_word : option pystr;
  e_heat : option Z;
  e_url : option pystr
}.

Record page_body := {
  b_data : option (list page_entry)
}.

Record t := {
  config : CrawlerConfig;
  hot_search_url : pystr;
  limit : Z
}.

(** [XiaohongshuCrawler(config)]. *)
Definition init (config : CrawlerConfig) : t :=
  {| config := config;
     hot_search_url := Models.hot_search_url config;
     limit := Models.limit config |}.

Section Crawl.
Context `{DateTimeLib}.
Variable net : BaseCrawler.transport page_body.
Variable g : rng.
Variable now : datetime.

(** One turn of the loop of [_parse_hot_search_data]: the rank is the
    position of the entry, whether or not earlier entries were skipped. *)
Definition parse_entry (result : HotSearchResult) (ie : Z * page_entry)
  : HotSearchResult :=
  let '(idx, item_data) := ie in
  let word := default [] (e_word item_data) in
  let heat := default 0 (e_heat item_data) in
  let url := default [] (e_url item_data) in
  if str_falsy word then result
  else
    add_item result
      {| word := word; heat := heat; rank := idx + 1; url := url;
         category := None; tags := [];
         created_at := now |}.

(** The item that the entry at position [idx] contributes, if any. *)
Definition entry_item (ie : Z * page_entry) : option HotSearchItem :=
  let '(idx, item_data) := ie in
  match e_word item_data with
  | Some (c :: w) =>
      Some {| word := c :: w; heat := default 0 (e_heat item_data);
              rank := idx + 1; url := default [] (e_url item_data);
              category := None; tags := [];
              created_at := now |}
  | _ => None
  end.

(** [_parse_hot_search_data]: [None] when the body has no [data] key, an
    empty result when the list is empty. *)
Definition _parse_hot_search_data (self : t) (data : page_body)
  : option HotSearchResult :=
  let result := default_result now in
  match b_data data with
  | None => None
  | Some [] => Some result
  | Some items_data =>
      Some (fold_left parse_entry
              (enumerate_from 0 (slice_to items_data (limit self)))
              result)
  end.

(** [crawl_hot_search]: the request helper, then the parser.  (A body
    that is an empty object is falsy and answered with [None] before the
    parser is called; the parser answers [None] for it as well.) *)
Definition crawl_hot_search (self : t) (r : BaseCrawler.run)
  : option HotSearchResult * BaseCrawler.run :=
  let '(response_data, r) :=
    BaseCrawler._make_request (config self) net g r in
  match response_data with
  | None => (None, r)
  | Some data => (_parse_hot_search_data self data, r)
  end.

End Crawl.

(** The configuration of [create_default_crawler]. *)
Definition default_config : CrawlerConfig :=
  {| Models.hot_search_url := str "https://www.xiaohongshu.com";
     timeout := 30;
     max_retries := 3;
     request_delay := 3;
     user_agent :=
       str "Mozilla/5.0 (Windows NT 10.0; Win64; x64) AppleWebKit/537.36 (KHTML, like Gecko) Chrome/120.0.0.0 Safari/537.36";
     Models.limit := 50;
     use_playwright := false;
     browser_type := str "chromium";
     headless := true |}.

Definition create_default_crawler : t := init default_config.

End XiaohongshuCrawler.

(** * crawler/api_crawler.py *)

Module XiaohongshuApiCrawler.
Import Py Models.

(** The upstream API answers [{code, msg?, data: [{name, rank, viewnum,
    url, word_type}]}]; every key may be missing. *)
Record api_entry := {
  e_name : option pystr;
  e_rank : option Z;
  e_viewnum : option pystr;
  e_url : option pystr;
  e_word_type : option pystr
}.

Record api_body := {
  b_code : option Z;
  b_msg : option pystr;
  b_data : option (list api_entry)
}.

(** What [requests.get] gives for a key: an exception, or a response
    with a status and a body that decodes as JSON or does not. *)
Inductive api_reply :=
| ApiException
| ApiResponse (status_code : Z) (json : option api_body).

Inductive event :=
| HttpGet (url : pystr) (key : option pystr).

Record t := {
  api_key : option pystr;
  api_url : pystr;
  config : CrawlerConfig
}.

Definition the_api_url : pystr :=
  str "https://api.itapi.cn/api/hotnews/xiaohongshu".

(** [XiaohongshuApiCrawler(api_key, config)]. *)
Definition init (api_key : option pystr) (config : CrawlerConfig) : t :=
  {| api_key := api_key; api_url := the_api_url; config := config |}.

(** [not api_key]: [None] or the empty string. *)
Definition key_absent (k : option pystr) : bool :=
  match k with
  | None => true
  | Some s => str_falsy s
  end.

Section Parser.
Context `{UnicodeData}.

(** [heat_str.lower().strip()] without blanks and commas. *)
Definition normalized (heat_str : pystr) : pystr :=
  remove_char cp_comma (remove_char cp_space (strip (str_lower heat_str))).

Definition has_wan (s : pystr) : bool :=
  contains_char cp_wan s || contains_char cp_w s.

Definition has_qian (s : pystr) : bool :=
  contains_char cp_qian s || contains_char cp_k s.

(** The float that the three branches hand to [int()]. *)
Definition scaled (heat_str : pystr) : outcome float :=
  let heat_str := normalized heat_str in
  if has_wan heat_str then
    let num_str := remove_char cp_w (remove_char cp_wan heat_str) in
    x <- float_of_str num_str ;;
    Returns (float_mul x (float_of_Z 10000))
  else if has_qian heat_str then
    let num_str := remove_char cp_k (remove_char cp_qian heat_str) in
    x <- float_of_str num_str ;;
    Returns (float_mul x (float_of_Z 1000))
  else
    float_of_str heat_str.

(** [_parse_heat_value]: the body of the [try], then the handler for
    [ValueError] and [TypeError]. *)
Definition heat_value_body (heat_str : pystr) : outcome Z :=
  if str_falsy heat_str then Returns 0
  else x <- scaled heat_str ;; int_of_float x.

Definition _parse_heat_value (heat_str : pystr) : outcome Z :=
  match heat_value_body heat_str with
  | Raises ValueError | Raises TypeError => Returns 0
  | o => o
  end.

End Parser.

Section Crawl.
Context `{UnicodeData} `{DateTimeLib}.
Variable net : option pystr -> api_reply.
Variable now : datetime.

(** [_make_api_request]: one GET with the key as a query parameter. *)
Definition _make_api_request (self : t) : option api_body * list event :=
  let tr := [HttpGet (api_url self) (api_key self)] in
  match net (api_key self) with
  | ApiException => (None, tr)
  | ApiResponse status_code json =>
      if negb (status_code =? 200) then (None, tr)
      else match json with
           | None => (None, tr)
           | Some data =>
               if bool_decide (b_code data = Some 200) then (Some data, tr)
               else (None, tr)
           end
  end.

(** One turn of the loop of [_parse_api_data]; an exception raised by the
    heat parser is caught by the handler of the loop body and the entry
    is skipped. *)
Definition parse_entry (result : HotSearchResult) (ie : Z * api_entry)
  : HotSearchResult :=
  let '(idx, item_data) := ie in
  let word := default [] (e_name item_data) in
  let rank := default (idx + 1) (e_rank item_data) in
  let heat_str := default (str "0") (e_viewnum item_data) in
  let url := default [] (e_url item_data) in
  let word_type := default [28909%N] (e_word_type item_data) in
  if str_falsy word then result
  else
    match _parse_heat_value heat_str with
    | Raises _ => result
    | Returns heat =>
        add_item result
          {| word := word; heat := heat; rank := rank; url := url;
             category := Some word_type; tags := [];
             created_at := now |}
    end.

(** The item that the entry at position [idx] contributes, if any. *)
Definition entry_item (ie : Z * api_entry) : option HotSearchItem :=
  let '(idx, item_data) := ie in
  match e_name item_data,
        _parse_heat_value (default (str "0") (e_viewnum item_data)) with
  | Some (c :: w), Returns heat =>
      Some {| word := c :: w; heat := heat;
              rank := default (idx + 1) (e_rank item_data);
              url := default [] (e_url item_data);
              category := Some (default [28909%N] (e_word_type item_data));
              tags := [];
              created_at := now |}
  | _, _ => None
  end.

(** [_parse_api_data]; on a body of this shape no statement outside the
    handler of the loop body raises, so the outer handler is not
    reached. *)
Definition _parse_api_data (self : t) (data : api_body)
  : option HotSearchResult :=
  let result := default_result now in
  let hot_list := default [] (b_data data) in
  match hot_list with
  | [] => Some result
  | _ =>
      Some (fold_left parse_entry
              (enumerate_from 0 (slice_to hot_list (limit (config self))))
              result)
  end.

(** [crawl_hot_search]: the result and the network calls issued. *)
Definition crawl_hot_search (self : t)
  : option HotSearchResult * list event :=
  let '(api_data, tr) := _make_api_request self in
  match api_data with
  | None => (None, tr)
  | Some data => (_parse_api_data self data, tr)
  end.

End Crawl.

(** [create_api_crawler(api_key)]; [environ] is the value of the
    environment variable [XIAOHONGSHU_API_KEY]. *)
Definition create_api_crawler (api_key environ : option pystr) : outcome t :=
  let api_key := if key_absent api_key then environ else api_key in
  if key_absent api_key then Raises ValueError
  else
    Returns
      (init api_key
         {| hot_search_url := the_api_url;
            timeout := 30;
            max_retries := 3;
            request_delay := 3;
            user_agent := str "XiaohongshuApiCrawler/1.0";
            limit := 50;
            use_playwright := false;
            browser_type := str "chromium";
            headless := true |}).

End XiaohongshuApiCrawler.

(** * crawler/crawler_with_fallback.py *)

Module XiaohongshuCrawlerWithFallback.
Import Py Models.

(** ** The browser installation

    The resources Playwright hands out and the calls made during a
    browser session.  A context belongs to the browser that created it
    and a page to its context; closing a resource closes what belongs to
    it. *)
Inductive resource := Engine | Browser | Context | Page.

Record handle := {
  h_kind : resource;
  h_id : nat;
  h_owner : option nat
}.

Inductive call :=
| Start | Launch | NewContext | NewPage | SetDefaultTimeout | Goto | Sleep5
| Content | Count | TextContent (i : nat) | Evaluate | ElementHandles
| ScriptTextContent (j : nat)
| PageClose | ContextClose | BrowserClose | Stop.

Record world := {
  next_id : nat;
  live : list handle;
  calls : list call
}.

Definition fresh_world : world := {| next_id := 0; live := []; calls := [] |}.

Definition record_call (c : call) (w : world) : world :=
  {| next_id := next_id w; live := live w; calls := calls w ++ [c] |}.

Definition acquire (k : resource) (owner : option nat) (w : world)
  : nat * world :=
  (next_id w,
   {| next_id := S (next_id w);
      live := live w ++ [{| h_kind := k; h_id := next_id w; h_owner := owner |}];
      calls := calls w |}).

(** [h] is the resource [root], belongs to it, or belongs to something
    that belongs to it. *)
Definition belongs_to (l : list handle) (root : nat) (h : handle) : bool :=
  (h_id h =? root)%nat ||
  match h_owner h with
  | None => false
  | Some o =>
      (o =? root)%nat ||
      existsb (fun h' => (h_id h' =? o)%nat &&
                         bool_decide (h_owner h' = Some root)) l
  end.

Definition release (root : nat) (w : world) : world :=
  {| next_id := next_id w;
     live := List.filter (fun h => negb (belongs_to (live w) root h)) (live w);
     calls := calls w |}.

(** What [text_content()] of a matched element does. *)
Inductive text_result :=
| TextRaises
| TextNone
| Text (s : pystr).

(** The behaviour of the browser during one run: which calls raise, how
    many elements the selector matches and what their texts are, and how
    many [script] elements the page holds.  The page is static: [count()]
    gives the same answer each time it is asked.  ([evaluate] and the
    [text_content()] of a script element are called inside handlers of
    their own, so whether they raise makes no difference to the run.) *)
Record script := {
  playwright_available : bool;
  start_ok : bool;
  launch_ok : bool;
  new_context_ok : bool;
  new_page_ok : bool;
  set_default_timeout_ok : bool;
  goto_ok : bool;
  content_ok : bool;
  locator_count : outcome nat;
  element_text : nat -> text_result;
  evaluate_ok : bool;
  element_handles_ok : bool;
  script_elements : nat;
  page_close_ok : bool;
  context_close_ok : bool;
  browser_close_ok : bool;
  playwright_stop_ok : bool
}.

(** ** The crawler object *)

Record t := {
  config : CrawlerConfig;
  use_playwright : bool;
  browser : option nat;
  playwright : option nat
}.

Section Crawler.
Context `{DateTimeLib}.
Variable sc : script.
Variable now : datetime.

(** [__init__]. *)
Definition init (config : CrawlerConfig) : t :=
  {| config := config;
     use_playwright := Models.use_playwright config && playwright_available sc;
     browser := None;
     playwright := None |}.

Definition disable (self : t) : t :=
  {| config := config self; use_playwright := false;
     browser := browser self; playwright := playwright self |}.

(** [_setup_playwright]. *)
Definition _setup_playwright (self : t) (w : world) : bool * t * world :=
  if negb (use_playwright self) then (false, self, w)
  else
    let w := record_call Start w in
    if negb (start_ok sc) then (false, disable self, w)
    else
      let '(e, w) := acquire Engine None w in
      let self := {| config := config self;
                     use_playwright := use_playwright self;
                     browser := browser self;
                     playwright := Some e |} in
      let w := record_call Launch w in
      if negb (launch_ok sc) then (false, disable self, w)
      else
        let '(b, w) := acquire Browser None w in
        (true,
         {| config := config self;
            use_playwright := use_playwright self;
            browser := Some b;
            playwright := playwright self |},
         w).

(** The item built from the text of the [i]-th element. *)
Definition element_item (i : Z) (text_content : pystr) : HotSearchItem :=
  {| word := strip text_content; heat := 0; rank := i + 1;
     url := []; category := None; tags := [];
     created_at := now |}.

(** One turn of the loop over the matched elements. *)
Definition extract_element (acc : HotSearchResult * world) (i : Z)
  : HotSearchResult * world :=
  let '(result, w) := acc in
  let w := record_call (TextContent (Z.to_nat i)) w in
  match element_text sc (Z.to_nat i) with
  | TextRaises => (result, w)
  | TextNone => (result, w)
  | Text text_content =>
      if str_falsy text_content then (result, w)
      else
        (add_item result (element_item i text_content), w)
  end.

(** The loop over the [script] elements: [text_content()] is asked of
    each one, and nothing is done with the answer. *)
Definition scan_scripts (w : world) : world :=
  {| next_id := next_id w;
     live := live w;
     calls := calls w ++ map ScriptTextContent (seq 0 (script_elements sc)) |}.

(** [_extract_data_from_page]: only the element query fills the result;
    the probe of the [window] object and the scan of the scripts leave
    it alone, but a failure to list the scripts reaches the outer
    handler.  When elements are matched [count()] is asked three times:
    by the test, by the log line and by the bound of the loop. *)
Definition _extract_data_from_page (self : t) (w : world)
  : option HotSearchResult * world :=
  let result := default_result now in
  let w := record_call Count w in
  match locator_count sc with
  | Raises _ => (None, w)
  | Returns n =>
      let '(result, w) :=
        if (0 <? n)%nat then
          let w := record_call Count w in
          let w := record_call Count w in
          fold_left extract_element
            (range (Z.min (Z.of_nat n) (limit (config self)))) (result, w)
        else (result, w) in
      let w := record_call Evaluate w in
      let w := record_call ElementHandles w in
      if negb (element_handles_ok sc) then (None, w)
      else
        let w := scan_scripts w in
        if 0 <? total result then (Some result, w)
        else (None, w)
  end.

(** [_crawl_with_playwright]. *)
Definition _crawl_with_playwright (self : t) (w : world)
  : option HotSearchResult * world :=
  match browser self with
  | None => (None, w)
  | Some b =>
      let w := record_call NewContext w in
      if negb (new_context_ok sc) then (None, w) else
      let '(context, w) := acquire Context (Some b) w in
      let w := record_call NewPage w in
      if negb (new_page_ok sc) then (None, w) else
      let '(page, w) := acquire Page (Some context) w in
      let w := record_call SetDefaultTimeout w in
      if negb (set_default_timeout_ok sc) then (None, w) else
      let w := record_call Goto w in
      if negb (goto_ok sc) then (None, w) else
      let w := record_call Sleep5 w in
      let w := record_call Content w in
      if negb (content_ok sc) then (None, w) else
      let '(result, w) := _extract_data_from_page self w in
      let w := record_call PageClose w in
      if negb (page_close_ok sc) then (None, w) else
      let w := release page w in
      let w := record_call ContextClose w in
      if negb (context_close_ok sc) then (None, w) else
      let w := release context w in
      (result, w)
  end.

(** The part of [crawl_hot_search] after the first [return]. *)
Definition browser_fallback (self : t) (w : world)
  : option HotSearchResult * t * world :=
  if use_playwright self then
    let '(ok, self', w') := _setup_playwright self w in
    if ok then
      let '(result, w'') := _crawl_with_playwright self' w' in
      (result, self', w'')
    else (None, self', w')
  else (None, self, w).

(** [crawl_hot_search]; [primary] is what [super().crawl_hot_search()]
    returned. *)
Definition crawl_hot_search (primary : option HotSearchResult)
    (self : t) (w : world) : option HotSearchResult * t * world :=
  match primary with
  | Some result =>
      if 0 <? total result then (Some result, self, w)
      else browser_fallback self w
  | None => browser_fallback self w
  end.

(** [close]: each teardown call is attempted when its handle is set, and
    a failure is logged and swallowed. *)
Definition close (self : t) (w : world) : world :=
  let w :=
    match browser self with
    | None => w
    | Some b =>
        let w := record_call BrowserClose w in
        if browser_close_ok sc then release b w else w
    end in
  match playwright self with
  | None => w
  | Some e =>
      let w := record_call Stop w in
      if playwright_stop_ok sc then release e w else w
  end.

End Crawler.

(** The engine starts and the browser launches. *)
Definition engine_ok (sc : script) : bool := start_ok sc && launch_ok sc.

(** No call of the page session raises, from [new_context] to
    [context.close]. *)
Definition session_ok (sc : script) : bool :=
  new_context_ok sc && new_page_ok sc && set_default_timeout_ok sc &&
  goto_ok sc && content_ok sc && page_close_ok sc && context_close_ok sc.

(** The text of the [i]-th matched element, when it has one. *)
Definition text_of (sc : script) (i : Z) : pystr :=
  match element_text sc (Z.to_nat i) with
  | Text s => s
  | _ => []
  end.

(** Identifiers in use are below the next one to be handed out. *)
Definition well_formed (w : world) : Prop :=
  Forall (fun h => (h_id h < next_id w)%nat /\
                   match h_owner h with
                   | Some o => (o < next_id w)%nat
                   | None => True
                   end) (live w).

(** The primary strategy produced nothing usable. *)
Definition primary_empty `{DateTimeLib} (p : option HotSearchResult) : Prop :=
  match p with
  | None => True
  | Some r => total r <= 0
  end.

Section Online.
Context `{DateTimeLib}.
Variable sc : script.
Variable net : BaseCrawler.transport XiaohongshuCrawler.page_body.
Variable g : rng.
Variable now : datetime.

(** [crawl_hot_search] from its first line: [super().crawl_hot_search()]
    runs the request helper and the parser of the parent class, and its
    result is handed to the rest of the method. *)
Definition crawl_hot_search_online (self : t) (r : BaseCrawler.run)
    (w : world) : option HotSearchResult * t * BaseCrawler.run * world :=
  let '(primary, r) :=
    XiaohongshuCrawler.crawl_hot_search net g now
      (XiaohongshuCrawler.init (config self)) r in
  let '(result, self, w) := crawl_hot_search sc now primary self w in
  (result, self, r, w).

(** [create_crawler_with_fallback()]. *)
Definition create_crawler_with_fallback : t :=
  init sc
    {| hot_search_url := str "https://www.xiaohongshu.com";
       timeout := 30;
       max_retries := 3;
       request_delay := 3;
       user_agent :=
         str "Mozilla/5.0 (Windows NT 10.0; Win64; x64) AppleWebKit/537.36 (KHTML, like Gecko) Chrome/120.0.0.0 Safari/537.36";
       limit := 50;
       Models.use_playwright := true;
       browser_type := str "chromium";
       headless := true |}.

End Online.

(** The matched elements whose [text_content] was asked, among the
    calls made, and the script elements whose [text_content] was. *)
Definition texts_read (cs : list call) : list nat :=
  omap (fun c => match c with TextContent i => Some i | _ => None end) cs.

Definition scripts_read (cs : list call) : list nat :=
  omap (fun c => match c with ScriptTextContent j => Some j | _ => None end)
       cs.

End XiaohongshuCrawlerWithFallback.

(** * utils/data_saver.py *)

Module DataSaver.
Import Py Models.

(** A path is its sequence of components; [p / name] appends one. *)
Definition path := list pystr.

Definition join (p : path) (name : pystr) : path := p ++ [name].

(** [Path(p).name]. *)
Definition name (p : path) : pystr := List.last p [].

(** A file name that is one path component: not empty, without [/] or
    NUL, and neither [.] nor [..].  For such a name [dir / name] is the
    file of that name in [dir], and files are the same when their
    components are. *)
Definition plain_name (f : pystr) : Prop :=
  f <> [] /\ ~ In 47%N f /\ ~ In 0%N f /\ f <> [46%N] /\ f <> [46%N; 46%N].

(** What [json.dump] into a UTF-8 file and [json.load] can carry.  A
    string is written when each of its characters is a Unicode scalar
    value: a surrogate code point makes the encoder raise
    [UnicodeEncodeError].  An integer is written and read back when it
    has at most 4300 decimal digits, the limit of the conversion between
    [int] and [str]. *)
Definition encodable (s : pystr) : Prop :=
  Forall (fun c => (c < 55296 \/ 57343 < c <= 1114111)%N) s.

Definition printable (n : Z) : Prop := Z.abs n < 10 ^ 4300.

(** The persisted document: [json.dump] writes it and [json.load] reads
    it back; a key may be missing from a file that was not written by
    [save_json]. *)
Record item_dict := {
  j_word : option pystr;
  j_heat : option Z;
  j_rank : option Z;
  j_url : option pystr;
  j_category : option pystr;
  j_tags : option (list pystr);
  j_created_at : option pystr
}.

Record data_dict := {
  j_total : option Z;
  j_crawl_time : option pystr;
  j_source : option pystr;
  j_items : option (list item_dict)
}.

(** The JSON files on disk. *)
Abbreviation filesystem := (gmap path data_dict).

Record t := {
  data_dir : path;
  output_dir : path;
  base_output_dir : path;
  current_session_dir : option path
}.

(** [DataSaver(data_dir, output_dir, base_output_dir)]. *)
Definition init (data_dir output_dir base_output_dir : path) : t :=
  {| data_dir := data_dir; output_dir := output_dir;
     base_output_dir := base_output_dir; current_session_dir := None |}.

(** [create_session_directory(ymd, time_str)] with both arguments given. *)
Definition create_session_directory (self : t) (ymd time_str : pystr)
  : t * path :=
  let session_dir := join (join (base_output_dir self) ymd) time_str in
  ({| data_dir := data_dir self; output_dir := session_dir;
      base_output_dir := base_output_dir self;
      current_session_dir := Some session_dir |},
   session_dir).

Section WithDates.
Context `{DateTimeLib}.

Definition item_to_dict (item : HotSearchItem) : item_dict :=
  {| j_word := Some (word item);
     j_heat := Some (heat item);
     j_rank := Some (rank item);
     j_url := Some (url item);
     j_category := category item;
     j_tags := Some (tags item);
     j_created_at := Some (isoformat (created_at item)) |}.

Definition storable_item (item : HotSearchItem) : Prop :=
  encodable (word item) /\ encodable (url item) /\
  (forall c, category item = Some c -> encodable c) /\
  Forall encodable (tags item) /\
  printable (heat item) /\ printable (rank item).

(** A result that [save_json] can write, the file system permitting. *)
Definition storable (data : HotSearchResult) : Prop :=
  Forall storable_item (items data) /\
  encodable (source data) /\ printable (total data).

(** [save_json], for a write that succeeds: the path written and the
    file system afterwards.  The handler of the source logs and
    re-raises; a write fails when the file cannot be opened (a missing
    or read-only directory, a name the file system refuses) or when the
    document cannot be encoded (see [storable]).  Those runs are outside
    the model: the statements about [save_json] are about writes that
    succeed, under names that are one path component ([plain_name]). *)
Definition save_json (self : t) (now : datetime) (data : HotSearchResult)
    (filename : option pystr) (save_to_crawl_data : bool) (fs : filesystem)
  : path * filesystem :=
  let filename :=
    match filename with
    | Some (c :: f) => c :: f
    | _ => str "xiaohongshu_hot_search_" ++ strftime_compact now ++ str ".json"
    end in
  let file_path :=
    match save_to_crawl_data, current_session_dir self with
    | true, Some d => join (join d (str "crawl_data")) filename
    | _, _ => join (data_dir self) filename
    end in
  let data_dict :=
    {| j_total := Some (total data);
       j_crawl_time := Some (isoformat (crawl_time data));
       j_source := Some (source data);
       j_items := Some (map item_to_dict (items data)) |} in
  (file_path, <[file_path := data_dict]> fs).

(** An entry of the [items] array; a missing required key is a
    [KeyError] and an unreadable date a [ValueError]. *)
Definition item_of_dict (now : datetime) (item_data : item_dict)
  : option HotSearchItem :=
  w ← j_word item_data;
  h ← j_heat item_data;
  r ← j_rank item_data;
  u ← j_url item_data;
  c ← fromisoformat (default (isoformat now) (j_created_at item_data));
  Some {| word := w; heat := h; rank := r; url := u;
          category := j_category item_data;
          tags := default [] (j_tags item_data);
          created_at := c |}.

(** The loop of [load_json]: any exception abandons the load. *)
Fixpoint load_items (now : datetime) (l : list item_dict)
    (result : HotSearchResult) : option HotSearchResult :=
  match l with
  | [] => Some result
  | item_data :: rest =>
      item ← item_of_dict now item_data;
      load_items now rest (add_item result item)
  end.

(** [load_json]: [None] when the file is missing or unreadable. *)
Definition load_json (self : t) (now : datetime) (filename : pystr)
    (fs : filesystem) : option HotSearchResult :=
  let file_path := join (data_dir self) filename in
  data_dict ← fs !! file_path;
  ct ← fromisoformat (default (isoformat now) (j_crawl_time data_dict));
  let result :=
    {| items := [];
       total := default 0 (j_total data_dict);
       crawl_time := ct;
       source := default (str "xiaohongshu") (j_source data_dict) |} in
  load_items now (default [] (j_items data_dict)) result.

(** An entry of the [items] array from which a [HotSearchItem] can be
    built: the four required keys are present and the date, when there
    is one, is in ISO format. *)
Definition readable (item_data : item_dict) : Prop :=
  is_Some (j_word item_data) /\ is_Some (j_heat item_data) /\
  is_Some (j_rank item_data) /\ is_Some (j_url item_data) /\
  forall s, j_created_at item_data = Some s -> is_Some (fromisoformat s).

End WithDates.

End DataSaver.

(** * utils/analysis.py *)

Module Analysis.
Import Py Models.

(** A Python number: an [int] or a [float]. *)
Inductive number :=
| Int (n : Z)
| Float (x : float).

(** ** The [statistics] functions and [Counter] *)

Definition sum_Z (data : list Z) : Z := fold_right Z.add 0 data.

(** [statistics.mean] on [int]s: the exact quotient when it is an
    integer, otherwise its conversion to [float]. *)
Definition mean (data : list Z) : outcome number :=
  match data with
  | [] => Raises OtherError
  | _ =>
      let total := sum_Z data in
      let n := Z.of_nat (length data) in
      if total mod n =? 0 then Returns (Int (total / n))
      else x <- int_truediv total n ;; Returns (Float x)
  end.

(** [statistics.median] on [int]s. *)
Definition median (data : list Z) : outcome number :=
  let data := merge_sort Z.le data in
  let n := length data in
  match data with
  | [] => Raises OtherError
  | _ =>
      if Nat.odd n then Returns (Int (nth (n / 2)%nat data 0))
      else
        let i := (n / 2)%nat in
        x <- int_truediv (nth (i - 1)%nat data 0 + nth i data 0) 2 ;;
        Returns (Float x)
  end.

(** [max] and [min] of a non-empty list. *)
Definition max_list (data : list Z) : Z :=
  match data with
  | [] => 0
  | x :: t => fold_left Z.max t x
  end.

Definition min_list (data : list Z) : Z :=
  match data with
  | [] => 0
  | x :: t => fold_left Z.min t x
  end.

(** [Counter(l)]: counts in order of first occurrence. *)
Definition counter_add (c : dict Z) (k : pystr) : dict Z :=
  dict_set c k (default 0 (dict_get c k) + 1).

Definition Counter (l : list pystr) : dict Z := fold_left counter_add l [].

(** [most_common(n)]: by decreasing count, ties in insertion order. *)
Fixpoint insert_by_count (x : pystr * Z) (l : dict Z) : dict Z :=
  match l with
  | [] => [x]
  | y :: t => if snd y <? snd x then x :: y :: t else y :: insert_by_count x t
  end.

Definition most_common (n : nat) (c : dict Z) : dict Z :=
  firstn n (fold_left (fun acc x => insert_by_count x acc) c []).

(** [s.split()]: the maximal runs of non-space characters. *)
Fixpoint split_ws (cur : pystr) (s : pystr) : list pystr :=
  match s with
  | [] => match cur with [] => [] | _ => [rev cur] end
  | c :: t =>
      if is_unicode_space c then
        match cur with
        | [] => split_ws [] t
        | _ => rev cur :: split_ws [] t
        end
      else split_ws (c :: cur) t
  end.

Definition split (s : pystr) : list pystr := split_ws [] s.

(** The format specification [,.0f] converts an [int] to [float] first. *)
Definition format_f (x : number) : outcome unit :=
  match x with
  | Int n =>
      if overflow_threshold <=? Z.abs n then Raises OverflowError
      else Returns tt
  | Float _ => Returns tt
  end.

(** ** [analyze_hot_search_data] *)

Record heat_summary := {
  avg_heat : number;
  max_heat : number;
  min_heat : number;
  median_heat : number
}.

Record analysis := {
  total_items : Z;
  heat_stats : heat_summary;
  categories : dict Z;
  avg_word_length : number;
  top_tags : dict Z;
  top_words : dict Z;
  crawl_time_iso : pystr
}.

Section WithDates.
Context `{DateTimeLib}.

(** [[item.heat for item in items if item.heat > 0]]. *)
Definition heat_values (items : list HotSearchItem) : list Z :=
  List.filter (fun h => 0 <? h) (map Models.heat items).

(** The body of the [try] after the guard. *)
Definition analysis_body (result : HotSearchResult) : outcome analysis :=
  let items := Models.items result in
  let total_items := Z.of_nat (length items) in
  let heat_values := heat_values items in
  let nonempty := match heat_values with [] => false | _ => true end in
  avg_heat <- (if nonempty then mean heat_values else Returns (Int 0)) ;;
  let max_heat := if nonempty then max_list heat_values else 0 in
  let min_heat := if nonempty then min_list heat_values else 0 in
  median_heat <- (if nonempty then median heat_values else Returns (Int 0)) ;;
  let categories :=
    omap (fun item =>
            match Models.category item with
            | Some (c :: s) => Some (c :: s)
            | _ => None
            end) items in
  let category_count := Counter categories in
  let word_lengths := map (fun item => Z.of_nat (length (word item))) items in
  avg_length <-
    (match word_lengths with [] => Returns (Int 0) | _ => mean word_lengths end) ;;
  let tag_count := Counter (concat (map tags items)) in
  let word_freq := Counter (concat (map (fun item => split (word item)) items)) in
  let analysis_result :=
    {| total_items := total_items;
       heat_stats := {| avg_heat := avg_heat;
                        max_heat := Int max_heat;
                        min_heat := Int min_heat;
                        median_heat := median_heat |};
       categories := category_count;
       avg_word_length := avg_length;
       top_tags := most_common 10 tag_count;
       top_words := most_common 20 word_freq;
       crawl_time_iso := isoformat (crawl_time result) |} in
  _ <- format_f avg_heat ;;
  _ <- format_f (Int max_heat) ;;
  Returns analysis_result.

(** [analyze_hot_search_data]: the guard tests the [total] field; any
    exception of the body is logged and turned into [None]. *)
Definition analyze_hot_search_data (result : option HotSearchResult)
  : option analysis :=
  match result with
  | None => None
  | Some result =>
      if Models.total result =? 0 then None
      else match analysis_body result with
           | Returns a => Some a
           | Raises _ => None
           end
  end.

(** Every heat value and every term length converts to a finite
    [float]. *)
Definition convertible (result : HotSearchResult) : Prop :=
  Forall (fun item => Models.heat item < overflow_threshold /\
                      Z.of_nat (length (word item)) < overflow_threshold)
         (Models.items result).

Definition no_heat : heat_summary :=
  {| avg_heat := Int 0; max_heat := Int 0; min_heat := Int 0;
     median_heat := Int 0 |}.

(** ** [generate_trend_analysis] *)

Record rank_change := {
  rc_word : pystr;
  current_rank : Z;
  previous_rank : Z;
  change : Z
}.

Inductive trend :=
| NoPreviousData
| Trend (new_items removed_items : Z) (rank_changes : list rank_change)
        (new_words_list removed_words_list : list pystr).

(** The last item of [items] whose word is [w]. *)
Definition last_with (items : list HotSearchItem) (w : pystr)
  : option HotSearchItem :=
  fold_left (fun acc item => if decide (word item = w) then Some item else acc)
            items None.

(** [{item.word: item for item in items}], built on top of [d]. *)
Definition word_map_from (d : dict HotSearchItem) (items : list HotSearchItem)
  : dict HotSearchItem :=
  fold_left (fun d item => dict_set d (word item) item) items d.

Definition word_map (items : list HotSearchItem) : dict HotSearchItem :=
  word_map_from [] items.

(** The values of [a] whose key is not a key of [b], in the order of [a]. *)
Definition only_in (a b : dict HotSearchItem) : list HotSearchItem :=
  omap (fun kv => if dict_mem b (fst kv) then None else Some (snd kv)) a.

Definition rank_changes_of (current_words previous_words : dict HotSearchItem)
  : list rank_change :=
  omap (fun kv =>
          let '(word, current_item) := kv in
          match dict_get previous_words word with
          | None => None
          | Some previous_item =>
              let rank_change := rank previous_item - rank current_item in
              if rank_change =? 0 then None
              else Some {| rc_word := word;
                           current_rank := rank current_item;
                           previous_rank := rank previous_item;
                           change := rank_change |}
          end) current_words.

Definition generate_trend_analysis (current_items : list HotSearchItem)
    (previous_items : option (list HotSearchItem)) : trend :=
  match previous_items with
  | None | Some [] => NoPreviousData
  | Some previous_items =>
      let current_words := word_map current_items in
      let previous_words := word_map previous_items in
      let new_words := only_in current_words previous_words in
      let removed_words := only_in previous_words current_words in
      Trend (Z.of_nat (length new_words))
            (Z.of_nat (length removed_words))
            (rank_changes_of current_words previous_words)
            (map word (slice_to new_words 10))
            (map word (slice_to removed_words 10))
  end.

(** ** [categorize_hot_search_items] *)

(** The key for items without a category: U+5176 U+4ED6. *)
Definition other_category : pystr := [20854%N; 20182%N].

(** [item.category or other_category]. *)
Definition category_key (item : HotSearchItem) : pystr :=
  match Models.category item with
  | Some (c :: s) => c :: s
  | _ => other_category
  end.

(** One turn of the loop: the group is created when the key is new, and
    the item is appended to it. *)
Definition categorize_step (categories : dict (list HotSearchItem))
    (item : HotSearchItem) : dict (list HotSearchItem) :=
  let category := category_key item in
  let categories :=
    if dict_mem categories category then categories
    else dict_set categories category [] in
  dict_set categories category
    (default [] (dict_get categories category) ++ [item]).

Definition categorize_hot_search_items (items : list HotSearchItem)
  : dict (list HotSearchItem) :=
  fold_left categorize_step items [].

(** ** [extract_keywords_from_items] *)

(** The characters of the argument of [strip]: two adjacent literals,
    the first ending in two ASCII double quotes. *)
Definition punctuation : list N :=
  [65292; 12290; 65281; 65311; 12289; 65306; 65307; 34; 34;
   65288; 65289; 12304; 12305; 12298; 12299]%N.

(** [s.strip(chars)]. *)
Definition strip_chars (chars : list N) (s : pystr) : pystr :=
  rstrip (fun c => bool_decide (c ∈ chars))
         (lstrip (fun c => bool_decide (c ∈ chars)) s).

(** The list [keywords] when the loops are over. *)
Definition keywords_of (items : list HotSearchItem) : list pystr :=
  flat_map (fun item =>
              List.filter (fun w => (2 <=? length w)%nat)
                (map (strip_chars punctuation) (split (word item))))
           items.

(** [list(set(keywords))]: the distinct keywords, in an order that the
    language leaves open. *)
Definition extract_keywords_from_items (items : list HotSearchItem)
  : list pystr :=
  elements (list_to_set (keywords_of items) : gset pystr).

End WithDates.

(** ** Reading a counter *)

(** How often [k] occurs in [l]. *)
Definition occurrences (l : list pystr) (k : pystr) : Z :=
  Z.of_nat (length (List.filter (fun x => bool_decide (x = k)) l)).

(** [top] lists [n] most frequent elements of [l] with their counts, by
    decreasing count - or all elements, when there are fewer than [n]. *)
Definition most_frequent (n : nat) (l : list pystr) (top : dict Z) : Prop :=
  (length top <= n)%nat /\
  List.NoDup (map fst top) /\
  StronglySorted (fun x y => snd y <= snd x) top /\
  (forall k c, In (k, c) top -> c = occurrences l k /\ 0 < c) /\
  (forall k, In k l ->
             In k (map fst top) \/
             (length top = n /\
              Forall (fun x => occurrences l k <= snd x) top)).

(** ** Reading a trend report *)

(** The distinct elements of [l], in the order in which they first
    occur. *)
Fixpoint first_occurrences (l : list pystr) : list pystr :=
  match l with
  | [] => []
  | w :: l =>
      w :: List.filter (fun x => negb (bool_decide (x = w)))
             (first_occurrences l)
  end.

(** The terms of [a] that do not occur in [b], each once, in the order
    in which they first occur in [a]. *)
Definition terms_only_in `{DateTimeLib} (a b : list HotSearchItem)
  : list pystr :=
  List.filter (fun w => negb (bool_decide (w ∈ map word b)))
    (first_occurrences (map word a)).

(** The terms of [a] that occur in [b] as well with another rank, each
    once, in the order in which they first occur in [a]; the rank of a
    term is the rank of the last item that carries it. *)
Definition terms_moved `{DateTimeLib} (a b : list HotSearchItem)
  : list pystr :=
  List.filter (fun w => match last_with a w, last_with b w with
                        | Some ci, Some pi => negb (rank pi - rank ci =? 0)
                        | _, _ => false
                        end)
    (first_occurrences (map word a)).

End Analysis.

(** * Reference instances

    A Unicode database that knows ASCII only, and a clock whose values
    are their own ISO text.  They show that the interfaces of [Py] can be
    met, and they are the instances at which concrete runs are
    evaluated. *)

Module Reference.
Import Py.

#[export] Instance ascii_unicode : UnicodeData.
Proof.
  refine {| str_lower := map ascii_lower; decimal_value := fun _ => None |}.
  - reflexivity.
  - intros s Hin. apply in_map_iff in Hin as (c & Hc & Hin).
    revert Hc. unfold ascii_lower, cp_minus.
    destruct ((65 <=? c)%N && (c <=? 90)%N) eqn:E; [|by intros ->].
    apply andb_true_iff in E as [E1 E2].
    apply N.leb_le in E1. apply N.leb_le in E2. lia.
Defined.

#[export] Instance text_dates : DateTimeLib :=
  {| datetime := pystr;
     isoformat := fun d => d;
     fromisoformat := fun s => Some s;
     strftime_compact := fun d => d;
     fromisoformat_isoformat := fun d => eq_refl |}.

End Reference.

(** * Sample data

    Concrete values at which the definitions are evaluated. *)
Module Samples.
Import Py Models Reference.

Definition item (w : string) (h r : Z) : HotSearchItem :=
  {| word := str w; heat := h; rank := r; url := []; category := None;
     tags := []; created_at := str "2025-01-01T00:00:00" |}.

Definition clock : datetime := str "2025-01-02T00:00:00".

Definition three : HotSearchResult :=
  fold_left add_item [item "a" 30 1; item "b" 20 2; item "c" 10 3]
    (default_result clock).

(** A browser in which every call succeeds and the selector matches
    three elements. *)
Definition stub_script : XiaohongshuCrawlerWithFallback.script :=
  {| XiaohongshuCrawlerWithFallback.playwright_available := true;
     XiaohongshuCrawlerWithFallback.start_ok := true;
     XiaohongshuCrawlerWithFallback.launch_ok := true;
     XiaohongshuCrawlerWithFallback.new_context_ok := true;
     XiaohongshuCrawlerWithFallback.new_page_ok := true;
     XiaohongshuCrawlerWithFallback.set_default_timeout_ok := true;
     XiaohongshuCrawlerWithFallback.goto_ok := true;
     XiaohongshuCrawlerWithFallback.content_ok := true;
     XiaohongshuCrawlerWithFallback.locator_count := Returns 3%nat;
     XiaohongshuCrawlerWithFallback.element_text :=
       fun i => XiaohongshuCrawlerWithFallback.Text
                  (str " hot " ++ [(49 + N.of_nat i)%N]);
     XiaohongshuCrawlerWithFallback.evaluate_ok := true;
     XiaohongshuCrawlerWithFallback.element_handles_ok := true;
     XiaohongshuCrawlerWithFallback.script_elements := 2%nat;
     XiaohongshuCrawlerWithFallback.page_close_ok := true;
     XiaohongshuCrawlerWithFallback.context_close_ok := true;
     XiaohongshuCrawlerWithFallback.browser_close_ok := true;
     XiaohongshuCrawlerWithFallback.playwright_stop_ok := true |}.

(** The same browser, except that navigation raises. *)
Definition goto_fails : XiaohongshuCrawlerWithFallback.script :=
  {| XiaohongshuCrawlerWithFallback.playwright_available := true;
     XiaohongshuCrawlerWithFallback.start_ok := true;
     XiaohongshuCrawlerWithFallback.launch_ok := true;
     XiaohongshuCrawlerWithFallback.new_context_ok := true;
     XiaohongshuCrawlerWithFallback.new_page_ok := true;
     XiaohongshuCrawlerWithFallback.set_default_timeout_ok := true;
     XiaohongshuCrawlerWithFallback.goto_ok := false;
     XiaohongshuCrawlerWithFallback.content_ok := true;
     XiaohongshuCrawlerWithFallback.locator_count := Returns 3%nat;
     XiaohongshuCrawlerWithFallback.element_text :=
       fun i => XiaohongshuCrawlerWithFallback.Text (str "hot");
     XiaohongshuCrawlerWithFallback.evaluate_ok := true;
     XiaohongshuCrawlerWithFallback.element_handles_ok := true;
     XiaohongshuCrawlerWithFallback.script_elements := 2%nat;
     XiaohongshuCrawlerWithFallback.page_close_ok := true;
     XiaohongshuCrawlerWithFallback.context_close_ok := true;
     XiaohongshuCrawlerWithFallback.browser_close_ok := true;
     XiaohongshuCrawlerWithFallback.playwright_stop_ok := true |}.

(** The configuration of [create_crawler_with_fallback], with the
    browser fallback switched on or off. *)
Definition fallback_config (use_playwright : bool) : CrawlerConfig :=
  {| hot_search_url := str "https://www.xiaohongshu.com";
     timeout := 30;
     max_retries := 3;
     request_delay := 3;
     user_agent := str "Mozilla/5.0";
     limit := 50;
     use_playwright := use_playwright;
     browser_type := str "chromium";
     headless := true |}.

(** The same configuration with two attempts instead of three. *)
Definition two_attempts : CrawlerConfig :=
  {| hot_search_url := str "https://www.xiaohongshu.com";
     timeout := 30;
     max_retries := 2;
     request_delay := 3;
     user_agent := str "Mozilla/5.0";
     limit := 50;
     use_playwright := false;
     browser_type := str "chromium";
     headless := true |}.

(** A transport that fails twice and then answers 7, and a generator
    that always returns one half. *)
Definition flaky : BaseCrawler.transport Z :=
  fun k => if (k <? 2)%nat then BaseCrawler.RequestException
           else BaseCrawler.Body 7.

Definition down : BaseCrawler.transport Z :=
  fun _ => BaseCrawler.RequestException.

Definition half : rng := fun _ => (1 # 2)%Q.

(** An API endpoint that answers every request, keyed or not, with a
    well-formed body that lists one entry. *)
Definition open_endpoint : option pystr -> XiaohongshuApiCrawler.api_reply :=
  fun _ =>
    XiaohongshuApiCrawler.ApiResponse 200
      (Some {| XiaohongshuApiCrawler.b_code := Some 200;
               XiaohongshuApiCrawler.b_msg := None;
               XiaohongshuApiCrawler.b_data :=
                 Some [{| XiaohongshuApiCrawler.e_name := Some (str "topic");
                          XiaohongshuApiCrawler.e_rank := Some 1;
                          XiaohongshuApiCrawler.e_viewnum := Some (str "2w");
                          XiaohongshuApiCrawler.e_url := None;
                          XiaohongshuApiCrawler.e_word_type := None |}] |}).

(** Eleven new terms against one old one. *)
Definition eleven : list HotSearchItem :=
  map (fun i => {| word := [(97 + Z.to_N i)%N]; heat := 0; rank := i + 1;
                   url := []; category := None; tags := [];
                   created_at := clock |})
      (range 11).

(** Two items whose heat is unknown. *)
Definition zeros : HotSearchResult :=
  fold_left add_item [item "a" 0 1; item "b" 0 2] (default_result clock).

(** A result built by the constructor alone: one item, and [total] left
    at 5. *)
Definition miscounted : HotSearchResult :=
  {| items := [item "a" 30 1]; total := 5; crawl_time := clock;
     source := str "xiaohongshu" |}.

(** The same with [total] left at its default. *)
Definition uncounted : HotSearchResult :=
  {| items := [item "a" 30 1]; total := 0; crawl_time := clock;
     source := str "xiaohongshu" |}.

(** One item whose heat is too large for a [float]. *)
Definition huge : HotSearchResult :=
  add_item (default_result clock) (item "a" (10 ^ 400) 1).

(** A persisted document that announces three items and lists none. *)
Definition stale_document : DataSaver.data_dict :=
  {| DataSaver.j_total := Some 3;
     DataSaver.j_crawl_time := None;
     DataSaver.j_source := None;
     DataSaver.j_items := Some [] |}.

Definition saver : DataSaver.t :=
  DataSaver.init [str "data"] [str "output"] [str "output"].

(** An empty result, as the primary strategy returns it when the body
    has no entries. *)
Definition empty : HotSearchResult := default_result clock.

(** A page body that lists three entries, the second of them without a
    word. *)
Definition page : XiaohongshuCrawler.page_body :=
  {| XiaohongshuCrawler.b_data :=
       Some [{| XiaohongshuCrawler.e_word := Some (str "a");
                XiaohongshuCrawler.e_heat := Some 5;
                XiaohongshuCrawler.e_url := None |};
             {| XiaohongshuCrawler.e_word := None;
                XiaohongshuCrawler.e_heat := Some 4;
                XiaohongshuCrawler.e_url := None |};
             {| XiaohongshuCrawler.e_word := Some (str "c");
                XiaohongshuCrawler.e_heat := None;
                XiaohongshuCrawler.e_url := Some (str "/c") |}] |}.

(** A page transport that fails once and then answers [page], and one
    that never answers. *)
Definition slow : BaseCrawler.transport XiaohongshuCrawler.page_body :=
  fun k => if (k <? 1)%nat then BaseCrawler.RequestException
           else BaseCrawler.Body page.

Definition offline : BaseCrawler.transport XiaohongshuCrawler.page_body :=
  fun _ => BaseCrawler.RequestException.

(** An API body with two entries, the second with a heat text beyond
    the range of a float. *)
Definition overflowing : XiaohongshuApiCrawler.api_body :=
  {| XiaohongshuApiCrawler.b_code := Some 200;
     XiaohongshuApiCrawler.b_msg := None;
     XiaohongshuApiCrawler.b_data :=
       Some [{| XiaohongshuApiCrawler.e_name := Some (str "topic");
                XiaohongshuApiCrawler.e_rank := None;
                XiaohongshuApiCrawler.e_viewnum := Some (str "2w");
                XiaohongshuApiCrawler.e_url := None;
                XiaohongshuApiCrawler.e_word_type := None |};
             {| XiaohongshuApiCrawler.e_name := Some (str "big");
                XiaohongshuApiCrawler.e_rank := None;
                XiaohongshuApiCrawler.e_viewnum := Some (str "1e400");
                XiaohongshuApiCrawler.e_url := None;
                XiaohongshuApiCrawler.e_word_type := None |}] |}.

(** A browser whose engine does not start. *)
Definition start_fails : XiaohongshuCrawlerWithFallback.script :=
  {| XiaohongshuCrawlerWithFallback.playwright_available := true;
     XiaohongshuCrawlerWithFallback.start_ok := false;
     XiaohongshuCrawlerWithFallback.launch_ok := true;
     XiaohongshuCrawlerWithFallback.new_context_ok := true;
     XiaohongshuCrawlerWithFallback.new_page_ok := true;
     XiaohongshuCrawlerWithFallback.set_default_timeout_ok := true;
     XiaohongshuCrawlerWithFallback.goto_ok := true;
     XiaohongshuCrawlerWithFallback.content_ok := true;
     XiaohongshuCrawlerWithFallback.locator_count := Returns 3%nat;
     XiaohongshuCrawlerWithFallback.element_text :=
       fun i => XiaohongshuCrawlerWithFallback.Text (str "hot");
     XiaohongshuCrawlerWithFallback.evaluate_ok := true;
     XiaohongshuCrawlerWithFallback.element_handles_ok := true;
     XiaohongshuCrawlerWithFallback.script_elements := 2%nat;
     XiaohongshuCrawlerWithFallback.page_close_ok := true;
     XiaohongshuCrawlerWithFallback.context_close_ok := true;
     XiaohongshuCrawlerWithFallback.browser_close_ok := true;
     XiaohongshuCrawlerWithFallback.playwright_stop_ok := true |}.

(** A persisted document with two entries, and the same with the word
    of the second entry missing. *)
Definition stored_item (w : option pystr) (r : Z) : DataSaver.item_dict :=
  {| DataSaver.j_word := w;
     DataSaver.j_heat := Some 7;
     DataSaver.j_rank := Some r;
     DataSaver.j_url := Some [];
     DataSaver.j_category := None;
     DataSaver.j_tags := None;
     DataSaver.j_created_at := None |}.

Definition sound_document : DataSaver.data_dict :=
  {| DataSaver.j_total := Some 9;
     DataSaver.j_crawl_time := None;
     DataSaver.j_source := None;
     DataSaver.j_items :=
       Some [stored_item (Some (str "a")) 1; stored_item (Some (str "b")) 2] |}.

Definition damaged_document : DataSaver.data_dict :=
  {| DataSaver.j_total := Some 9;
     DataSaver.j_crawl_time := None;
     DataSaver.j_source := None;
     DataSaver.j_items :=
       Some [stored_item (Some (str "a")) 1; stored_item None 2] |}.

(** Three items with categories and tags. *)
Definition labelled (w c : string) (ts : list pystr) (h r : Z)
  : HotSearchItem :=
  {| word := str w; heat := h; rank := r; url := [];
     category := Some (str c); tags := ts;
     created_at := str "2025-01-01T00:00:00" |}.

Definition mixed : HotSearchResult :=
  fold_left add_item
    [labelled "ab cd" "food" [str "x"; str "y"] 30 1;
     labelled "ab" "travel" [str "x"] 0 2;
     labelled "ef" "food" [] 10 3]
    (default_result clock).

(** The items of [three] in another order. *)
Definition three_reversed : HotSearchResult :=
  fold_left add_item [item "c" 10 3; item "b" 20 2; item "a" 30 1]
    (default_result clock).

End Samples.


(** * Properties of the result model *)

Section ModelFacts.
Import Py Models.
Context `{DateTimeLib}.

Lemma add_item_items (r : HotSearchResult) (item : HotSearchItem) :
  items (add_item r item) = items r ++ [item].
Proof. reflexivity. Qed.

Lemma add_item_total (r : HotSearchResult) (item : HotSearchItem) :
  total (add_item r item) = Z.of_nat (length (items (add_item r item))).
Proof. reflexivity. Qed.

Lemma fold_add_item_items (its : list HotSearchItem) (r : HotSearchResult) :
  items (fold_left add_item its r) = items r ++ its.
Proof.
  revert r. induction its as [|it its IH]; intros r; simpl.
  - by rewrite app_nil_r.
  - rewrite IH, add_item_items, <- app_assoc. reflexivity.
Qed.

Lemma fold_add_item_fixed (its : list HotSearchItem) (r : HotSearchResult) :
  crawl_time (fold_left add_item its r) = crawl_time r /\
  source (fold_left add_item its r) = source r.
Proof.
  revert r. induction its as [|it its IH]; intros r; simpl; [done|].
  destruct (IH (add_item r it)) as [-> ->]. done.
Qed.

(** The invariant is kept by every append once it holds. *)
Lemma fold_add_item_total (its : list HotSearchItem) (r : HotSearchResult) :
  total r = Z.of_nat (length (items r)) ->
  total (fold_left add_item its r)
  = Z.of_nat (length (items (fold_left add_item its r))).
Proof.
  revert r. induction its as [|it its IH]; intros r Hr; simpl; [done|].
  apply IH, add_item_total.
Qed.

Lemma slice_to_nonneg {A} (l : list A) (n : Z) :
  0 <= n -> slice_to l n = firstn (Z.to_nat n) l.
Proof. intros Hn. unfold slice_to. destruct (Z.ltb_spec n 0); [lia|done]. Qed.

End ModelFacts.

Section ResultModel.
Import Py Models.
Context `{DateTimeLib}.

(** C3 (amended).  After an [add_item], and after any further appends,
    [total] equals the number of items, whatever [total] was before: the
    field is recomputed from the list on every append.  The same holds
    for any sequence of appends to a freshly constructed result.  (The
    constructor itself accepts any [total]; see the counterexample.) *)
Theorem C3_total_recomputed_on_append :
  (forall (r : HotSearchResult) (item : HotSearchItem)
          (its : list HotSearchItem),
     let r' := fold_left add_item its (add_item r item) in
     total r' = Z.of_nat (length (items r')) /\
     items r' = items r ++ item :: its) /\
  (forall (now : datetime) (its : list HotSearchItem),
     let r' := fold_left add_item its (default_result now) in
     total r' = Z.of_nat (length (items r')) /\ items r' = its).
Proof.
  split.
  - intros r item its r'. subst r'. split.
    + apply fold_add_item_total, add_item_total.
    + rewrite fold_add_item_items, add_item_items, <- app_assoc. reflexivity.
  - intros now its r'. subst r'. split.
    + apply fold_add_item_total. reflexivity.
    + rewrite fold_add_item_items. reflexivity.
Qed.

(** C10.  For a non-negative [n], [get_top_n(n)] is the first
    [min(n, len(items))] items in stored order, a prefix of the item
    list; it is the whole list as soon as [n] reaches the item count;
    and the object is left as it was. *)
Theorem C10_get_top_n_prefix (r : HotSearchResult) (n : Z) :
  0 <= n ->
  snd (get_top_n r n)
  = firstn (Nat.min (Z.to_nat n) (length (items r))) (items r) /\
  (exists rest, items r = snd (get_top_n r n) ++ rest) /\
  (forall k : nat,
     snd (get_top_n r (Z.of_nat (length (items r) + k))) = items r) /\
  fst (get_top_n r n) = r.
Proof.
  intros Hn. unfold get_top_n. simpl. rewrite slice_to_nonneg by done.
  repeat split.
  - destruct (Nat.min_spec (Z.to_nat n) (length (items r))) as [[_ ->]|[Hle ->]].
    + reflexivity.
    + rewrite !firstn_all2; [reflexivity|lia|done].
  - exists (skipn (Z.to_nat n) (items r)). symmetry. apply firstn_skipn.
  - intros k. rewrite slice_to_nonneg by lia. apply firstn_all2. lia.
Qed.

End ResultModel.

Lemma C10_get_top_n_prefix_witness :
  snd (Models.get_top_n Samples.three 2)
  = [Samples.item "a" 30 1; Samples.item "b" 20 2].
Proof.
  destruct (C10_get_top_n_prefix Samples.three 2 ltac:(lia)) as (-> & _).
  reflexivity.
Defined.

(** C3, as stated, fails: [load_json] hands the persisted [total] to the
    constructor, so a document with [total = 5] and no items loads as a
    result whose [total] disagrees with its item count. *)
Lemma C3_total_settable_counterexample :
  let saver := DataSaver.init [Py.str "data"] [Py.str "output"] [Py.str "output"] in
  let doc := {| DataSaver.j_total := Some 5;
                DataSaver.j_crawl_time := None;
                DataSaver.j_source := None;
                DataSaver.j_items := Some [] |} in
  exists r : Models.HotSearchResult,
    DataSaver.load_json saver Samples.clock (Py.str "old.json")
      {[ [Py.str "data"; Py.str "old.json"] := doc ]} = Some r /\
    Models.items r = [] /\
    Models.total r = 5 /\
    Models.total r <> Z.of_nat (length (Models.items r)).
Proof.
  eexists. split; [vm_compute; reflexivity|]. simpl. repeat split. lia.
Qed.

(** * Properties of the fallback crawler *)

Section FallbackFacts.
Import Py Models XiaohongshuCrawlerWithFallback.
Context `{DateTimeLib}.
Variable sc : script.
Variable now : datetime.

Lemma filter_all_true {A} (f : A -> bool) (l : list A) :
  (forall x, In x l -> f x = true) -> List.filter f l = l.
Proof.
  induction l as [|x l IH]; intros Hf; simpl; [done|].
  rewrite (Hf x) by (by left). f_equal. apply IH. intros y Hy. apply Hf. by right.
Qed.

Lemma belongs_to_fresh (l : list handle) (root : nat) (h : handle) :
  h_id h <> root ->
  h_owner h <> Some root ->
  (forall h', In h' l -> h_owner h' <> Some root) ->
  belongs_to l root h = false.
Proof.
  intros Hid Hown Hl. unfold belongs_to.
  apply orb_false_iff. split; [by apply Nat.eqb_neq|].
  destruct (h_owner h) as [o|]; [|done].
  apply orb_false_iff. split.
  - apply Nat.eqb_neq. congruence.
  - apply not_true_is_false. intros Hex.
    apply existsb_exists in Hex as (h' & Hin & Hh').
    apply andb_true_iff in Hh' as [_ Hh'].
    apply bool_decide_eq_true in Hh'. by apply (Hl h').
Qed.

(** The extraction talks to the page but neither acquires nor releases
    anything. *)
Lemma extract_element_world (acc : HotSearchResult * world) (i : Z) :
  next_id (snd (extract_element sc now acc i)) = next_id (snd acc) /\
  live (snd (extract_element sc now acc i)) = live (snd acc).
Proof.
  destruct acc as [r w]. unfold extract_element.
  destruct (element_text sc (Z.to_nat i)) as [| |s]; [done..|].
  by destruct (str_falsy s).
Qed.

Lemma fold_extract_world (l : list Z) (acc : HotSearchResult * world) :
  next_id (snd (fold_left (extract_element sc now) l acc)) = next_id (snd acc) /\
  live (snd (fold_left (extract_element sc now) l acc)) = live (snd acc).
Proof.
  revert acc. induction l as [|i l IH]; intros acc; simpl; [done|].
  destruct (IH (extract_element sc now acc i)) as [-> ->].
  apply extract_element_world.
Qed.

Lemma extract_page_world (self : t) (w : world) :
  next_id (snd (_extract_data_from_page sc now self w)) = next_id w /\
  live (snd (_extract_data_from_page sc now self w)) = live w.
Proof.
  unfold _extract_data_from_page.
  destruct (locator_count sc) as [n|e]; [|done].
  destruct (0 <? n)%nat.
  - destruct (fold_left _ _ _) as [r w'] eqn:E.
    pose proof (fold_extract_world
      (range (Z.min (Z.of_nat n) (limit (config self))))
      (default_result now,
       record_call Count (record_call Count (record_call Count w)))) as [Hn Hl].
    rewrite E in Hn, Hl. simpl in Hn, Hl.
    destruct (negb (element_handles_ok sc)); [done|].
    by destruct (0 <? total r).
  - destruct (negb (element_handles_ok sc)); [done|].
    by destruct (0 <? total (default_result now)).
Qed.

(** What the extraction returns is a result with a positive, consistent
    [total]. *)
Lemma extract_element_total (acc : HotSearchResult * world) (i : Z) :
  total (fst acc) = Z.of_nat (length (items (fst acc))) ->
  total (fst (extract_element sc now acc i))
  = Z.of_nat (length (items (fst (extract_element sc now acc i)))).
Proof.
  destruct acc as [r w]. unfold extract_element. intros Hr.
  destruct (element_text sc (Z.to_nat i)) as [| |s]; [done..|].
  by destruct (str_falsy s).
Qed.

Lemma fold_extract_total (l : list Z) (acc : HotSearchResult * world) :
  total (fst acc) = Z.of_nat (length (items (fst acc))) ->
  total (fst (fold_left (extract_element sc now) l acc))
  = Z.of_nat (length (items (fst (fold_left (extract_element sc now) l acc)))).
Proof.
  revert acc. induction l as [|i l IH]; intros acc Hacc; simpl; [done|].
  by apply IH, extract_element_total.
Qed.

Lemma extract_page_total (self : t) (w w' : world) (r : HotSearchResult) :
  _extract_data_from_page sc now self w = (Some r, w') ->
  0 < total r /\ total r = Z.of_nat (length (items r)).
Proof.
  unfold _extract_data_from_page.
  destruct (locator_count sc) as [n|e]; [|done].
  destruct (0 <? n)%nat.
  - destruct (fold_left _ _ _) as [r0 w0] eqn:E.
    pose proof (fold_extract_total
      (range (Z.min (Z.of_nat n) (limit (config self))))
      (default_result now,
       record_call Count (record_call Count (record_call Count w))) eq_refl) as Ht.
    rewrite E in Ht. simpl in Ht.
    destruct (negb (element_handles_ok sc)); [done|].
    destruct (Z.ltb_spec 0 (total r0)); [|done].
    intros [= <- _]. done.
  - destruct (negb (element_handles_ok sc)); [done|].
    by destruct (0 <? total (default_result now)) eqn:E.
Qed.

(** When every matched element has a non-empty text, the loop appends
    one item per element, in order. *)
Lemma fold_extract_items (l : list Z) (r : HotSearchResult) (w : world) :
  Forall (fun i => exists s, element_text sc (Z.to_nat i) = Text s /\ s <> []) l ->
  fst (fold_left (extract_element sc now) l (r, w))
  = fold_left add_item (map (fun i => element_item now i (text_of sc i)) l) r.
Proof.
  revert r w. induction l as [|i l IH]; intros r w Hl; [done|].
  cbn [fold_left map].
  apply Forall_cons in Hl as [(s & Hs & Hne) Hl].
  assert (text_of sc i = s) as Ht by (unfold text_of; by rewrite Hs).
  rewrite Ht.
  assert (extract_element sc now (r, w) i
          = (add_item r (element_item now i s),
             record_call (TextContent (Z.to_nat i)) w)) as ->.
  { unfold extract_element. rewrite Hs. by destruct s. }
  by apply IH.
Qed.

End FallbackFacts.

Section FallbackContract.
Import Py Models XiaohongshuCrawlerWithFallback.
Context `{DateTimeLib}.
Variable sc : script.
Variable now : datetime.

Lemma setup_disabled (self : t) (w : world) :
  use_playwright self = false ->
  _setup_playwright sc self w = (false, self, w).
Proof. intros Hu. unfold _setup_playwright. by rewrite Hu. Qed.

Lemma setup_ok (self : t) (w : world) :
  use_playwright self = true ->
  engine_ok sc = true ->
  _setup_playwright sc self w
  = (true,
     {| config := config self; use_playwright := true;
        browser := Some (S (next_id w)); playwright := Some (next_id w) |},
     {| next_id := S (S (next_id w));
        live := (live w ++ [{| h_kind := Engine; h_id := next_id w;
                               h_owner := None |}])
                ++ [{| h_kind := Browser; h_id := S (next_id w);
                       h_owner := None |}];
        calls := (calls w ++ [Start]) ++ [Launch] |}).
Proof.
  intros Hu He. apply andb_true_iff in He as [Hs Hl].
  unfold _setup_playwright. rewrite Hu, Hs, Hl. reflexivity.
Qed.

Lemma setup_failed (self : t) (w : world) :
  engine_ok sc = false ->
  fst (fst (_setup_playwright sc self w)) = false.
Proof.
  intros He. unfold _setup_playwright.
  destruct (use_playwright self); [|done]. simpl.
  destruct (start_ok sc) eqn:Hs; [|done]. simpl.
  destruct (launch_ok sc) eqn:Hl; [|done].
  unfold engine_ok in He. rewrite Hs, Hl in He. done.
Qed.

Lemma crawl_primary_empty (primary : option HotSearchResult)
    (self : t) (w : world) :
  primary_empty primary ->
  crawl_hot_search sc now primary self w = browser_fallback sc now self w.
Proof.
  intros Hp. unfold crawl_hot_search. destruct primary as [r|]; [|done].
  simpl in Hp. destruct (Z.ltb_spec 0 (total r)); [lia|done].
Qed.

(** What the browser session returns came out of the extraction. *)
Lemma crawl_with_playwright_total (self : t) (w w' : world)
    (r : HotSearchResult) :
  _crawl_with_playwright sc now self w = (Some r, w') ->
  0 < total r /\ total r = Z.of_nat (length (items r)).
Proof.
  unfold _crawl_with_playwright.
  destruct (browser self) as [b|]; [|done].
  destruct (new_context_ok sc); [|done]. simpl.
  destruct (new_page_ok sc); [|done]. simpl.
  destruct (set_default_timeout_ok sc); [|done]. simpl.
  destruct (goto_ok sc); [|done]. simpl.
  destruct (content_ok sc); [|done]. simpl.
  destruct (_extract_data_from_page _ _ _ _) as [res we] eqn:E.
  destruct (page_close_ok sc); [|done]. simpl.
  destruct (context_close_ok sc); [|done]. simpl.
  intros [= -> _]. eapply extract_page_total, E.
Qed.

(** With a session in which nothing raises, the browser session returns
    what the extraction returns. *)
Lemma crawl_with_playwright_session_ok (self : t) (w : world) (b : nat) :
  browser self = Some b ->
  session_ok sc = true ->
  exists w1,
    fst (_crawl_with_playwright sc now self w)
    = fst (_extract_data_from_page sc now self w1).
Proof.
  intros Hb Hs. unfold session_ok in Hs.
  repeat (apply andb_true_iff in Hs as [Hs ?]).
  unfold _crawl_with_playwright. rewrite Hb.
  repeat match goal with Hf : _ sc = true |- _ => rewrite Hf; clear Hf end.
  simpl. eexists.
  destruct (_extract_data_from_page _ _ _ _) as [res we] eqn:E.
  simpl. rewrite E. reflexivity.
Qed.

Lemma extract_page_items (self : t) (w : world) (n : nat) :
  element_handles_ok sc = true ->
  locator_count sc = Returns n ->
  0 < Z.min (Z.of_nat n) (limit (config self)) ->
  Forall (fun i => exists s, element_text sc (Z.to_nat i) = Text s /\ s <> [])
         (range (Z.min (Z.of_nat n) (limit (config self)))) ->
  exists r,
    fst (_extract_data_from_page sc now self w) = Some r /\
    items r = map (fun i => element_item now i (text_of sc i))
                  (range (Z.min (Z.of_nat n) (limit (config self)))) /\
    total r = Z.min (Z.of_nat n) (limit (config self)).
Proof.
  intros Hh Hc Hm Hall. unfold _extract_data_from_page. rewrite Hc, Hh.
  destruct (Nat.ltb_spec 0 n); [|lia].
  set (m := Z.min (Z.of_nat n) (limit (config self))) in *.
  destruct (fold_left _ _ _) as [r w'] eqn:E.
  pose proof (fold_extract_items sc now (range m) (default_result now)
                (record_call Count (record_call Count (record_call Count w))) Hall) as Hi.
  rewrite E in Hi. simpl in Hi.
  assert (items r = map (fun i => element_item now i (text_of sc i)) (range m))
    as Hitems by (rewrite Hi, fold_add_item_items; reflexivity).
  assert (total r = m) as Htotal.
  { rewrite Hi, fold_add_item_total by reflexivity.
    rewrite fold_add_item_items. simpl.
    unfold range. rewrite !length_map, length_seq. lia. }
  simpl. destruct (Z.ltb_spec 0 (total r)); [|lia].
  exists r. done.
Qed.

(** C1.  The orchestrator returns a primary result with [total > 0] at
    once, without touching the browser.  When the primary strategy gives
    nothing ([None], or a result without items) it returns [None] if the
    fallback is disabled or the engine fails to start.  When the fallback
    is enabled and the engine starts, it returns what the browser session
    extracted: any result [r'] of [n > 0] items that the session yields,
    and in particular one item per matched element (up to the limit)
    when no browser call raises. *)
Theorem C1_fallback_fetch_contract (self : t) (w : world) :
  (forall r : HotSearchResult,
     0 < total r ->
     crawl_hot_search sc now (Some r) self w = (Some r, self, w)) /\
  (forall primary : option HotSearchResult,
     primary_empty primary ->
     use_playwright self = false ->
     crawl_hot_search sc now primary self w = (None, self, w)) /\
  (forall primary : option HotSearchResult,
     primary_empty primary ->
     engine_ok sc = false ->
     fst (fst (crawl_hot_search sc now primary self w)) = None) /\
  (forall (primary : option HotSearchResult) (r' : HotSearchResult)
          (w'' : world),
     primary_empty primary ->
     use_playwright self = true ->
     engine_ok sc = true ->
     _crawl_with_playwright sc now
       (snd (fst (_setup_playwright sc self w)))
       (snd (_setup_playwright sc self w)) = (Some r', w'') ->
     crawl_hot_search sc now primary self w
     = (Some r', snd (fst (_setup_playwright sc self w)), w'') /\
     0 < total r' /\ total r' = Z.of_nat (length (items r'))) /\
  (forall (primary : option HotSearchResult) (n : nat),
     primary_empty primary ->
     use_playwright self = true ->
     engine_ok sc = true ->
     session_ok sc = true ->
     element_handles_ok sc = true ->
     locator_count sc = Returns n ->
     0 < Z.min (Z.of_nat n) (limit (config self)) ->
     Forall (fun i => exists s, element_text sc (Z.to_nat i) = Text s /\ s <> [])
            (range (Z.min (Z.of_nat n) (limit (config self)))) ->
     exists r' : HotSearchResult,
       fst (fst (crawl_hot_search sc now primary self w)) = Some r' /\
       items r' = map (fun i => element_item now i (text_of sc i))
                      (range (Z.min (Z.of_nat n) (limit (config self)))) /\
       total r' = Z.min (Z.of_nat n) (limit (config self))).
Proof.
  split; [|split; [|split; [|split]]].
  - intros r Hr. unfold crawl_hot_search.
    destruct (Z.ltb_spec 0 (total r)); [done|lia].
  - intros primary Hp Hu. rewrite crawl_primary_empty by done.
    unfold browser_fallback. by rewrite Hu.
  - intros primary Hp He. rewrite crawl_primary_empty by done.
    unfold browser_fallback. destruct (use_playwright self); [|done].
    pose proof (setup_failed self w He) as Hf.
    destruct (_setup_playwright sc self w) as [[ok self'] w'].
    simpl in Hf. by rewrite Hf.
  - intros primary r' w'' Hp Hu He Hc. split.
    + rewrite crawl_primary_empty by done.
      unfold browser_fallback. rewrite Hu.
      rewrite setup_ok in * by done. simpl in *. by rewrite Hc.
    + eapply crawl_with_playwright_total, Hc.
  - intros primary n Hp Hu He Hs Hh Hc Hm Hall.
    rewrite crawl_primary_empty by done.
    unfold browser_fallback. rewrite Hu, setup_ok by done.
    cbv beta iota zeta.
    match goal with
    | |- context [_crawl_with_playwright sc now ?s ?w0] =>
        destruct (crawl_with_playwright_session_ok s w0 _ eq_refl Hs)
          as [w1 Hw1];
        pose proof (extract_page_items s w1 n Hh Hc Hm Hall) as Hx
    end.
    destruct (_crawl_with_playwright _ _ _ _) as [res w2] eqn:E.
    simpl in Hw1 |- *. rewrite Hw1. exact Hx.
Qed.

End FallbackContract.

Lemma C1_fallback_fetch_contract_witness :
  let on := XiaohongshuCrawlerWithFallback.init Samples.stub_script
              (Samples.fallback_config true) in
  let off := XiaohongshuCrawlerWithFallback.init Samples.stub_script
               (Samples.fallback_config false) in
  let w := XiaohongshuCrawlerWithFallback.fresh_world in
  XiaohongshuCrawlerWithFallback.crawl_hot_search Samples.stub_script
    Samples.clock (Some Samples.three) on w = (Some Samples.three, on, w) /\
  XiaohongshuCrawlerWithFallback.crawl_hot_search Samples.stub_script
    Samples.clock (Some Samples.empty) off w = (None, off, w) /\
  exists r' : Models.HotSearchResult,
    fst (fst (XiaohongshuCrawlerWithFallback.crawl_hot_search
                Samples.stub_script Samples.clock (Some Samples.empty) on w))
    = Some r' /\
    map Models.word (Models.items r')
    = [Py.str "hot 1"; Py.str "hot 2"; Py.str "hot 3"] /\
    Models.total r' = 3.
Proof.
  intros on off w.
  destruct (C1_fallback_fetch_contract Samples.stub_script Samples.clock on w)
    as (Hprimary & _ & _ & _ & Hitems).
  destruct (C1_fallback_fetch_contract Samples.stub_script Samples.clock off w)
    as (_ & Hoff & _).
  split; [apply Hprimary; vm_compute; reflexivity|].
  split; [apply Hoff; [vm_compute; discriminate|reflexivity]|].
  destruct (Hitems (Some Samples.empty) 3%nat) as (r' & Hr & Hi & Ht).
  - vm_compute. discriminate.
  - reflexivity.
  - reflexivity.
  - reflexivity.
  - reflexivity.
  - reflexivity.
  - vm_compute. reflexivity.
  - vm_compute. repeat constructor; eexists; (split; [reflexivity|discriminate]).
  - exists r'. split; [exact Hr|]. split; [|exact Ht].
    rewrite Hi. vm_compute. reflexivity.
Defined.

(** * Browser resources *)

Section Teardown.
Import Py Models XiaohongshuCrawlerWithFallback.
Context `{DateTimeLib}.
Variable sc : script.
Variable now : datetime.

(** Releasing a resource to which nothing belongs removes it alone. *)
Lemma release_leaf (w : world) (l : list handle) (h : handle) :
  live w = l ++ [h] ->
  (forall h', In h' l -> h_id h' <> h_id h /\ h_owner h' <> Some (h_id h)) ->
  h_owner h <> Some (h_id h) ->
  live (release (h_id h) w) = l.
Proof.
  intros Hw Hl Hh. unfold release. simpl. rewrite Hw.
  assert (forall h', In h' (l ++ [h]) -> h_owner h' <> Some (h_id h)) as Hown.
  { intros h' Hin. apply in_app_or in Hin as [Hin|[<-|[]]]; [|done].
    by apply Hl. }
  rewrite List.filter_app. simpl.
  assert (belongs_to (l ++ [h]) (h_id h) h = true) as ->.
  { unfold belongs_to. by rewrite Nat.eqb_refl. }
  simpl. rewrite app_nil_r. apply filter_all_true.
  intros h' Hin. apply negb_true_iff, belongs_to_fresh; [by apply Hl..|done].
Qed.

Lemma well_formed_In (w : world) (h : handle) :
  well_formed w ->
  In h (live w) ->
  (h_id h < next_id w)%nat /\
  forall o, h_owner h = Some o -> (o < next_id w)%nat.
Proof.
  unfold well_formed. rewrite List.Forall_forall. intros Hwf Hin.
  destruct (Hwf h Hin) as [Hi Ho]. split; [done|].
  intros o Heq. by rewrite Heq in Ho.
Qed.

(** A session in which no call raises gives back the page and the
    context it acquired. *)
Lemma crawl_with_playwright_releases (self : t) (w : world) (b : nat) :
  well_formed w ->
  browser self = Some b ->
  (b < next_id w)%nat ->
  session_ok sc = true ->
  live (snd (_crawl_with_playwright sc now self w)) = live w.
Proof.
  intros Hwf Hb Hlt Hs. unfold session_ok in Hs.
  repeat (apply andb_true_iff in Hs as [Hs ?]).
  unfold _crawl_with_playwright. rewrite Hb.
  repeat match goal with Hf : _ sc = true |- _ => rewrite Hf; clear Hf end.
  cbn -[_extract_data_from_page release].
  match goal with
  | |- context [_extract_data_from_page sc now self ?w0] =>
      pose proof (extract_page_world sc now self w0) as [Hn Hl]
  end.
  destruct (_extract_data_from_page _ _ _ _) as [res we] eqn:E.
  cbn -[release] in Hn, Hl |- *.
  set (C := {| h_kind := Context; h_id := next_id w; h_owner := Some b |}) in *.
  set (P := {| h_kind := Page; h_id := S (next_id w);
               h_owner := Some (next_id w) |}) in *.
  assert (live (release (S (next_id w)) (record_call PageClose we))
          = live w ++ [C]) as HP.
  { apply (release_leaf _ (live w ++ [C]) P); [exact Hl| |].
    - intros h' Hh'. apply in_app_or in Hh' as [Hh'|[<-|[]]].
      + destruct (well_formed_In w h' Hwf Hh') as [Hi Ho]. simpl.
        split; [lia|]. intros Heq. apply Ho in Heq. lia.
      + simpl. split; [lia|]. intros [= ->]. lia.
    - simpl. intros [= Hc]. lia. }
  apply (release_leaf _ (live w) C); [exact HP| |].
  - intros h' Hh'.
    destruct (well_formed_In w h' Hwf Hh') as [Hi Ho]. simpl.
    split; [lia|]. intros Heq. apply Ho in Heq. lia.
  - simpl. intros [= ->]. lia.
Qed.

End Teardown.

Section TeardownContract.
Import Py Models XiaohongshuCrawlerWithFallback.
Context `{DateTimeLib}.
Variable sc : script.
Variable now : datetime.

(** Whatever happened in the browser session, the first crawl of a new
    crawler followed by [close] leaves nothing behind when the two
    teardown calls of [close] succeed. *)
Lemma fallback_then_close (config : CrawlerConfig) :
  browser_close_ok sc = true ->
  playwright_stop_ok sc = true ->
  live (close sc (snd (fst (browser_fallback sc now (init sc config) fresh_world)))
                 (snd (browser_fallback sc now (init sc config) fresh_world)))
  = [].
Proof.
  intros Hbc Hps. unfold browser_fallback, init.
  destruct (Models.use_playwright config && playwright_available sc) eqn:Hu;
    cbn -[_crawl_with_playwright close]; [|reflexivity].
  unfold _setup_playwright. cbn -[_crawl_with_playwright close].
  destruct (start_ok sc); cbn -[_crawl_with_playwright close]; [|reflexivity].
  destruct (launch_ok sc); cbn -[_crawl_with_playwright close];
    [|unfold close; cbn; by rewrite Hps].
  unfold _crawl_with_playwright. cbn -[_extract_data_from_page release close].
  destruct (new_context_ok sc); cbn -[_extract_data_from_page release close];
    [|unfold close; cbn; by rewrite Hbc, Hps].
  destruct (new_page_ok sc); cbn -[_extract_data_from_page release close];
    [|unfold close; cbn; by rewrite Hbc, Hps].
  destruct (set_default_timeout_ok sc);
    cbn -[_extract_data_from_page release close];
    [|unfold close; cbn; by rewrite Hbc, Hps].
  destruct (goto_ok sc); cbn -[_extract_data_from_page release close];
    [|unfold close; cbn; by rewrite Hbc, Hps].
  destruct (content_ok sc); cbn -[_extract_data_from_page release close];
    [|unfold close; cbn; by rewrite Hbc, Hps].
  match goal with
  | |- context [_extract_data_from_page sc now ?s ?w0] =>
      pose proof (extract_page_world sc now s w0) as [Hn Hl]
  end.
  destruct (_extract_data_from_page _ _ _ _) as [res [ne le ce]] eqn:E.
  cbn in Hn, Hl. subst ne le.
  destruct (page_close_ok sc); cbn -[release close];
    [|unfold close; cbn; by rewrite Hbc, Hps].
  destruct (context_close_ok sc); cbn -[release close];
    unfold close; cbn; by rewrite Hbc, Hps.
Qed.

(** C9 (amended).  A browser session in which no call raises - whether
    the extraction finds items, finds none or fails inside
    [_extract_data_from_page] - closes the page and the context it
    opened before [_crawl_with_playwright] returns, and leaves every
    other resource, the browser and the engine handle among them, as it
    was.  The browser and the engine handle are released by [close]:
    after the first crawl of a new crawler, whatever happened in the
    session, [close] leaves no resource behind when its own two teardown
    calls succeed. *)
Theorem C9_session_teardown :
  (forall (self : t) (w : world) (b : nat),
     well_formed w ->
     browser self = Some b ->
     (b < next_id w)%nat ->
     session_ok sc = true ->
     live (snd (_crawl_with_playwright sc now self w)) = live w) /\
  (forall (config : CrawlerConfig) (primary : option HotSearchResult),
     browser_close_ok sc = true ->
     playwright_stop_ok sc = true ->
     let run := crawl_hot_search sc now primary (init sc config) fresh_world in
     live (close sc (snd (fst run)) (snd run)) = []).
Proof.
  split.
  - apply crawl_with_playwright_releases.
  - intros config primary Hbc Hps run. subst run. unfold crawl_hot_search.
    destruct primary as [r|]; [destruct (0 <? total r)|];
      try (by apply fallback_then_close).
    reflexivity.
Qed.

End TeardownContract.

Lemma C9_session_teardown_witness :
  let self := XiaohongshuCrawlerWithFallback.init Samples.stub_script
                (Samples.fallback_config true) in
  let w := XiaohongshuCrawlerWithFallback.fresh_world in
  let setup := XiaohongshuCrawlerWithFallback._setup_playwright
                 Samples.stub_script self w in
  let run := XiaohongshuCrawlerWithFallback.crawl_hot_search
               Samples.goto_fails Samples.clock None
               (XiaohongshuCrawlerWithFallback.init Samples.goto_fails
                  (Samples.fallback_config true)) w in
  XiaohongshuCrawlerWithFallback.live
    (snd (XiaohongshuCrawlerWithFallback._crawl_with_playwright
            Samples.stub_script Samples.clock (snd (fst setup)) (snd setup)))
  = XiaohongshuCrawlerWithFallback.live (snd setup) /\
  XiaohongshuCrawlerWithFallback.live
    (XiaohongshuCrawlerWithFallback.close Samples.goto_fails
       (snd (fst run)) (snd run)) = [].
Proof.
  intros self w setup run. split.
  - apply (proj1 (C9_session_teardown Samples.stub_script Samples.clock))
      with (b := 1%nat).
    + vm_compute. repeat constructor.
    + reflexivity.
    + vm_compute. lia.
    + reflexivity.
  - apply (proj2 (C9_session_teardown Samples.goto_fails Samples.clock));
      reflexivity.
Defined.

(** C9, as stated, fails.  When navigation raises, the handler of
    [_crawl_with_playwright] returns with the page and the context still
    open; and on every path, the successful one included, the browser
    and the engine handle are still held when the call returns. *)
Lemma C9_teardown_counterexample :
  let w := XiaohongshuCrawlerWithFallback.fresh_world in
  let after (sc : XiaohongshuCrawlerWithFallback.script) :=
    let setup := XiaohongshuCrawlerWithFallback._setup_playwright sc
                   (XiaohongshuCrawlerWithFallback.init sc
                      (Samples.fallback_config true)) w in
    XiaohongshuCrawlerWithFallback._crawl_with_playwright sc Samples.clock
      (snd (fst setup)) (snd setup) in
  (fst (after Samples.goto_fails) = None /\
   map XiaohongshuCrawlerWithFallback.h_kind
     (XiaohongshuCrawlerWithFallback.live (snd (after Samples.goto_fails)))
   = [XiaohongshuCrawlerWithFallback.Engine;
      XiaohongshuCrawlerWithFallback.Browser;
      XiaohongshuCrawlerWithFallback.Context;
      XiaohongshuCrawlerWithFallback.Page]) /\
  (exists r, fst (after Samples.stub_script) = Some r) /\
  map XiaohongshuCrawlerWithFallback.h_kind
    (XiaohongshuCrawlerWithFallback.live (snd (after Samples.stub_script)))
  = [XiaohongshuCrawlerWithFallback.Engine;
     XiaohongshuCrawlerWithFallback.Browser].
Proof.
  repeat split.
  - vm_compute. eexists. reflexivity.
Qed.

(** * The retry loop *)

Section RetryLoop.
Import Py Models BaseCrawler.
Context {A : Type}.
Variable config : CrawlerConfig.
Variable net : transport A.
Variable g : rng.

Lemma count_requests_app (t1 t2 : list event) :
  count_requests (t1 ++ t2) = (count_requests t1 + count_requests t2)%nat.
Proof. unfold count_requests. by rewrite List.filter_app, length_app. Qed.

Lemma count_backoffs_app (t1 t2 : list event) :
  count_backoffs (t1 ++ t2) = (count_backoffs t1 + count_backoffs t2)%nat.
Proof. unfold count_backoffs. by rewrite List.filter_app, length_app. Qed.

(** Each turn of the loop issues one request, and the trace only grows. *)
Lemma attempt_loop_bound (attempts : list Z) (r : run) :
  (count_requests (trace (snd (attempt_loop config net g attempts r)))
   <= count_requests (trace r) + length attempts)%nat.
Proof.
  revert r. induction attempts as [|a l IH]; intros r; simpl; [lia|].
  destruct (net (requests r)).
  - simpl. rewrite !count_requests_app. unfold count_requests. simpl. lia.
  - destruct (a =? max_retries config - 1).
    + simpl. rewrite !count_requests_app. unfold count_requests. simpl. lia.
    + etrans; [apply IH|]. simpl. rewrite !count_requests_app.
      unfold count_requests. simpl. lia.
Qed.

Lemma attempt_loop_trace (attempts : list Z) (r : run) :
  exists post,
    trace (snd (attempt_loop config net g attempts r)) = trace r ++ post.
Proof.
  revert r. induction attempts as [|a l IH]; intros r; simpl.
  - exists []. by rewrite app_nil_r.
  - destruct (net (requests r)).
    + simpl. eexists. by rewrite <- app_assoc.
    + destruct (a =? max_retries config - 1).
      * simpl. eexists. by rewrite <- app_assoc.
      * edestruct IH as [post ->]. simpl. eexists.
        rewrite <- !app_assoc. reflexivity.
Qed.

Lemma after_failures_S (k : nat) :
  trace (after_failures config g (S k))
  = trace (after_failures config g k) ++ failed_attempt_events config g k.
Proof.
  unfold after_failures. cbn [trace].
  rewrite seq_S, map_app, concat_app. cbn [map concat Nat.add].
  by rewrite app_nil_r.
Qed.

(** One failed attempt that is not the last one. *)
Lemma attempt_loop_failure (k : nat) (rest : list Z) :
  net k = RequestException ->
  Z.of_nat k <> max_retries config - 1 ->
  attempt_loop config net g (Z.of_nat k :: rest) (after_failures config g k)
  = attempt_loop config net g rest (after_failures config g (S k)).
Proof.
  intros Hk Hne. cbn [attempt_loop]. unfold _add_random_delay.
  cbn [requests draws trace after_failures]. rewrite Hk.
  destruct (Z.eqb_spec (Z.of_nat k) (max_retries config - 1)); [done|].
  f_equal. unfold after_failures. f_equal; [lia|].
  change (concat (map (failed_attempt_events config g) (seq 0 (S k))))
    with (trace (after_failures config g (S k))).
  rewrite after_failures_S. unfold failed_attempt_events, attempt_events.
  cbn [trace after_failures]. rewrite <- !app_assoc. simpl.
  repeat f_equal. lia.
Qed.

(** [k] failed attempts in a row, none of them the last one. *)
Lemma attempt_loop_failures (k n : nat) :
  (forall i, (i < k)%nat -> net i = RequestException) ->
  Z.of_nat k <= max_retries config - 1 ->
  attempt_loop config net g (map Z.of_nat (seq 0 (k + n))) start
  = attempt_loop config net g (map Z.of_nat (seq k n)) (after_failures config g k).
Proof.
  revert n. induction k as [|k IH]; intros n Hnet Hk.
  - reflexivity.
  - replace (S k + n)%nat with (k + S n)%nat by lia.
    rewrite IH by (intros; try apply Hnet; lia).
    cbn [seq map]. apply attempt_loop_failure; [apply Hnet|]; lia.
Qed.

End RetryLoop.

Section RetryContract.
Import Py Models BaseCrawler.
Context {A : Type}.
Variable config : CrawlerConfig.
Variable net : transport A.
Variable g : rng.

Lemma after_failures_counts (k : nat) :
  count_requests (trace (after_failures config g k)) = k /\
  count_backoffs (trace (after_failures config g k)) = k.
Proof.
  induction k as [|k [IHr IHb]]; [done|].
  rewrite after_failures_S, count_requests_app, count_backoffs_app, IHr, IHb.
  unfold count_requests, count_backoffs. simpl. lia.
Qed.

Lemma range_length (n : Z) : length (range n) = Z.to_nat n.
Proof. unfold range. by rewrite length_map, length_seq. Qed.

(** C5 (amended).  For a configuration whose delays [time.sleep]
    accepts, the helper issues at most [max_retries] requests.  If three
    attempts are allowed and the transport fails twice and then
    succeeds, the third reply is returned after exactly two back-off
    sleeps.  If the transport always fails, [None] is returned after
    exactly [max_retries] requests.  A failed attempt at index [i] that
    is not the last one is followed by a back-off of
    [2^i + uniform(1, 3)] seconds. *)
Theorem C5_bounded_retry :
  sleepable config ->
  unit_interval g ->
  let run := _make_request config net g start in
  (count_requests (trace (snd run)) <= Z.to_nat (max_retries config))%nat /\
  (forall d : A,
     3 <= max_retries config ->
     net 0%nat = RequestException ->
     net 1%nat = RequestException ->
     net 2%nat = Body d ->
     fst run = Some d /\
     trace (snd run)
     = failed_attempt_events config g 0 ++ failed_attempt_events config g 1
       ++ attempt_events config g 2 /\
     count_backoffs (trace (snd run)) = 2%nat /\
     count_requests (trace (snd run)) = 3%nat) /\
  ((forall k, net k = RequestException) ->
   fst run = None /\
   count_requests (trace (snd run)) = Z.to_nat (max_retries config)) /\
  (forall i : nat,
     Z.of_nat i < max_retries config - 1 ->
     (forall k, (k <= i)%nat -> net k = RequestException) ->
     exists post,
       trace (snd run)
       = concat (map (failed_attempt_events config g) (seq 0 i))
         ++ failed_attempt_events config g i ++ post).
Proof.
  intros _ _ run. subst run. unfold _make_request, range.
  split; [|split; [|split]].
  - etrans; [apply attempt_loop_bound|]. simpl.
    by rewrite length_map, length_seq.
  - intros d Hmr H0 H1 H2.
    destruct (Z.to_nat (max_retries config)) as [|[|[|n]]] eqn:En; try lia.
    change (S (S (S n))) with (2 + S n)%nat.
    rewrite attempt_loop_failures; [|intros [|[|i]] Hi; (done || lia)|lia].
    cbn [seq map attempt_loop]. unfold _add_random_delay.
    cbn [requests draws trace after_failures]. rewrite H2.
    cbn [fst snd trace]. split; [done|].
    split; [|split].
    + unfold failed_attempt_events, attempt_events. simpl.
      reflexivity.
    + unfold count_backoffs. simpl. reflexivity.
    + unfold count_requests. simpl. reflexivity.
  - intros Hnet.
    destruct (Z.to_nat (max_retries config)) as [|m] eqn:En; [done|].
    replace (S m) with (m + 1)%nat by lia.
    rewrite attempt_loop_failures by (intros; try apply Hnet; lia).
    cbn [seq map attempt_loop]. unfold _add_random_delay.
    cbn [requests draws trace after_failures]. rewrite Hnet.
    destruct (Z.eqb_spec (Z.of_nat m) (max_retries config - 1)); [|lia].
    cbn [fst snd trace]. split; [done|].
    change (concat (map (failed_attempt_events config g) (seq 0 m)))
      with (trace (after_failures config g m)).
    rewrite !count_requests_app.
    rewrite (proj1 (after_failures_counts m)).
    unfold count_requests. simpl. lia.
  - intros i Hi Hnet.
    replace (Z.to_nat (max_retries config))
      with (S i + (Z.to_nat (max_retries config) - S i))%nat by lia.
    rewrite attempt_loop_failures by (intros; try apply Hnet; lia).
    edestruct (attempt_loop_trace config net g) as [post ->].
    rewrite after_failures_S. exists post.
    by rewrite <- app_assoc.
Qed.

End RetryContract.

Lemma C5_bounded_retry_witness :
  let config := Samples.fallback_config false in
  fst (BaseCrawler._make_request config Samples.flaky Samples.half
         BaseCrawler.start) = Some 7 /\
  BaseCrawler.count_backoffs
    (BaseCrawler.trace
       (snd (BaseCrawler._make_request config Samples.flaky Samples.half
               BaseCrawler.start))) = 2%nat /\
  fst (BaseCrawler._make_request config Samples.down Samples.half
         BaseCrawler.start) = None /\
  BaseCrawler.count_requests
    (BaseCrawler.trace
       (snd (BaseCrawler._make_request config Samples.down Samples.half
               BaseCrawler.start))) = 3%nat /\
  exists post,
    BaseCrawler.trace
      (snd (BaseCrawler._make_request config Samples.down Samples.half
              BaseCrawler.start))
    = BaseCrawler.failed_attempt_events config Samples.half 0
      ++ BaseCrawler.failed_attempt_events config Samples.half 1 ++ post.
Proof.
  intros config.
  assert (BaseCrawler.sleepable config) as Hs
    by (repeat split; vm_compute; discriminate).
  assert (BaseCrawler.unit_interval Samples.half) as Hg
    by (intros k; split; vm_compute; discriminate).
  destruct (C5_bounded_retry config Samples.flaky Samples.half Hs Hg)
    as (_ & Hflaky & _).
  destruct (C5_bounded_retry config Samples.down Samples.half Hs Hg)
    as (_ & _ & Hdown & Hbackoff).
  destruct (Hflaky 7) as (Hres & _ & Hb & _);
    [vm_compute; discriminate|reflexivity..|].
  destruct Hdown as [Hnone Hcount]; [reflexivity|].
  destruct (Hbackoff 1%nat) as [post Hpost];
    [vm_compute; reflexivity|reflexivity|].
  split; [exact Hres|]. split; [exact Hb|]. split; [exact Hnone|].
  split; [exact Hcount|]. exists post. exact Hpost.
Defined.

(** C5, as stated, fails when fewer than three attempts are allowed.
    With [max_retries = 2] - a configuration whose delays [time.sleep]
    accepts - a transport that fails twice and would then succeed is
    asked twice only: the second failure is the last attempt, so the
    helper returns [None] after one back-off and never requests the
    third reply. *)
Lemma C5_two_attempts_counterexample :
  let run := BaseCrawler._make_request Samples.two_attempts Samples.flaky
               Samples.half BaseCrawler.start in
  BaseCrawler.sleepable Samples.two_attempts /\
  BaseCrawler.unit_interval Samples.half /\
  Samples.flaky 0%nat = BaseCrawler.RequestException /\
  Samples.flaky 1%nat = BaseCrawler.RequestException /\
  Samples.flaky 2%nat = BaseCrawler.Body 7 /\
  fst run = None /\
  BaseCrawler.count_requests (BaseCrawler.trace (snd run)) = 2%nat /\
  BaseCrawler.count_backoffs (BaseCrawler.trace (snd run)) = 1%nat.
Proof.
  intros run. split; [repeat split; vm_compute; discriminate|].
  split; [intros k; split; vm_compute; discriminate|].
  repeat split.
Qed.

(** * The API strategy and its credential *)

Section Credential.
Import Py Models XiaohongshuApiCrawler.
Context `{UnicodeData} `{DateTimeLib}.

(** C6 (amended).  The absence of the credential is checked by the
    factory [create_api_crawler], not by [crawl_hot_search]: when neither
    the argument nor the environment supplies a key the factory raises
    [ValueError] and no crawler exists, so no network call can follow;
    a crawler made by the factory always holds a key.
    [crawl_hot_search] itself performs no check: its first action is the
    GET request, issued with whatever key the crawler holds. *)
Theorem C6_credential_checked_by_factory :
  (forall api_key environ : option pystr,
     key_absent api_key = true ->
     key_absent environ = true ->
     create_api_crawler api_key environ = Raises ValueError) /\
  (forall (api_key environ : option pystr) (crawler : t),
     create_api_crawler api_key environ = Returns crawler ->
     key_absent (XiaohongshuApiCrawler.api_key crawler) = false) /\
  (forall (net : option pystr -> api_reply) (now : datetime) (self : t),
     snd (crawl_hot_search net now self)
     = [HttpGet (api_url self) (XiaohongshuApiCrawler.api_key self)]).
Proof.
  split; [|split].
  - intros api_key environ Hk He. unfold create_api_crawler.
    rewrite Hk, He. reflexivity.
  - intros api_key environ crawler. unfold create_api_crawler.
    destruct (key_absent api_key) eqn:Hk.
    + destruct (key_absent environ) eqn:He; [done|]. by intros [= <-].
    + rewrite Hk. by intros [= <-].
  - intros net now self. unfold crawl_hot_search, _make_api_request.
    destruct (net _) as [|status json]; [done|].
    destruct (negb (status =? 200)); [done|].
    destruct json as [data|]; [|done].
    by destruct (bool_decide (b_code data = Some 200)).
Qed.

End Credential.

Lemma C6_credential_checked_by_factory_witness :
  XiaohongshuApiCrawler.create_api_crawler None (Some [])
  = Py.Raises Py.ValueError /\
  exists crawler,
    XiaohongshuApiCrawler.create_api_crawler None (Some (Py.str "secret"))
    = Py.Returns crawler /\
    XiaohongshuApiCrawler.key_absent
      (XiaohongshuApiCrawler.api_key crawler) = false.
Proof.
  destruct (@C6_credential_checked_by_factory Reference.ascii_unicode
              Reference.text_dates) as (Hraise & Hkey & _).
  split; [by apply Hraise|].
  eexists. split; [reflexivity|].
  by apply (Hkey None (Some (Py.str "secret"))).
Defined.

(** C6, as stated, fails: a crawler built without a credential (the
    class constructor accepts [None] and the empty string) sends its
    request all the same, and returns whatever the endpoint's answer
    parses to - here a result with one item, not [None]. *)
Lemma C6_no_check_in_crawl_counterexample :
  let crawl key :=
    @XiaohongshuApiCrawler.crawl_hot_search Reference.ascii_unicode
      Reference.text_dates Samples.open_endpoint Samples.clock
      (XiaohongshuApiCrawler.init key (Samples.fallback_config false)) in
  (XiaohongshuApiCrawler.key_absent None = true /\
   snd (crawl None)
   = [XiaohongshuApiCrawler.HttpGet XiaohongshuApiCrawler.the_api_url None] /\
   exists r, fst (crawl None) = Some r /\ Models.total r = 1 /\
             map Models.heat (Models.items r) = [20000]) /\
  (XiaohongshuApiCrawler.key_absent (Some []) = true /\
   snd (crawl (Some []))
   = [XiaohongshuApiCrawler.HttpGet XiaohongshuApiCrawler.the_api_url
        (Some [])] /\
   exists r, fst (crawl (Some [])) = Some r /\ Models.total r = 1).
Proof.
  repeat split; vm_compute; eexists; repeat split.
Qed.

(** * Dictionaries and the trend report *)

Section DictFacts.
Import Py.
Context {V : Type}.

Lemma dict_get_set (d : dict V) (k : pystr) (v : V) (k' : pystr) :
  dict_get (dict_set d k v) k'
  = if decide (k' = k) then Some v else dict_get d k'.
Proof.
  induction d as [|[k0 v0] d IH]; simpl.
  - by destruct (decide (k' = k)).
  - destruct (decide (k = k0)) as [->|Hne]; simpl.
    + by destruct (decide (k' = k0)).
    + destruct (decide (k' = k0)) as [->|Hne'].
      * by destruct (decide (k0 = k)).
      * apply IH.
Qed.

Lemma dict_set_keys (d : dict V) (k : pystr) (v : V) (x : pystr) :
  In x (map fst (dict_set d k v)) <-> x = k \/ In x (map fst d).
Proof.
  induction d as [|[k0 v0] d IH]; simpl.
  - split; [intros [<-|[]]; by left|intros [->|[]]; by left].
  - destruct (decide (k = k0)) as [->|Hne]; simpl.
    + split; [intros [<-|Hin]; [by left|by right; right]|].
      intros [->|[<-|Hin]]; [by left|by left|by right].
    + rewrite IH. split.
      * intros [<-|[->|Hin]]; [by right; left|by left|by right; right].
      * intros [->|[<-|Hin]]; [by right; left|by left|by right; right].
Qed.

Lemma dict_set_NoDup (d : dict V) (k : pystr) (v : V) :
  List.NoDup (map fst d) -> List.NoDup (map fst (dict_set d k v)).
Proof.
  induction d as [|[k0 v0] d IH]; simpl; intros Hnd.
  - constructor; [intros []|constructor].
  - apply List.NoDup_cons_iff in Hnd as [Hk0 Hnd].
    destruct (decide (k = k0)) as [->|Hne]; simpl.
    + by constructor.
    + constructor; [|by apply IH].
      rewrite dict_set_keys. intros [->|Hin]; done.
Qed.

Lemma dict_get_None (d : dict V) (k : pystr) :
  dict_get d k = None <-> ~ In k (map fst d).
Proof.
  induction d as [|[k0 v0] d IH]; simpl; [tauto|].
  destruct (decide (k = k0)) as [->|Hne].
  - split; [done|]. intros Hn. exfalso. apply Hn. by left.
  - rewrite IH. split; [intros Hn [Heq|Hin]; by auto|].
    intros Hn Hin. apply Hn. by right.
Qed.

Lemma dict_get_In (d : dict V) (k : pystr) (v : V) :
  List.NoDup (map fst d) ->
  In (k, v) d <-> dict_get d k = Some v.
Proof.
  induction d as [|[k0 v0] d IH]; simpl; intros Hnd; [by split|].
  apply List.NoDup_cons_iff in Hnd as [Hk0 Hnd].
  destruct (decide (k = k0)) as [->|Hne].
  - split; [|intros [= ->]; by left].
    intros [[= ->]|Hin]; [done|].
    exfalso. apply Hk0. apply in_map_iff. by exists (k0, v).
  - rewrite <- IH by done. split; [|by right].
    intros [[= -> _]|Hin]; done.
Qed.

Lemma dict_get_Some_key (d : dict V) (k : pystr) (v : V) :
  dict_get d k = Some v -> In k (map fst d).
Proof.
  induction d as [|[k0 v0] d IH]; simpl; [done|].
  destruct (decide (k = k0)) as [->|Hne]; [by left|].
  intros Hg. right. by apply IH.
Qed.

Lemma dict_mem_In (d : dict V) (k : pystr) :
  dict_mem d k = true <-> In k (map fst d).
Proof.
  unfold dict_mem. destruct (dict_get d k) as [v|] eqn:E.
  - split; [intros _|done]. by apply dict_get_Some_key in E.
  - apply dict_get_None in E. split; [done|]. intros Hin. by apply E in Hin.
Qed.

End DictFacts.

Section TrendFacts.
Import Py Models Analysis.
Context `{DateTimeLib}.

Lemma word_map_from_cons (d : dict HotSearchItem) (it : HotSearchItem)
    (items : list HotSearchItem) :
  word_map_from d (it :: items)
  = word_map_from (dict_set d (word it) it) items.
Proof. reflexivity. Qed.

Lemma word_map_from_keys (items : list HotSearchItem)
    (d : dict HotSearchItem) (w : pystr) :
  In w (map fst (word_map_from d items))
  <-> In w (map fst d) \/ In w (map word items).
Proof.
  revert d. induction items as [|it items IH]; intros d.
  - simpl. tauto.
  - rewrite word_map_from_cons, IH, dict_set_keys. simpl.
    intuition congruence.
Qed.

Lemma word_map_from_NoDup (items : list HotSearchItem)
    (d : dict HotSearchItem) :
  List.NoDup (map fst d) -> List.NoDup (map fst (word_map_from d items)).
Proof.
  revert d. induction items as [|it items IH]; intros d Hd; [done|].
  rewrite word_map_from_cons. by apply IH, dict_set_NoDup.
Qed.

(** Every key is the word of its value. *)
Lemma dict_set_keyed (d : dict HotSearchItem) (it : HotSearchItem) :
  Forall (fun kv => word (snd kv) = fst kv) d ->
  Forall (fun kv => word (snd kv) = fst kv) (dict_set d (word it) it).
Proof.
  induction d as [|[k0 v0] d IH]; simpl; intros Hd.
  - by constructor.
  - apply Forall_cons in Hd as [Hk Hd].
    destruct (decide (word it = k0)); constructor; auto.
Qed.

Lemma word_map_from_keyed (items : list HotSearchItem)
    (d : dict HotSearchItem) :
  Forall (fun kv => word (snd kv) = fst kv) d ->
  Forall (fun kv => word (snd kv) = fst kv) (word_map_from d items).
Proof.
  revert d. induction items as [|it items IH]; intros d Hd; [done|].
  rewrite word_map_from_cons. by apply IH, dict_set_keyed.
Qed.

(** Last seen wins. *)
Lemma word_map_from_get (items : list HotSearchItem)
    (d : dict HotSearchItem) (w : pystr) :
  dict_get (word_map_from d items) w
  = fold_left (fun acc item => if decide (word item = w) then Some item else acc)
      items (dict_get d w).
Proof.
  revert d. induction items as [|it items IH]; intros d; [done|].
  rewrite word_map_from_cons, IH, dict_get_set. cbn [fold_left].
  destruct (decide (w = word it)) as [->|Hne].
  - by destruct (decide (word it = word it)).
  - by destruct (decide (word it = w)).
Qed.

Lemma word_map_get (items : list HotSearchItem) (w : pystr) :
  dict_get (word_map items) w = last_with items w.
Proof. apply (word_map_from_get items []). Qed.

Lemma word_map_keys (items : list HotSearchItem) (w : pystr) :
  In w (map fst (word_map items)) <-> In w (map word items).
Proof.
  unfold word_map. rewrite word_map_from_keys. simpl. tauto.
Qed.

Lemma word_map_NoDup (items : list HotSearchItem) :
  List.NoDup (map fst (word_map items)).
Proof. apply word_map_from_NoDup. constructor. Qed.

Lemma word_map_keyed (items : list HotSearchItem) :
  Forall (fun kv => word (snd kv) = fst kv) (word_map items).
Proof. apply word_map_from_keyed. constructor. Qed.

(** The words of the values of [a] that are missing from [b] are the keys
    of [a] that are not keys of [b]. *)
Lemma only_in_words (a b : dict HotSearchItem) :
  Forall (fun kv => word (snd kv) = fst kv) a ->
  map word (only_in a b)
  = List.filter (fun k => negb (dict_mem b k)) (map fst a).
Proof.
  induction a as [|[k v] a IH]; simpl; intros Ha; [done|].
  apply Forall_cons in Ha as [Hk Ha]. simpl in Hk.
  unfold only_in in *. simpl.
  destruct (dict_mem b k); simpl; [by apply IH|].
  rewrite Hk. f_equal. by apply IH.
Qed.

Lemma only_in_spec (a b : list HotSearchItem) :
  List.NoDup (map word (only_in (word_map a) (word_map b))) /\
  forall w, In w (map word (only_in (word_map a) (word_map b)))
            <-> In w (map word a) /\ ~ In w (map word b).
Proof.
  rewrite only_in_words by apply word_map_keyed. split.
  - apply List.NoDup_filter, word_map_NoDup.
  - intros w. rewrite filter_In, word_map_keys, negb_true_iff.
    rewrite <- (word_map_keys b), <- dict_mem_In.
    destruct (dict_mem (word_map b) w); intuition congruence.
Qed.

Lemma rank_changes_spec (current previous : list HotSearchItem)
    (rc : rank_change) :
  In rc (rank_changes_of (word_map current) (word_map previous)) <->
  exists ci pi,
    last_with current (rc_word rc) = Some ci /\
    last_with previous (rc_word rc) = Some pi /\
    current_rank rc = rank ci /\
    previous_rank rc = rank pi /\
    change rc = rank pi - rank ci /\
    change rc <> 0.
Proof.
  unfold rank_changes_of. rewrite <- list_elem_of_In, list_elem_of_omap.
  split.
  - intros ([w ci] & Hin & Hrc). apply list_elem_of_In in Hin.
    apply dict_get_In in Hin; [|apply word_map_NoDup].
    rewrite word_map_get in Hin, Hrc.
    destruct (last_with previous w) as [pi|] eqn:Hp; [|done].
    destruct (Z.eqb_spec (rank pi - rank ci) 0) as [|Hne]; [done|].
    injection Hrc as <-. simpl. exists ci, pi. done.
  - intros (ci & pi & Hc & Hp & H1 & H2 & H3 & H4).
    exists (rc_word rc, ci). split.
    + apply list_elem_of_In, dict_get_In; [apply word_map_NoDup|].
      by rewrite word_map_get.
    + rewrite word_map_get, Hp.
      destruct (Z.eqb_spec (rank pi - rank ci) 0) as [He|Hne]; [lia|].
      f_equal. destruct rc. simpl in *. by subst.
Qed.

(** A [dict] lists its keys in the order of their first assignment. *)
Lemma dict_set_fst (d : dict HotSearchItem) (k : pystr) (v : HotSearchItem) :
  map fst (dict_set d k v)
  = if bool_decide (k ∈ map fst d) then map fst d else map fst d ++ [k].
Proof.
  induction d as [|[k0 v0] d IH]; [done|].
  cbn [dict_set map fst]. destruct (decide (k = k0)) as [->|Hne].
  - rewrite bool_decide_eq_true_2 by left. done.
  - cbn [map fst]. rewrite IH. case_bool_decide as Hin.
    + rewrite bool_decide_eq_true_2 by (by right). done.
    + rewrite bool_decide_eq_false_2; [done|].
      intros Hin'. apply elem_of_cons in Hin' as [?|?]; done.
Qed.

Lemma filter_filter_and {B} (p q : B -> bool) (l : list B) :
  List.filter p (List.filter q l) = List.filter (fun x => p x && q x) l.
Proof.
  induction l as [|x l IH]; [done|]. cbn [List.filter].
  destruct (q x); cbn [List.filter]; rewrite ?andb_true_r, ?andb_false_r.
  - destruct (p x); by rewrite IH.
  - exact IH.
Qed.

Lemma word_map_from_first (items : list HotSearchItem)
    (d : dict HotSearchItem) :
  map fst (word_map_from d items)
  = map fst d
    ++ List.filter (fun w => negb (bool_decide (w ∈ map fst d)))
         (first_occurrences (map word items)).
Proof.
  revert d. induction items as [|it items IH]; intros d.
  - cbn. by rewrite app_nil_r.
  - rewrite word_map_from_cons, IH, dict_set_fst.
    cbn [map first_occurrences List.filter].
    case_bool_decide as Hin; cbn [negb].
    + f_equal. rewrite filter_filter_and. apply List.filter_ext.
      intros x. case_bool_decide as Hx; cbn [negb andb]; [done|].
      case_bool_decide; [by subst|done].
    + rewrite <- app_assoc. cbn [app]. do 2 f_equal.
      rewrite filter_filter_and. apply List.filter_ext.
      intros x. apply eq_true_iff_eq.
      rewrite andb_true_iff, !negb_true_iff, !bool_decide_eq_false.
      rewrite elem_of_app, list_elem_of_singleton. tauto.
Qed.

Lemma word_map_first (items : list HotSearchItem) :
  map fst (word_map items) = first_occurrences (map word items).
Proof.
  unfold word_map. rewrite word_map_from_first. cbn [map app].
  induction (first_occurrences (map word items)) as [|x l IH]; [done|].
  cbn [List.filter].
  rewrite bool_decide_eq_false_2 by apply not_elem_of_nil.
  cbn [negb]. by rewrite IH.
Qed.

(** The reported terms, in the order of the report. *)
Lemma only_in_terms (a b : list HotSearchItem) :
  map word (only_in (word_map a) (word_map b)) = terms_only_in a b.
Proof.
  rewrite only_in_words by apply word_map_keyed.
  rewrite word_map_first. unfold terms_only_in. apply List.filter_ext.
  intros w. f_equal. apply eq_true_iff_eq.
  rewrite dict_mem_In, word_map_keys, bool_decide_eq_true.
  by rewrite list_elem_of_In.
Qed.

Lemma terms_only_in_spec (a b : list HotSearchItem) :
  List.NoDup (terms_only_in a b) /\
  forall w, In w (terms_only_in a b)
            <-> In w (map word a) /\ ~ In w (map word b).
Proof. rewrite <- only_in_terms. apply only_in_spec. Qed.

(** One rank change per term. *)
Lemma rank_changes_NoDup (current previous : dict HotSearchItem) :
  List.NoDup (map fst current) ->
  List.NoDup (map rc_word (rank_changes_of current previous)).
Proof.
  unfold rank_changes_of.
  induction current as [|[w ci] current IH]; intros Hnd; [constructor|].
  apply List.NoDup_cons_iff in Hnd as [Hw Hnd].
  cbn [omap list_omap].
  assert (forall rc,
            In rc (omap (fun kv : pystr * HotSearchItem =>
                           let '(word, current_item) := kv in
                           match dict_get previous word with
                           | None => None
                           | Some previous_item =>
                               let rank_change :=
                                 rank previous_item - rank current_item in
                               if rank_change =? 0 then None
                               else Some {| rc_word := word;
                                            current_rank := rank current_item;
                                            previous_rank := rank previous_item;
                                            change := rank_change |}
                           end) current) ->
            In (rc_word rc) (map fst current)) as Hkeys.
  { intros rc Hin. apply list_elem_of_In, list_elem_of_omap in Hin
      as ([w' ci'] & Hin & Hrc).
    cbv beta iota zeta in Hrc.
    destruct (dict_get previous w') as [pi|]; [|done].
    destruct (rank pi - rank ci' =? 0); [done|]. injection Hrc as <-.
    cbn [rc_word]. apply in_map_iff. exists (w', ci'). split; [done|].
    by apply list_elem_of_In. }
  destruct (dict_get previous w) as [pi|]; [|by apply IH].
  destruct (rank pi - rank ci =? 0); [by apply IH|].
  cbn [map rc_word]. constructor; [|by apply IH].
  intros Hin. apply in_map_iff in Hin as (rc & Hrc & Hin).
  apply Hkeys in Hin. simpl in Hrc, Hw. rewrite Hrc in Hin. done.
Qed.

(** The rank changes follow the order of the current terms. *)
Lemma rank_changes_of_words (d0 d previous : dict HotSearchItem) :
  (forall k v, In (k, v) d -> dict_get d0 k = Some v) ->
  map rc_word (rank_changes_of d previous)
  = List.filter (fun w => match dict_get d0 w, dict_get previous w with
                          | Some ci, Some pi => negb (rank pi - rank ci =? 0)
                          | _, _ => false
                          end) (map fst d).
Proof.
  unfold rank_changes_of.
  induction d as [|[w ci] d IH]; intros Hd; [done|].
  cbn [omap list_omap map fst List.filter].
  rewrite (Hd w ci) by (by left).
  specialize (IH (fun k v Hin => Hd k v (or_intror Hin))).
  destruct (dict_get previous w) as [pi|]; [|exact IH].
  destruct (rank pi - rank ci =? 0); cbn [negb]; [exact IH|].
  cbn [map rc_word]. f_equal. exact IH.
Qed.

Lemma rank_changes_terms (current previous : list HotSearchItem) :
  map rc_word (rank_changes_of (word_map current) (word_map previous))
  = terms_moved current previous.
Proof.
  rewrite (rank_changes_of_words (word_map current)).
  2:{ intros k v Hin. by apply dict_get_In; [apply word_map_NoDup|]. }
  rewrite word_map_first. unfold terms_moved. apply List.filter_ext.
  intros w. by rewrite !word_map_get.
Qed.

(** C8 (amended).  Without previous data the sentinel report is
    returned.  Otherwise the report carries the number of newly appearing
    terms (present now, absent before) and the first ten of them in the
    order in which they first occur in the current sequence, the number
    of disappeared terms (present before, absent now) and the first ten
    of them in the order in which they first occur in the previous
    sequence, and one rank change per term present on both sides whose
    delta [previous rank - current rank] is not 0, in the order in which
    these terms first occur in the current sequence; ranks are those of
    the last item carrying the term. *)
Theorem C8_trend_report :
  (forall current : list HotSearchItem,
     generate_trend_analysis current None = NoPreviousData /\
     generate_trend_analysis current (Some []) = NoPreviousData) /\
  (forall current previous : list HotSearchItem,
     previous <> [] ->
     let all_new := terms_only_in current previous in
     let all_removed := terms_only_in previous current in
     exists rcs : list rank_change,
       generate_trend_analysis current (Some previous)
       = Trend (Z.of_nat (length all_new)) (Z.of_nat (length all_removed))
               rcs (firstn 10 all_new) (firstn 10 all_removed) /\
       List.NoDup all_new /\
       (forall w, In w all_new
                  <-> In w (map word current) /\ ~ In w (map word previous)) /\
       List.NoDup all_removed /\
       (forall w, In w all_removed
                  <-> In w (map word previous) /\ ~ In w (map word current)) /\
       map rc_word rcs = terms_moved current previous /\
       List.NoDup (map rc_word rcs) /\
       (forall rc : rank_change,
          In rc rcs <->
          exists ci pi,
            last_with current (rc_word rc) = Some ci /\
            last_with previous (rc_word rc) = Some pi /\
            current_rank rc = rank ci /\
            previous_rank rc = rank pi /\
            change rc = rank pi - rank ci /\
            change rc <> 0)).
Proof.
  split; [done|].
  intros current previous Hne all_new all_removed.
  exists (rank_changes_of (word_map current) (word_map previous)).
  destruct (terms_only_in_spec current previous) as [Hn1 Hn2].
  destruct (terms_only_in_spec previous current) as [Hr1 Hr2].
  split;
    [|split; [exact Hn1|]; split; [exact Hn2|]; split; [exact Hr1|];
      split; [exact Hr2|];
      split; [apply rank_changes_terms|];
      split; [apply rank_changes_NoDup, word_map_NoDup|];
      intros rc; apply rank_changes_spec].
  destruct previous as [|p previous]; [done|].
  subst all_new all_removed. rewrite <- !only_in_terms.
  unfold generate_trend_analysis.
  rewrite !length_map, !slice_to_nonneg by lia.
  f_equal; by rewrite <- firstn_map.
Qed.

End TrendFacts.

Lemma C8_trend_report_witness :
  let current := [Samples.item "B" 0 1; Samples.item "C" 0 2] in
  let previous := [Samples.item "A" 0 1; Samples.item "B" 0 2] in
  Analysis.generate_trend_analysis current (Some previous)
  = Analysis.Trend 1 1
      [{| Analysis.rc_word := Py.str "B"; Analysis.current_rank := 1;
          Analysis.previous_rank := 2; Analysis.change := 1 |}]
      [Py.str "C"] [Py.str "A"] /\
  Analysis.terms_only_in current previous = [Py.str "C"] /\
  Analysis.terms_only_in previous current = [Py.str "A"] /\
  Analysis.terms_moved current previous = [Py.str "B"].
Proof.
  intros current previous.
  destruct (proj2 (@C8_trend_report Reference.text_dates) current previous)
    as (rcs & Hgen & _); [discriminate|].
  assert (Analysis.generate_trend_analysis current (Some previous)
          = Analysis.Trend 1 1
              [{| Analysis.rc_word := Py.str "B"; Analysis.current_rank := 1;
                  Analysis.previous_rank := 2; Analysis.change := 1 |}]
              [Py.str "C"] [Py.str "A"]) as Hrun by (vm_compute; reflexivity).
  split; [exact Hrun|].
  repeat split.
Defined.

(** C8, as stated, fails when more than ten terms appear: the report
    lists the first ten only (with the count of all eleven), so the
    eleventh new term is not in the reported list. *)
Lemma C8_only_ten_listed_counterexample :
  let previous := [Samples.item "z" 0 1] in
  let last := [107%N] in
  exists rcs new_words_list removed_words_list,
    Analysis.generate_trend_analysis Samples.eleven (Some previous)
    = Analysis.Trend 11 1 rcs new_words_list removed_words_list /\
    length new_words_list = 10%nat /\
    In last (map Models.word Samples.eleven) /\
    ~ In last (map Models.word previous) /\
    ~ In last new_words_list.
Proof.
  do 3 eexists. split; [vm_compute; reflexivity|].
  split; [reflexivity|]. split; [vm_compute; tauto|].
  split; vm_compute; intros Hin;
    repeat (destruct Hin as [Hin|Hin]; [discriminate|]); exact Hin.
Qed.

(** * The statistics *)

Section StatisticsFacts.
Import Py Models Analysis.

Lemma overflow_threshold_pos : 0 < overflow_threshold.
Proof. vm_compute. reflexivity. Qed.

Lemma int_truediv_returns (a b : Z) :
  0 < b ->
  Z.abs a < overflow_threshold * b ->
  exists x, int_truediv a b = Returns x.
Proof.
  intros Hb Ha. unfold int_truediv.
  destruct (Z.eqb_spec b 0); [lia|].
  destruct (Z.leb_spec (overflow_threshold * Z.abs b) (Z.abs a)); [lia|].
  destruct (Z.abs a); [by eexists|..];
    destruct (SFdiv_core_binary _ _ _ _ _ _) as [[mz ez] lz]; by eexists.
Qed.

(** The sum of [n] values in [[0, T)] is in [[0, n (T - 1)]]. *)
Lemma sum_Z_bound (T : Z) (data : list Z) :
  Forall (fun h => 0 <= h < T) data ->
  0 <= sum_Z data <= Z.of_nat (length data) * (T - 1).
Proof.
  induction 1 as [|h data Hh Hd IH]; simpl; [lia|].
  unfold sum_Z in *. simpl. nia.
Qed.

Lemma mean_returns (data : list Z) :
  data <> [] ->
  Forall (fun h => 0 <= h < overflow_threshold) data ->
  exists x, mean data = Returns x /\ format_f x = Returns tt.
Proof.
  intros Hne Hd. pose proof (sum_Z_bound _ _ Hd) as Hs.
  pose proof overflow_threshold_pos as HT.
  unfold mean. destruct data as [|h data]; [done|].
  set (l := h :: data) in *.
  assert (0 < Z.of_nat (length l)) as Hn by (simpl; lia).
  destruct (Z.eqb_spec (sum_Z l mod Z.of_nat (length l)) 0) as [Hm|Hm].
  - eexists. split; [reflexivity|]. unfold format_f.
    assert (0 <= sum_Z l / Z.of_nat (length l) < overflow_threshold) as Hq.
    { split; [apply Z.div_pos; lia|]. apply Z.div_lt_upper_bound; nia. }
    destruct (Z.leb_spec overflow_threshold
                (Z.abs (sum_Z l / Z.of_nat (length l)))); [lia|done].
  - destruct (int_truediv_returns (sum_Z l) (Z.of_nat (length l)))
      as [x Hx]; [lia|nia|].
    rewrite Hx. simpl. by eexists.
Qed.

Lemma nth_Forall (P : Z -> Prop) (l : list Z) (i : nat) (d : Z) :
  Forall P l -> P d -> P (nth i l d).
Proof.
  intros Hl Hd. revert i. induction Hl as [|x l Hx Hl IH]; intros [|i]; simpl;
    auto.
Qed.

Lemma median_returns (data : list Z) :
  data <> [] ->
  Forall (fun h => 0 <= h < overflow_threshold) data ->
  exists x, median data = Returns x.
Proof.
  intros Hne Hd. pose proof overflow_threshold_pos as HT.
  unfold median.
  assert (Forall (fun h => 0 <= h < overflow_threshold)
            (merge_sort Z.le data)) as Hs.
  { eapply Permutation_Forall; [|exact Hd].
    symmetry. apply merge_sort_Permutation. }
  destruct (merge_sort Z.le data) as [|h s] eqn:E.
  - exfalso. apply Hne. apply Permutation_nil.
    rewrite <- E. apply merge_sort_Permutation.
  - destruct (Nat.odd (length (h :: s))); [by eexists|].
    set (i := (length (h :: s) / 2)%nat).
    assert (0 <= 0 < overflow_threshold) as H0 by lia.
    pose proof (nth_Forall _ _ (i - 1) 0 Hs H0) as H1.
    pose proof (nth_Forall _ _ i 0 Hs H0) as H2.
    cbv beta in H1, H2.
    destruct (int_truediv_returns
                (nth (i - 1) (h :: s) 0 + nth i (h :: s) 0) 2)
      as [x Hx]; [lia|lia|].
    rewrite Hx. by eexists.
Qed.

Lemma max_list_bound (T : Z) (data : list Z) :
  data <> [] ->
  Forall (fun h => 0 <= h < T) data ->
  0 <= max_list data < T.
Proof.
  intros Hne Hd. destruct data as [|h data]; [done|]. clear Hne.
  apply Forall_cons in Hd as [Hh Hd]. simpl.
  revert h Hh. induction Hd as [|x data Hx Hd IH]; intros h Hh; simpl; [done|].
  apply IH. lia.
Qed.

End StatisticsFacts.

Section AnalysisContract.
Import Py Models Analysis.
Context `{DateTimeLib}.

Lemma heat_values_bound (result : HotSearchResult) :
  convertible result ->
  Forall (fun h => 0 <= h < overflow_threshold) (heat_values (items result)).
Proof.
  unfold convertible, heat_values. intros Hc.
  apply List.Forall_forall. intros h Hin.
  apply filter_In in Hin as [Hin Hpos]. apply Z.ltb_lt in Hpos.
  apply in_map_iff in Hin as (it & <- & Hit).
  rewrite List.Forall_forall in Hc. destruct (Hc it Hit). lia.
Qed.

Lemma word_lengths_bound (result : HotSearchResult) :
  convertible result ->
  Forall (fun h => 0 <= h < overflow_threshold)
         (map (fun item => Z.of_nat (length (word item))) (items result)).
Proof.
  unfold convertible. intros Hc.
  apply List.Forall_forall. intros h Hin.
  apply in_map_iff in Hin as (it & <- & Hit).
  rewrite List.Forall_forall in Hc. destruct (Hc it Hit). lia.
Qed.

Lemma format_f_small (n : Z) :
  0 <= n < overflow_threshold -> format_f (Int n) = Returns tt.
Proof.
  intros Hn. unfold format_f.
  destruct (Z.leb_spec overflow_threshold (Z.abs n)); [lia|done].
Qed.

(** The mean of the term lengths never raises on convertible input. *)
Lemma avg_length_returns (result : HotSearchResult) :
  convertible result ->
  exists x,
    match map (fun item => Z.of_nat (length (word item))) (items result) with
    | [] => Returns (Int 0)
    | _ =>
        mean (map (fun item => Z.of_nat (length (word item))) (items result))
    end = Returns x.
Proof.
  intros Hc. pose proof (word_lengths_bound result Hc) as Hw.
  destruct (map _ (items result)) as [|n l] eqn:E; [by eexists|].
  destruct (mean_returns (n :: l)) as (x & Hx & _); [done..|]. by exists x.
Qed.

(** On convertible input the body of the analysis returns, and its heat
    statistics are those of the positive heat values. *)
Lemma analysis_body_returns (result : HotSearchResult) :
  convertible result ->
  exists a,
    analysis_body result = Returns a /\
    total_items a = Z.of_nat (length (items result)) /\
    match List.filter (fun h => 0 <? h) (map Models.heat (items result)) with
    | [] => heat_stats a = no_heat
    | hv =>
        mean hv = Returns (avg_heat (heat_stats a)) /\
        max_heat (heat_stats a) = Int (max_list hv) /\
        min_heat (heat_stats a) = Int (min_list hv) /\
        median hv = Returns (median_heat (heat_stats a))
    end.
Proof.
  intros Hc. pose proof overflow_threshold_pos as HT.
  pose proof (heat_values_bound result Hc) as Hhv.
  destruct (avg_length_returns result Hc) as [len Hlen].
  unfold analysis_body. rewrite Hlen. unfold heat_values in *.
  destruct (List.filter _ (map Models.heat (items result))) as [|h hv] eqn:E.
  - cbn [bind]. rewrite format_f_small by lia. cbn [bind].
    eexists. split; [reflexivity|]. done.
  - destruct (mean_returns (h :: hv)) as (avg & Havg & Hfmt); [done..|].
    destruct (median_returns (h :: hv)) as (med & Hmed); [done..|].
    pose proof (max_list_bound _ (h :: hv) ltac:(done) Hhv) as Hmax.
    rewrite Havg, Hmed. cbn [bind]. rewrite Hfmt. cbn [bind].
    rewrite format_f_small by exact Hmax. cbn [bind].
    eexists. split; [reflexivity|]. done.
Qed.

(** C7 (amended).  [analyze] returns [None] for a [None] input and for a
    result whose [total] field is 0 - for a result whose [total] equals
    its item count, exactly when it has no items.  Otherwise, when every
    heat value and term length converts to a finite [float], it returns
    statistics whose [total_items] is the number of items and whose heat
    mean, maximum, minimum and median are computed over the heat values
    that are [> 0] only; when no item has a positive heat - in
    particular when all heats are 0 - the four heat statistics are 0. *)
Theorem C7_analysis_contract (result : HotSearchResult) :
  analyze_hot_search_data None = None /\
  (total result = 0 -> analyze_hot_search_data (Some result) = None) /\
  (total result <> 0 ->
   convertible result ->
   exists a,
     analyze_hot_search_data (Some result) = Some a /\
     total_items a = Z.of_nat (length (items result)) /\
     match List.filter (fun h => 0 <? h) (map Models.heat (items result)) with
     | [] => heat_stats a = no_heat
     | hv =>
         mean hv = Returns (avg_heat (heat_stats a)) /\
         max_heat (heat_stats a) = Int (max_list hv) /\
         min_heat (heat_stats a) = Int (min_list hv) /\
         median hv = Returns (median_heat (heat_stats a))
     end) /\
  (total result <> 0 ->
   convertible result ->
   Forall (fun item => Models.heat item = 0) (items result) ->
   exists a,
     analyze_hot_search_data (Some result) = Some a /\
     total_items a = Z.of_nat (length (items result)) /\
     heat_stats a = no_heat) /\
  (total result = Z.of_nat (length (items result)) ->
   convertible result ->
   (analyze_hot_search_data (Some result) = None <-> items result = [])).
Proof.
  assert (total result <> 0 -> convertible result ->
          exists a,
            analyze_hot_search_data (Some result) = Some a /\
            total_items a = Z.of_nat (length (items result)) /\
            match List.filter (fun h => 0 <? h)
                    (map Models.heat (items result)) with
            | [] => heat_stats a = no_heat
            | hv =>
                mean hv = Returns (avg_heat (heat_stats a)) /\
                max_heat (heat_stats a) = Int (max_list hv) /\
                min_heat (heat_stats a) = Int (min_list hv) /\
                median hv = Returns (median_heat (heat_stats a))
            end) as Hmain.
  { intros Ht Hc. destruct (analysis_body_returns result Hc) as (a & Ha & Hf).
    exists a. split; [|exact Hf]. unfold analyze_hot_search_data.
    destruct (Z.eqb_spec (total result) 0); [done|]. by rewrite Ha. }
  split; [done|]. split; [|split; [exact Hmain|split]].
  - intros Ht. unfold analyze_hot_search_data. by rewrite Ht.
  - intros Ht Hc Hz. destruct (Hmain Ht Hc) as (a & Ha & Hn & Hh).
    exists a. split; [exact Ha|]. split; [exact Hn|].
    assert (List.filter (fun h => 0 <? h) (map Models.heat (items result)) = [])
      as Hnil.
    { clear -Hz. induction Hz as [|it l Hit Hl IH]; [done|].
      simpl. rewrite Hit. simpl. exact IH. }
    by rewrite Hnil in Hh.
  - intros Ht Hc. split.
    + intros Hnone. destruct (items result) as [|it l] eqn:E; [done|].
      destruct Hmain as (a & Ha & _); [simpl in Ht; lia|done|].
      congruence.
    + intros Hnil. unfold analyze_hot_search_data.
      rewrite Ht, Hnil. reflexivity.
Qed.

End AnalysisContract.

Lemma C7_analysis_contract_witness :
  (exists a,
     Analysis.analyze_hot_search_data (Some Samples.three) = Some a /\
     Analysis.total_items a = 3 /\
     Analysis.heat_stats a
     = {| Analysis.avg_heat := Analysis.Int 20;
          Analysis.max_heat := Analysis.Int 30;
          Analysis.min_heat := Analysis.Int 10;
          Analysis.median_heat := Analysis.Int 20 |}) /\
  (exists a,
     Analysis.analyze_hot_search_data (Some Samples.zeros) = Some a /\
     Analysis.total_items a = 2 /\
     Analysis.heat_stats a = Analysis.no_heat) /\
  Analysis.analyze_hot_search_data (Some Samples.empty) = None.
Proof.
  destruct (C7_analysis_contract Samples.three) as (_ & _ & Hthree & _).
  destruct (C7_analysis_contract Samples.zeros) as (_ & _ & _ & Hzeros & _).
  destruct (C7_analysis_contract Samples.empty) as (_ & Hempty & _).
  split; [|split].
  - destruct Hthree as (a & Ha & Hn & Hh).
    + vm_compute. discriminate.
    + repeat constructor.
    + exists a. split; [exact Ha|]. clear Hn Hh.
      vm_compute in Ha. injection Ha as <-. split; reflexivity.
  - destruct Hzeros as (a & Ha & Hn & Hh).
    + vm_compute. discriminate.
    + repeat constructor.
    + repeat constructor.
    + by exists a.
  - by apply Hempty.
Defined.

(** C7, as stated, fails in both directions, because the guard reads the
    [total] field and not the item list: a result loaded from a document
    that announces three items and lists none has zero items and is
    analysed all the same, and a result holding one item whose [total]
    was left at 0 is not analysed.  Nor is a well-counted result whose
    heat does not fit a [float]: formatting the log line raises, and the
    handler turns every exception into [None]. *)
Lemma C7_guard_reads_total_counterexample :
  (exists r a,
     DataSaver.load_json Samples.saver Samples.clock (Py.str "old.json")
       {[ [Py.str "data"; Py.str "old.json"] := Samples.stale_document ]}
     = Some r /\
     Models.items r = [] /\
     Analysis.analyze_hot_search_data (Some r) = Some a /\
     Analysis.total_items a = 0) /\
  (length (Models.items Samples.uncounted) = 1%nat /\
   Analysis.analyze_hot_search_data (Some Samples.uncounted) = None) /\
  (length (Models.items Samples.huge) = 1%nat /\
   Models.total Samples.huge = 1 /\
   Analysis.analyze_hot_search_data (Some Samples.huge) = None).
Proof.
  split; [|split; [done|]].
  - do 2 eexists. split; [vm_compute; reflexivity|].
    split; [reflexivity|]. split; [vm_compute; reflexivity|reflexivity].
  - split; [reflexivity|]. split; [reflexivity|]. vm_compute. reflexivity.
Qed.

(** * Persistence *)

Section RoundTrip.
Import Py Models DataSaver.
Context `{DateTimeLib}.

Lemma name_join (p : path) (f : pystr) : name (join p f) = f.
Proof. unfold name, join. apply last_last. Qed.

Lemma item_of_dict_to_dict (now : datetime) (item : HotSearchItem) :
  item_of_dict now (item_to_dict item) = Some item.
Proof.
  unfold item_of_dict, item_to_dict. simpl.
  rewrite fromisoformat_isoformat. simpl. by destruct item.
Qed.

Lemma load_items_to_dict (now : datetime) (its : list HotSearchItem)
    (r : HotSearchResult) :
  load_items now (map item_to_dict its) r = Some (fold_left add_item its r).
Proof.
  revert r. induction its as [|it its IH]; intros r; simpl; [done|].
  rewrite item_of_dict_to_dict. simpl. apply IH.
Qed.

(** Appending the items of a consistent result to an empty result with
    the same header gives the result back. *)
Lemma rebuild (data : HotSearchResult) :
  total data = Z.of_nat (length (items data)) ->
  fold_left add_item (items data)
    {| items := []; total := total data; crawl_time := crawl_time data;
       source := source data |}
  = data.
Proof.
  intros Ht. destruct data as [[|it its] dn dc ds]; [done|].
  cbn [items total crawl_time source fold_left] in *.
  set (r1 := add_item _ it).
  pose proof (fold_add_item_items its r1) as Hi.
  pose proof (fold_add_item_total its r1 eq_refl) as Hn.
  destruct (fold_add_item_fixed its r1) as [Hc Hs].
  destruct (fold_left add_item its r1) as [i n c s].
  cbn in Hi, Hn, Hc, Hs. subst i n c s dn. reflexivity.
Qed.

(** C4 (amended).  A result whose [total] equals its item count and
    whose strings and numbers [json] can write, saved by [save_json]
    under a plain file name (or the generated one) into the data
    directory (no session directory, or [save_to_crawl_data] off), the
    write succeeding, is given back by [load_json] on the name of the
    written file: the same items in the same order, the same [total],
    and the same time and source. *)
Theorem C4_json_round_trip (self : t) (now now' : datetime)
    (data : HotSearchResult) (filename : option pystr)
    (save_to_crawl_data : bool) (fs : filesystem) :
  total data = Z.of_nat (length (items data)) ->
  storable data ->
  (forall f, filename = Some f -> f <> [] -> plain_name f) ->
  save_to_crawl_data = false \/ current_session_dir self = None ->
  let saved := save_json self now data filename save_to_crawl_data fs in
  exists loaded,
    load_json self now' (name (fst saved)) (snd saved) = Some loaded /\
    items loaded = items data /\
    total loaded = total data /\
    loaded = data.
Proof.
  intros Ht _ _ Hdir saved. exists data. split; [|done].
  subst saved. unfold save_json.
  set (f := match filename with
            | Some (c :: f) => c :: f
            | _ => _
            end).
  assert (match save_to_crawl_data, current_session_dir self with
          | true, Some d => join (join d (str "crawl_data")) f
          | _, _ => join (data_dir self) f
          end = join (data_dir self) f) as ->.
  { destruct Hdir as [-> | ->]; [done|]. by destruct save_to_crawl_data. }
  cbn [fst snd]. rewrite name_join. unfold load_json.
  rewrite lookup_insert_eq. cbn.
  rewrite fromisoformat_isoformat. cbn.
  rewrite load_items_to_dict. f_equal. by apply rebuild.
Qed.

End RoundTrip.

Lemma C4_json_round_trip_witness :
  let saved :=
    DataSaver.save_json Samples.saver Samples.clock Samples.three
      (Some (Py.str "today.json")) true ∅ in
  fst saved = [Py.str "data"; Py.str "today.json"] /\
  exists loaded,
    DataSaver.load_json Samples.saver Samples.clock
      (DataSaver.name (fst saved)) (snd saved) = Some loaded /\
    Models.items loaded = Models.items Samples.three /\
    Models.total loaded = 3.
Proof.
  intros saved. split; [reflexivity|].
  destruct (C4_json_round_trip Samples.saver Samples.clock Samples.clock
              Samples.three (Some (Py.str "today.json")) true ∅)
    as (loaded & Hload & Hitems & Htotal & _).
  - reflexivity.
  - split; [|split; [|vm_compute; reflexivity]].
    + repeat constructor; try discriminate; vm_compute; reflexivity.
    + repeat constructor; vm_compute; reflexivity.
  - intros f Hf _. injection Hf as <-.
    unfold DataSaver.plain_name. repeat split; try discriminate;
      vm_compute; intuition discriminate.
  - right. reflexivity.
  - exists loaded. split; [exact Hload|]. split; [exact Hitems|].
    rewrite Htotal. reflexivity.
Defined.

(** C4, as stated, fails.  A result whose [total] disagrees with its
    item count comes back with the recomputed [total]; and a file saved
    while a session directory is active lands in its [crawl_data]
    directory, where [load_json], which reads the data directory, does
    not find it. *)
Lemma C4_round_trip_counterexample :
  (let saved :=
     DataSaver.save_json Samples.saver Samples.clock Samples.miscounted
       (Some (Py.str "today.json")) true ∅ in
   exists loaded,
     DataSaver.load_json Samples.saver Samples.clock
       (DataSaver.name (fst saved)) (snd saved) = Some loaded /\
     Models.total Samples.miscounted = 5 /\
     Models.total loaded = 1) /\
  (let session :=
     fst (DataSaver.create_session_directory Samples.saver
            (Py.str "20250102") (Py.str "0000")) in
   let saved :=
     DataSaver.save_json session Samples.clock Samples.three
       (Some (Py.str "today.json")) true ∅ in
   fst saved = [Py.str "output"; Py.str "20250102"; Py.str "0000";
                Py.str "crawl_data"; Py.str "today.json"] /\
   DataSaver.load_json session Samples.clock
     (DataSaver.name (fst saved)) (snd saved) = None).
Proof.
  split.
  - eexists. split; [vm_compute; reflexivity|]. done.
  - split; [reflexivity|]. vm_compute. reflexivity.
Qed.

(** * Floats and the heat parser *)

Section FloatFacts.
Import Py.

Lemma binary_round_aux_sign (neg : bool) (mx ex : Z) (lx : location) :
  has_sign neg (binary_round_aux prec emax neg mx ex lx).
Proof.
  unfold binary_round_aux.
  destruct (shr_fexp prec emax mx ex lx) as [mrs e'].
  destruct (shr_fexp prec emax _ e' loc_Exact) as [mrs'' e''].
  destruct (shr_m mrs''); [done| |done].
  by destruct (e'' <=? emax - prec).
Qed.

Lemma binary_round_sign (neg : bool) (m : positive) (e : Z) :
  has_sign neg (binary_round prec emax neg m e).
Proof.
  unfold binary_round. destruct (shl_align _ _ _) as [mz ez].
  apply binary_round_aux_sign.
Qed.

Lemma float_of_decimal_sign (neg : bool) (digits exp10 : Z) :
  has_sign neg (float_of_decimal neg digits exp10).
Proof.
  unfold float_of_decimal. destruct digits as [|d|d]; [done| |done].
  destruct (0 <=? exp10); [apply binary_round_sign|].
  destruct (SFdiv_core_binary _ _ _ _ _ _) as [[mz ez] lz].
  apply binary_round_aux_sign.
Qed.

Lemma float_mul_sign (x y : float) :
  has_sign false x -> has_sign false y -> has_sign false (float_mul x y).
Proof.
  unfold float_mul, SFmul.
  destruct x as [sx|sx| |sx mx ex], y as [sy|sy| |sy my ey]; simpl;
    try done; try (by intros -> ->).
  intros -> ->. apply binary_round_aux_sign.
Qed.

Lemma int_of_float_nonneg (x : float) (z : Z) :
  has_sign false x -> int_of_float x = Returns z -> 0 <= z.
Proof.
  destruct x as [s|s| |s m e]; simpl; try done.
  - by intros _ [= <-].
  - intros -> [= <-]. destruct (Z.leb_spec 0 e).
    + apply Z.mul_nonneg_nonneg; [done|]. apply Z.pow_nonneg. lia.
    + apply Z.div_pos; [done|]. apply Z.pow_pos_nonneg; lia.
Qed.

(** A finite float converts: [int()] then returns its integer part. *)
Lemma int_of_float_finite (x : float) :
  is_finite x = true -> int_of_float x = Returns (truncate x).
Proof. by destruct x. Qed.

End FloatFacts.

Section StringFacts.
Import Py.

Lemma remove_char_In (c d : N) (s : pystr) :
  In c (remove_char d s) -> In c s.
Proof. unfold remove_char. intros Hin. by apply filter_In in Hin as [Hin _]. Qed.

Lemma lstrip_In (sp : N -> bool) (c : N) (s : pystr) :
  In c (lstrip sp s) -> In c s.
Proof.
  induction s as [|x s IH]; simpl; [done|].
  destruct (sp x); [|done]. intros Hin. right. by apply IH.
Qed.

Lemma rstrip_In (sp : N -> bool) (c : N) (s : pystr) :
  In c (rstrip sp s) -> In c s.
Proof.
  unfold rstrip. intros Hin. apply in_rev in Hin.
  apply lstrip_In in Hin. by apply in_rev.
Qed.

Lemma strip_In (c : N) (s : pystr) : In c (strip s) -> In c s.
Proof. unfold strip. intros Hin. by apply rstrip_In, lstrip_In in Hin. Qed.

Lemma drop_underscores_In (c prev : N) (s t : pystr) :
  drop_underscores prev s = Some t -> In c t -> In c s.
Proof.
  revert prev t. induction s as [|x s IH]; intros prev t; simpl.
  - destruct (prev =? cp_underscore)%N; [done|]. by intros [= <-].
  - destruct (x =? cp_underscore)%N.
    + destruct (is_ascii_digit prev); [|done].
      intros Hd Hin. right. by eapply IH.
    + destruct ((prev =? cp_underscore)%N && negb (is_ascii_digit x));
        [done|].
      destruct (drop_underscores x s) as [t'|] eqn:E; [|done].
      simpl. intros [= <-] [->|Hin]; [by left|]. right. by eapply IH.
Qed.

End StringFacts.

Section HeatParser.
Import Py XiaohongshuApiCrawler.
Context `{UnicodeData}.

Lemma transform_minus (s : pystr) :
  In cp_minus (transform_decimal_and_space s) -> In cp_minus s.
Proof.
  induction s as [|c s IH]; simpl; [done|].
  destruct (c <? 127)%N.
  { intros [->|Hin]; [by left|]. right. by apply IH. }
  destruct (is_unicode_space c).
  { intros [Heq|Hin]; [done|]. right. by apply IH. }
  destruct (decimal_value c) as [d|].
  - destruct (N.ltb_spec d 10).
    + intros [Heq|Hin]; [unfold cp_minus in Heq; lia|]. right. by apply IH.
    + by intros [Heq|[]].
  - by intros [Heq|[]].
Qed.

Lemma take_sign_plain (s : pystr) :
  ~ In cp_minus s -> fst (take_sign s) = false.
Proof.
  destruct s as [|c s]; [done|]. simpl. intros Hn.
  destruct (N.eqb_spec c cp_minus) as [->|Hne]; [exfalso; apply Hn; by left|].
  by destruct (c =? cp_plus)%N.
Qed.

Lemma parse_decimal_sign (neg : bool) (s : pystr) (x : float) :
  parse_decimal neg s = Some x -> has_sign neg x.
Proof.
  unfold parse_decimal.
  destruct (span_digits s) as [ip s1].
  destruct (match s1 with
            | [] => ([], [])
            | c :: t => if (c =? cp_dot)%N then span_digits t else ([], s1)
            end) as [fp s2].
  destruct (ip ++ fp) as [|d ds]; [done|].
  destruct (take_exponent s2) as [e s3].
  destruct s3; [|done]. intros [= <-]. apply float_of_decimal_sign.
Qed.

Lemma parse_inf_or_nan_sign (neg : bool) (s : pystr) (x : float) :
  parse_inf_or_nan neg s = Some x -> has_sign neg x.
Proof.
  unfold parse_inf_or_nan.
  destruct (decide _); [by intros [= <-]|].
  destruct (decide _); [by intros [= <-]|done].
Qed.

(** [float()] raises nothing but [ValueError]. *)
Lemma float_of_str_raises (s : pystr) (e : exn) :
  float_of_str s = Raises e -> e = ValueError.
Proof.
  unfold float_of_str.
  destruct (drop_underscores _ _) as [s1|]; [|by intros [= <-]].
  destruct (take_sign _) as [neg body].
  destruct (parse_inf_or_nan neg body); [done|].
  destruct (parse_decimal neg body); [done|]. by intros [= <-].
Qed.

(** A text without a minus sign does not denote a negative float. *)
Lemma float_of_str_sign (s : pystr) (x : float) :
  ~ In cp_minus s -> float_of_str s = Returns x -> has_sign false x.
Proof.
  intros Hn. unfold float_of_str.
  destruct (drop_underscores _ _) as [s1|] eqn:E; [|done].
  assert (~ In cp_minus (rstrip is_c_space (lstrip is_c_space s1))) as Hs.
  { intros Hin. apply rstrip_In, lstrip_In in Hin.
    apply (drop_underscores_In _ _ _ _ E), transform_minus in Hin. done. }
  pose proof (take_sign_plain _ Hs) as Hsign.
  destruct (take_sign _) as [neg body]. simpl in Hsign. subst neg.
  destruct (parse_inf_or_nan false body) as [y|] eqn:Ei.
  { intros [= <-]. by apply parse_inf_or_nan_sign in Ei. }
  destruct (parse_decimal false body) as [y|] eqn:Ed; [|done].
  intros [= <-]. by apply parse_decimal_sign in Ed.
Qed.

Lemma normalized_minus (s : pystr) :
  In cp_minus (normalized s) -> In cp_minus s.
Proof.
  unfold normalized. intros Hin.
  apply remove_char_In, remove_char_In, strip_In in Hin.
  by apply str_lower_minus.
Qed.

Lemma scaled_raises (s : pystr) (e : exn) :
  scaled s = Raises e -> e = ValueError.
Proof.
  unfold scaled.
  destruct (has_wan _); [|destruct (has_qian _)];
    destruct (float_of_str _) as [x|e'] eqn:E; simpl;
    (done || (intros [= <-]; by apply float_of_str_raises in E)).
Qed.

Lemma scaled_sign (s : pystr) (x : float) :
  ~ In cp_minus s -> scaled s = Returns x -> has_sign false x.
Proof.
  intros Hn. unfold scaled.
  assert (~ In cp_minus (normalized s)) as Hc
    by (intros Hin; by apply normalized_minus in Hin).
  destruct (has_wan _); [|destruct (has_qian _)].
  - destruct (float_of_str _) as [y|] eqn:E; simpl; [|done].
    intros [= <-]. apply float_mul_sign; [|done].
    eapply float_of_str_sign; [|exact E].
    intros Hin. by apply remove_char_In, remove_char_In in Hin.
  - destruct (float_of_str _) as [y|] eqn:E; simpl; [|done].
    intros [= <-]. apply float_mul_sign; [|done].
    eapply float_of_str_sign; [|exact E].
    intros Hin. by apply remove_char_In, remove_char_In in Hin.
  - by apply float_of_str_sign.
Qed.

Lemma normalized_simple (s : pystr) :
  Forall simple_cp s ->
  normalized s
  = remove_char cp_comma (remove_char cp_space (strip (map ascii_lower s))).
Proof. intros Hs. unfold normalized. by rewrite str_lower_simple. Qed.

End HeatParser.

Section HeatParserContract.
Import Py XiaohongshuApiCrawler.
Context `{UnicodeData}.

(** Evaluation of the parser on a text made of ASCII and the two unit
    characters, on which [str.lower] is known. *)
Ltac heat_example :=
  unfold _parse_heat_value, heat_value_body, scaled;
  rewrite ?normalized_simple
    by (repeat constructor; (by left) || (by right; left) || (by right; right));
  vm_compute; reflexivity.

(** C2 (amended).  [_parse_heat_value] returns 0 for the empty string and
    for any text whose numeric part does not parse (or parses to NaN).
    When the numeric part, scaled by its unit, is a finite float, the
    integer part of that float is returned: the number times 10000 with
    a ten-thousand marker, times 1000 with a thousand marker, and the
    number itself without marker.  The result is non-negative whenever
    the text has no minus sign. *)
Theorem C2_parse_heat_value (heat_str : pystr) :
  (heat_str = [] -> _parse_heat_value heat_str = Returns 0) /\
  (forall e, scaled heat_str = Raises e ->
             _parse_heat_value heat_str = Returns 0) /\
  (scaled heat_str = Returns S754_nan ->
   _parse_heat_value heat_str = Returns 0) /\
  (forall x, heat_str <> [] ->
             scaled heat_str = Returns x ->
             is_finite x = true ->
             _parse_heat_value heat_str = Returns (truncate x)) /\
  (has_wan (normalized heat_str) = true ->
   scaled heat_str
   = (x <- float_of_str
             (remove_char cp_w (remove_char cp_wan (normalized heat_str))) ;;
      Returns (float_mul x (float_of_Z 10000)))) /\
  (has_wan (normalized heat_str) = false ->
   has_qian (normalized heat_str) = true ->
   scaled heat_str
   = (x <- float_of_str
             (remove_char cp_k (remove_char cp_qian (normalized heat_str))) ;;
      Returns (float_mul x (float_of_Z 1000)))) /\
  (has_wan (normalized heat_str) = false ->
   has_qian (normalized heat_str) = false ->
   scaled heat_str = float_of_str (normalized heat_str)) /\
  (forall z, ~ In cp_minus heat_str ->
             _parse_heat_value heat_str = Returns z -> 0 <= z) /\
  (_parse_heat_value (str "2w") = Returns 20000 /\
   _parse_heat_value (str "3k") = Returns 3000 /\
   _parse_heat_value (str "150") = Returns 150 /\
   _parse_heat_value (str "") = Returns 0 /\
   _parse_heat_value (str "n/a") = Returns 0 /\
   _parse_heat_value (str "1100.9w") = Returns 11009000 /\
   _parse_heat_value [50%N; cp_wan] = Returns 20000 /\
   _parse_heat_value [51%N; cp_qian] = Returns 3000 /\
   _parse_heat_value (str " 1,234 ") = Returns 1234).
Proof.
  split; [by intros ->|].
  split.
  { intros e He. unfold _parse_heat_value, heat_value_body.
    destruct (str_falsy heat_str); [done|]. rewrite He. simpl.
    by rewrite (scaled_raises _ _ He). }
  split.
  { intros Hn. unfold _parse_heat_value, heat_value_body.
    destruct (str_falsy heat_str); [done|]. by rewrite Hn. }
  split.
  { intros x Hne Hx Hf. unfold _parse_heat_value, heat_value_body.
    destruct heat_str; [done|]. cbn [str_falsy]. rewrite Hx. cbn [bind].
    by rewrite int_of_float_finite. }
  split; [by intros Hw; unfold scaled; rewrite Hw|].
  split; [by intros Hw Hq; unfold scaled; rewrite Hw, Hq|].
  split; [by intros Hw Hq; unfold scaled; rewrite Hw, Hq|].
  split.
  { intros z Hn. unfold _parse_heat_value, heat_value_body.
    destruct (str_falsy heat_str); [by intros [= <-]|].
    destruct (scaled heat_str) as [x|e] eqn:E; simpl.
    - pose proof (scaled_sign _ _ Hn E) as Hs.
      destruct (int_of_float x) as [z'|e] eqn:Ei.
      + intros [= <-]. by eapply int_of_float_nonneg.
      + destruct e; try done; by intros [= <-].
    - destruct e; try done; by intros [= <-]. }
  repeat split; heat_example.
Qed.

End HeatParserContract.

Lemma C2_parse_heat_value_witness :
  @XiaohongshuApiCrawler._parse_heat_value Reference.ascii_unicode
    (Py.str "2.5w") = Py.Returns 25000 /\
  @XiaohongshuApiCrawler._parse_heat_value Reference.ascii_unicode
    (Py.str "abc") = Py.Returns 0 /\
  @XiaohongshuApiCrawler._parse_heat_value Reference.ascii_unicode
    (Py.str "nan") = Py.Returns 0 /\
  0 <= 25000.
Proof.
  destruct (@C2_parse_heat_value Reference.ascii_unicode (Py.str "2.5w"))
    as (_ & _ & _ & Hfinite & _ & _ & _ & Hsign & _).
  destruct (@C2_parse_heat_value Reference.ascii_unicode (Py.str "abc"))
    as (_ & Hbad & _).
  destruct (@C2_parse_heat_value Reference.ascii_unicode (Py.str "nan"))
    as (_ & _ & Hnan & _).
  assert (@XiaohongshuApiCrawler._parse_heat_value Reference.ascii_unicode
            (Py.str "2.5w") = Py.Returns 25000) as Hrun.
  { rewrite (Hfinite (Py.float_mul (Py.float_of_decimal false 25 (-1))
                                   (Py.float_of_Z 10000)));
      [reflexivity|discriminate|reflexivity|reflexivity]. }
  split; [exact Hrun|].
  split; [apply (Hbad Py.ValueError); reflexivity|].
  split; [apply Hnan; reflexivity|].
  apply (Hsign 25000); [|exact Hrun].
  vm_compute. intros Hin.
  repeat (destruct Hin as [Hin|Hin]; [discriminate|]). exact Hin.
Defined.

(** C2, as stated, fails: a numeric string with a minus sign gives a
    negative integer (no branch rejects or clamps it), and a string that
    denotes an infinite float makes [int()] raise [OverflowError], which
    the handler for [ValueError] and [TypeError] does not catch. *)
Lemma C2_negative_heat_counterexample :
  @XiaohongshuApiCrawler._parse_heat_value Reference.ascii_unicode
    (Py.str "-5") = Py.Returns (-5) /\
  @XiaohongshuApiCrawler._parse_heat_value Reference.ascii_unicode
    (Py.str "-1.5w") = Py.Returns (-15000) /\
  @XiaohongshuApiCrawler._parse_heat_value Reference.ascii_unicode
    (Py.str "inf") = Py.Raises Py.OverflowError /\
  @XiaohongshuApiCrawler._parse_heat_value Reference.ascii_unicode
    (Py.str "1e999") = Py.Raises Py.OverflowError.
Proof. repeat split. Qed.


(** * Further properties of the code

    What follows covers functions beside the ones the specification
    cites: the request strategy and its parser, the sleeping times of
    the retry loop, the API parser, the browser session call by call,
    loading and saving, grouping, keywords and the analysis report. *)

(** * The retry loop, for every transport *)

Section RetryOutcome.
Import Py Models BaseCrawler.
Context {A : Type}.
Variable config : CrawlerConfig.
Variable net : transport A.
Variable g : rng.

(** The attempt at index [k] when [k] attempts have failed before it. *)
Lemma attempt_loop_answer (k : nat) (rest : list Z) (d : A) :
  net k = Body d ->
  attempt_loop config net g (Z.of_nat k :: rest) (after_failures config g k)
  = (Some d,
     {| requests := S k; draws := S (2 * k);
        trace := trace (after_failures config g k)
                 ++ attempt_events config g k |}).
Proof.
  intros Hk. cbn [attempt_loop]. unfold _add_random_delay.
  cbn [requests draws trace after_failures]. rewrite Hk.
  unfold attempt_events. by rewrite <- app_assoc.
Qed.

Lemma attempt_loop_give_up (k : nat) (rest : list Z) :
  net k = RequestException ->
  Z.of_nat k = max_retries config - 1 ->
  attempt_loop config net g (Z.of_nat k :: rest) (after_failures config g k)
  = (None,
     {| requests := S k; draws := S (2 * k);
        trace := trace (after_failures config g k)
                 ++ attempt_events config g k |}).
Proof.
  intros Hk Hlast. cbn [attempt_loop]. unfold _add_random_delay.
  cbn [requests draws trace after_failures]. rewrite Hk.
  destruct (Z.eqb_spec (Z.of_nat k) (max_retries config - 1)); [|done].
  unfold attempt_events. by rewrite <- app_assoc.
Qed.

(** From the attempt at index [k] on, the loop stops at the first reply
    that is a body, or at the last attempt. *)
Lemma attempt_loop_outcome (m k : nat) :
  Z.of_nat (k + S m) = max_retries config ->
  (forall i, (i < k)%nat -> net i = RequestException) ->
  exists j : nat,
    (k <= j <= k + m)%nat /\
    (forall i, (i < j)%nat -> net i = RequestException) /\
    (net j = RequestException -> j = (k + m)%nat) /\
    attempt_loop config net g (map Z.of_nat (seq k (S m)))
      (after_failures config g k)
    = (match net j with Body d => Some d | RequestException => None end,
       {| requests := S j; draws := S (2 * j);
          trace := trace (after_failures config g j)
                   ++ attempt_events config g j |}).
Proof.
  revert k. induction m as [|m IH]; intros k Hk Hnet.
  - exists k. split; [lia|]. split; [exact Hnet|]. split; [intros; lia|].
    cbn [seq map]. destruct (net k) as [d|] eqn:E.
    + by apply attempt_loop_answer.
    + apply attempt_loop_give_up; [done|lia].
  - destruct (net k) as [d|] eqn:E.
    + exists k. split; [lia|]. split; [exact Hnet|]. rewrite E.
      split; [done|]. cbn [seq map]. by apply attempt_loop_answer.
    + destruct (IH (S k)) as (j & Hj & Hfail & Hlast & Hrun).
      * lia.
      * intros i Hi. destruct (decide (i = k)) as [->|]; [done|].
        apply Hnet. lia.
      * exists j. split; [lia|]. split; [exact Hfail|].
        split; [intros Hx; rewrite (Hlast Hx); lia|].
        rewrite <- Hrun. cbn [seq map].
        apply attempt_loop_failure; [done|lia].
Qed.

Lemma attempt_events_counts (j : nat) :
  count_requests (attempt_events config g j) = 1%nat /\
  count_backoffs (attempt_events config g j) = 0%nat.
Proof. done. Qed.

(** X1.  Whatever the transport does, [_make_request] returns the first
    reply that is a body among the first [max_retries] ones, and [None]
    when there is none.  Before that reply every attempt failed and was
    followed by its back-off; after the deciding attempt, successful or
    not, nothing more is slept or sent, so the back-offs are one fewer
    than the requests.  With [max_retries <= 0] no request is made at
    all. *)
Theorem make_request_first_body :
  sleepable config ->
  unit_interval g ->
  let run := _make_request config net g start in
  (max_retries config <= 0 -> run = (None, start)) /\
  (0 < max_retries config ->
   exists j : nat,
     Z.of_nat j < max_retries config /\
     (forall i, (i < j)%nat -> net i = RequestException) /\
     (net j = RequestException -> Z.of_nat j = max_retries config - 1) /\
     fst run = match net j with Body d => Some d | RequestException => None end /\
     trace (snd run)
     = concat (map (failed_attempt_events config g) (seq 0 j))
       ++ attempt_events config g j /\
     count_requests (trace (snd run)) = S j /\
     count_backoffs (trace (snd run)) = j).
Proof.
  intros _ _ run. subst run. unfold _make_request, range. split.
  - intros Hn. by replace (Z.to_nat (max_retries config)) with 0%nat by lia.
  - intros Hn.
    destruct (Z.to_nat (max_retries config)) as [|m] eqn:Em; [lia|].
    destruct (attempt_loop_outcome m 0) as (j & Hj & Hfail & Hlast & Hrun);
      [lia|intros; lia|].
    change (after_failures config g 0) with start in Hrun. rewrite Hrun.
    exists j. split; [lia|]. split; [exact Hfail|].
    split; [intros Hx; rewrite (Hlast Hx); lia|]. split; [done|].
    cbn [snd trace]. split; [done|].
    rewrite count_requests_app, count_backoffs_app.
    destruct (after_failures_counts config g j) as [-> ->].
    destruct (attempt_events_counts j) as [-> ->]. lia.
Qed.

End RetryOutcome.

Lemma make_request_first_body_witness :
  let run := BaseCrawler._make_request (Samples.fallback_config false)
               Samples.flaky Samples.half BaseCrawler.start in
  fst run = Some 7 /\
  BaseCrawler.count_requests (BaseCrawler.trace (snd run)) = 3%nat /\
  BaseCrawler.count_backoffs (BaseCrawler.trace (snd run)) = 2%nat.
Proof.
  intros run.
  destruct (make_request_first_body (Samples.fallback_config false)
              Samples.flaky Samples.half) as [_ Hpos].
  - repeat split; vm_compute; discriminate.
  - intros k. split; vm_compute; discriminate.
  - destruct Hpos as (j & Hj & Hfail & Hlast & Hres & _ & Hreq & Hback);
      [vm_compute; reflexivity|].
    fold run in Hres, Hreq, Hback.
    assert (j = 2%nat) as ->.
    { destruct j as [|[|[|j]]].
      - specialize (Hlast eq_refl). vm_compute in Hlast. discriminate.
      - specialize (Hlast eq_refl). vm_compute in Hlast. discriminate.
      - reflexivity.
      - exfalso. vm_compute in Hj. destruct j; discriminate. }
    split; [exact Hres|]. split; [exact Hreq|exact Hback].
Defined.

(** * The time spent sleeping *)

Section SleepFacts.
Import Py Models BaseCrawler.
Variable config : CrawlerConfig.
Variable g : rng.
Hypothesis Hg : unit_interval g.

Lemma uniform_bounds (k : nat) (a b : Q) :
  (a <= b)%Q -> (a <= uniform g k a b)%Q /\ (uniform g k a b <= b)%Q.
Proof.
  intros Hab. destruct (Hg k) as [H0 H1]. unfold uniform.
  split; nra.
Qed.

Lemma slept_app (t1 t2 : list event) :
  (slept (t1 ++ t2) == slept t1 + slept t2)%Q.
Proof.
  induction t1 as [|e t1 IH]; simpl; [lra|].
  destruct e; lra.
Qed.

Lemma random_delay_bounds (i : nat) :
  (inject_Z (request_delay config)
   <= uniform g i (inject_Z (request_delay config))
                  (inject_Z (request_delay config + 2)))%Q /\
  (uniform g i (inject_Z (request_delay config))
               (inject_Z (request_delay config + 2))
   <= inject_Z (request_delay config) + 2)%Q.
Proof.
  assert (inject_Z (request_delay config + 2)
          == inject_Z (request_delay config) + 2)%Q as Hlim
    by (rewrite inject_Z_plus; reflexivity).
  destruct (uniform_bounds i (inject_Z (request_delay config))
              (inject_Z (request_delay config + 2))) as [Hlo Hhi].
  - rewrite Hlim. lra.
  - split; [exact Hlo|]. rewrite <- Hlim. exact Hhi.
Qed.

(** One attempt sleeps its random delay; a failed attempt that is not
    the last one sleeps its back-off as well. *)
Lemma slept_attempt (i : nat) :
  (inject_Z (request_delay config) <= slept (attempt_events config g i))%Q /\
  (slept (attempt_events config g i) <= inject_Z (request_delay config) + 2)%Q.
Proof.
  destruct (random_delay_bounds (2 * i)) as [Hlo Hhi].
  unfold attempt_events. cbn [slept fold_right]. split; lra.
Qed.

Lemma slept_failed_attempt (i : nat) :
  (inject_Z (request_delay config) + inject_Z (2 ^ Z.of_nat i) + 1
   <= slept (failed_attempt_events config g i))%Q /\
  (slept (failed_attempt_events config g i)
   <= inject_Z (request_delay config) + inject_Z (2 ^ Z.of_nat i) + 5)%Q.
Proof.
  destruct (random_delay_bounds (2 * i)) as [Hlo Hhi].
  destruct (uniform_bounds (2 * i + 1) 1 3) as [Hlo' Hhi']; [lra|].
  unfold failed_attempt_events, attempt_events.
  cbn [slept fold_right app]. split; lra.
Qed.

Lemma slept_after_failures (j : nat) :
  (inject_Z (Z.of_nat j * request_delay config + 2 ^ Z.of_nat j - 1 + Z.of_nat j)
   <= slept (trace (after_failures config g j)))%Q /\
  (slept (trace (after_failures config g j))
   <= inject_Z (Z.of_nat j * request_delay config + 2 ^ Z.of_nat j - 1
                + 5 * Z.of_nat j))%Q.
Proof.
  induction j as [|j [IHlo IHhi]].
  - change (Z.of_nat 0) with 0. rewrite Z.mul_0_l, Z.mul_0_r.
    change (inject_Z (0 + 2 ^ 0 - 1 + 0)) with 0%Q.
    change (slept (trace (after_failures config g 0))) with 0%Q. split; lra.
  - rewrite after_failures_S, slept_app.
    destruct (slept_failed_attempt j) as [Hlo Hhi].
    replace (Z.of_nat (S j) * request_delay config + 2 ^ Z.of_nat (S j) - 1
             + Z.of_nat (S j))
      with ((Z.of_nat j * request_delay config + 2 ^ Z.of_nat j - 1 + Z.of_nat j)
            + (request_delay config + 2 ^ Z.of_nat j + 1))
      by (rewrite Nat2Z.inj_succ, Z.pow_succ_r; lia).
    replace (Z.of_nat (S j) * request_delay config + 2 ^ Z.of_nat (S j) - 1
             + 5 * Z.of_nat (S j))
      with ((Z.of_nat j * request_delay config + 2 ^ Z.of_nat j - 1
             + 5 * Z.of_nat j)
            + (request_delay config + 2 ^ Z.of_nat j + 5))
      by (rewrite Nat2Z.inj_succ, Z.pow_succ_r; lia).
    rewrite !inject_Z_plus in *.
    change (inject_Z 1) with 1%Q. change (inject_Z 5) with 5%Q. split; lra.
Qed.

(** Every duration of a sleepable configuration is one that
    [time.sleep] accepts. *)
Lemma accepted_attempt (i : nat) :
  sleepable config -> Forall accepted (attempt_events config g i).
Proof.
  intros [[Hlo Hhi] _]. destruct (random_delay_bounds (2 * i)) as [Hd Hd'].
  rewrite Zle_Qle in Hlo, Hhi.
  change (inject_Z 0) with 0%Q in Hlo.
  assert (inject_Z (2 ^ 32) + 2 <= inject_Z (2 ^ 33))%Q as Hp by done.
  unfold attempt_events.
  constructor; [unfold accepted; split; lra|]. constructor; [exact I|constructor].
Qed.

Lemma accepted_failed_attempt (i : nat) :
  sleepable config ->
  Z.of_nat i < max_retries config - 1 ->
  Forall accepted (failed_attempt_events config g i).
Proof.
  intros Hs Hi. unfold failed_attempt_events.
  apply Forall_app. split; [by apply accepted_attempt|].
  destruct Hs as [_ Hmr].
  destruct (uniform_bounds (2 * i + 1) 1 3) as [Hlo Hhi]; [lra|].
  assert (0 < 2 ^ Z.of_nat i <= 2 ^ 30) as [Hp Hq].
  { split; [apply Z.pow_pos_nonneg; lia|].
    apply Z.pow_le_mono_r; lia. }
  apply Z.lt_le_incl in Hp. rewrite Zle_Qle in Hp, Hq.
  change (inject_Z 0) with 0%Q in Hp.
  assert (inject_Z (2 ^ 30) + 3 <= inject_Z (2 ^ 33))%Q as Hr by done.
  constructor; [unfold accepted; split; lra|constructor].
Qed.

Lemma accepted_after_failures (j : nat) :
  sleepable config ->
  Z.of_nat j <= max_retries config - 1 ->
  Forall accepted (trace (after_failures config g j)).
Proof.
  intros Hs Hj. induction j as [|j IH]; [constructor|].
  rewrite after_failures_S. apply Forall_app. split.
  - apply IH. lia.
  - apply accepted_failed_attempt; [done|lia].
Qed.

End SleepFacts.

Section SleepBounds.
Import Py Models BaseCrawler.
Context {A : Type}.
Variable config : CrawlerConfig.
Variable net : transport A.
Variable g : rng.

(** A run is a number of failed attempts followed by one last attempt. *)
Lemma make_request_trace :
  0 < max_retries config ->
  exists j : nat,
    Z.of_nat j < max_retries config /\
    trace (snd (_make_request config net g start))
    = trace (after_failures config g j) ++ attempt_events config g j.
Proof.
  intros Hn. unfold _make_request, range.
  destruct (Z.to_nat (max_retries config)) as [|m] eqn:Em; [lia|].
  destruct (attempt_loop_outcome config net g m 0)
    as (j & Hj & Hfail & Hlast & Hrun); [lia|intros; lia|].
  change (after_failures config g 0) with start in Hrun. rewrite Hrun.
  exists j. split; [lia|done].
Qed.

Lemma slept_run (j : nat) :
  unit_interval g ->
  (inject_Z ((Z.of_nat j + 1) * request_delay config + 2 ^ Z.of_nat j
             + (Z.of_nat j + 1) - 2)
   <= slept (trace (after_failures config g j) ++ attempt_events config g j))%Q /\
  (slept (trace (after_failures config g j) ++ attempt_events config g j)
   <= inject_Z ((Z.of_nat j + 1) * request_delay config + 2 ^ Z.of_nat j
                + 5 * (Z.of_nat j + 1) - 4))%Q.
Proof.
  intros Hg.
  destruct (slept_after_failures config g Hg j) as [Hlo Hhi].
  destruct (slept_attempt config g Hg j) as [Hlo' Hhi'].
  rewrite slept_app. split.
  - replace ((Z.of_nat j + 1) * request_delay config + 2 ^ Z.of_nat j
             + (Z.of_nat j + 1) - 2)
      with ((Z.of_nat j * request_delay config + 2 ^ Z.of_nat j - 1
             + Z.of_nat j) + request_delay config) by lia.
    rewrite inject_Z_plus. lra.
  - replace ((Z.of_nat j + 1) * request_delay config + 2 ^ Z.of_nat j
             + 5 * (Z.of_nat j + 1) - 4)
      with ((Z.of_nat j * request_delay config + 2 ^ Z.of_nat j - 1
             + 5 * Z.of_nat j) + (request_delay config + 2)) by lia.
    rewrite (inject_Z_plus _ (request_delay config + 2)).
    rewrite (inject_Z_plus (request_delay config) 2).
    change (inject_Z 2) with 2%Q. lra.
Qed.

(** X2.  With a generator in the unit interval and a sleepable
    configuration, every duration handed to [time.sleep] is one it
    accepts.  When [n] requests were made, the time slept lies between
    [n d + 2^(n-1) + n - 2] and [n d + 2^(n-1) + 5 n - 4] seconds, [d]
    being [request_delay]: [n] random delays of [d] to [d + 2] seconds
    and [n - 1] back-offs of [2^i + 1] to [2^i + 3] seconds.  The upper
    bound at [n = max_retries] holds for every run. *)
Theorem make_request_sleep_bounds :
  sleepable config ->
  unit_interval g ->
  0 < max_retries config ->
  let run := _make_request config net g start in
  let n := Z.of_nat (count_requests (trace (snd run))) in
  Forall accepted (trace (snd run)) /\
  (inject_Z (n * request_delay config + 2 ^ (n - 1) + n - 2)
   <= slept (trace (snd run)))%Q /\
  (slept (trace (snd run))
   <= inject_Z (n * request_delay config + 2 ^ (n - 1) + 5 * n - 4))%Q /\
  (slept (trace (snd run))
   <= inject_Z (max_retries config * request_delay config
                + 2 ^ (max_retries config - 1)
                + 5 * max_retries config - 4))%Q.
Proof.
  intros Hs Hg Hn run n. subst run n.
  destruct (make_request_trace Hn) as (j & Hj & ->).
  rewrite count_requests_app.
  destruct (after_failures_counts config g j) as [-> _].
  destruct (attempt_events_counts config g j) as [-> _].
  replace (Z.of_nat (j + 1)) with (Z.of_nat j + 1) by lia.
  replace (Z.of_nat j + 1 - 1) with (Z.of_nat j) by lia.
  destruct (slept_run j Hg) as [Hlower Hupper].
  split; [|split; [exact Hlower|split; [exact Hupper|]]].
  - apply Forall_app. split.
    + apply accepted_after_failures; [done..|lia].
    + by apply accepted_attempt.
  - eapply Qle_trans; [exact Hupper|]. rewrite <- Zle_Qle.
    destruct Hs as [[Hd _] _].
    assert (2 ^ Z.of_nat j <= 2 ^ (max_retries config - 1))
      by (apply Z.pow_le_mono_r; lia).
    nia.
Qed.

End SleepBounds.

Lemma make_request_sleep_bounds_witness :
  let run := BaseCrawler._make_request (Samples.fallback_config false)
               Samples.down Samples.half BaseCrawler.start in
  (14 <= BaseCrawler.slept (BaseCrawler.trace (snd run)))%Q /\
  (BaseCrawler.slept (BaseCrawler.trace (snd run)) <= 24)%Q.
Proof.
  intros run.
  destruct (make_request_sleep_bounds (Samples.fallback_config false)
              Samples.down Samples.half) as (_ & Hlo & Hhi & _).
  - repeat split; vm_compute; discriminate.
  - intros k. split; vm_compute; discriminate.
  - vm_compute. reflexivity.
  - split; [exact Hlo|exact Hhi].
Defined.

(** * The parsers of the two request strategies *)

Section ParserFacts.
Import Py Models.
Context `{DateTimeLib}.

(** A loop whose turns append at most one item each. *)
Lemma fold_contribute {B} (f : B -> option HotSearchItem)
    (step : HotSearchResult -> B -> HotSearchResult) :
  (forall r b, step r b = match f b with
                          | Some it => add_item r it
                          | None => r
                          end) ->
  forall (l : list B) (r : HotSearchResult),
    fold_left step l r = fold_left add_item (omap f l) r.
Proof.
  intros Hstep l. induction l as [|b l IH]; intros r; [done|].
  cbn [fold_left]. rewrite Hstep. simpl.
  destruct (f b) as [it|]; simpl; apply IH.
Qed.

Lemma enumerate_from_length {A} (l : list A) (k : Z) :
  length (enumerate_from k l) = length l.
Proof. revert k. induction l as [|x l IH]; intros k; simpl; [done|]. by rewrite IH. Qed.

Lemma enumerate_from_lookup {A} (l : list A) (k : Z) (i : nat) :
  enumerate_from k l !! i
  = match l !! i with
    | Some x => Some (k + Z.of_nat i, x)
    | None => None
    end.
Proof.
  revert k i. induction l as [|x l IH]; intros k [|i]; [done..| |].
  - cbn [enumerate_from lookup list_lookup]. by rewrite Z.add_0_r.
  - cbn [enumerate_from lookup list_lookup]. rewrite IH.
    destruct (l !! i); [|done]. do 2 f_equal. lia.
Qed.

Lemma omap_length_le {A B} (f : A -> option B) (l : list A) :
  (length (omap f l) <= length l)%nat.
Proof.
  induction l as [|x l IH]; [done|]. cbn [omap list_omap length].
  fold (omap f l). destruct (f x); cbn [length]; lia.
Qed.

Lemma slice_to_length {A} (l : list A) (n : Z) :
  (length (slice_to l n) <= length l)%nat /\
  (0 <= n -> Z.of_nat (length (slice_to l n)) <= n).
Proof.
  unfold slice_to. destruct (Z.ltb_spec n 0); rewrite length_firstn; lia.
Qed.

(** Items whose rank is their position: the ranks increase strictly. *)
Lemma omap_enumerate_ranks {A} (f : Z * A -> option HotSearchItem)
    (l : list A) (k : Z) :
  (forall idx a it, f (idx, a) = Some it -> rank it = idx + 1) ->
  Forall (fun it => k + 1 <= rank it <= k + Z.of_nat (length l))
         (omap f (enumerate_from k l)) /\
  StronglySorted Z.lt (map rank (omap f (enumerate_from k l))).
Proof.
  intros Hrank. revert k. induction l as [|a l IH]; intros k.
  - split; constructor.
  - destruct (IH (k + 1)) as [Hb Hs].
    cbn [enumerate_from omap list_omap length].
    fold (omap f (enumerate_from (k + 1) l)).
    assert (Forall (fun it => k + 1 < rank it
                              /\ rank it <= k + Z.of_nat (S (length l)))
                   (omap f (enumerate_from (k + 1) l))) as Hb'.
    { eapply Forall_impl; [exact Hb|]. simpl. intros it. lia. }
    destruct (f (k, a)) as [it|] eqn:E.
    + apply Hrank in E. split.
      * constructor; [lia|]. eapply Forall_impl; [exact Hb'|].
        simpl. intros it'. lia.
      * cbn [map]. constructor; [exact Hs|]. rewrite E.
        apply Forall_map. eapply Forall_impl; [exact Hb'|].
        simpl. intros it'. lia.
    + split; [|exact Hs]. eapply Forall_impl; [exact Hb'|].
      simpl. intros it'. lia.
Qed.

End ParserFacts.

Section PageParser.
Import Py Models XiaohongshuCrawler.
Context `{DateTimeLib}.
Variable now : datetime.

Lemma page_parse_entry (r : HotSearchResult) (ie : Z * page_entry) :
  parse_entry now r ie
  = match entry_item now ie with
    | Some it => add_item r it
    | None => r
    end.
Proof.
  destruct ie as [idx e]. unfold parse_entry, entry_item.
  by destruct (e_word e) as [[|c w]|].
Qed.

Lemma page_entry_item (idx : Z) (e : page_entry) (it : HotSearchItem) :
  entry_item now (idx, e) = Some it ->
  word it <> [] /\ e_word e = Some (word it) /\
  heat it = default 0 (e_heat e) /\ rank it = idx + 1 /\
  url it = default [] (e_url e) /\ category it = None /\ tags it = [].
Proof.
  unfold entry_item. destruct (e_word e) as [[|c w]|]; [done| |done].
  by intros [= <-].
Qed.

(** The items of a parsed body. *)
Lemma page_parse_items (self : t) (data : page_body)
    (l : list page_entry) :
  b_data data = Some l ->
  exists r,
    _parse_hot_search_data now self data = Some r /\
    items r = omap (entry_item now) (enumerate_from 0 (slice_to l (limit self))) /\
    total r = Z.of_nat (length (items r)).
Proof.
  intros Hl. unfold _parse_hot_search_data. rewrite Hl.
  destruct l as [|e l].
  - eexists. split; [reflexivity|]. split; [|done].
    unfold slice_to. destruct (limit self <? 0); by rewrite firstn_nil.
  - eexists. split; [reflexivity|].
    rewrite (fold_contribute _ _ page_parse_entry).
    rewrite fold_add_item_items, fold_add_item_total by done.
    by rewrite fold_add_item_items.
Qed.

Lemma page_listed_count (l : list page_entry) (k : Z) :
  length (omap (entry_item now) (enumerate_from k l))
  = length (List.filter
              (fun e => match e_word e with
                        | Some (_ :: _) => true
                        | _ => false
                        end) l).
Proof.
  revert k. induction l as [|e l IH]; intros k; [done|].
  cbn [enumerate_from omap list_omap List.filter].
  fold (omap (entry_item now) (enumerate_from (k + 1) l)).
  unfold entry_item at 1.
  destruct (e_word e) as [[|c w]|]; [apply IH| |apply IH].
  cbn [length]. by rewrite IH.
Qed.

(** X3.  [_parse_hot_search_data] gives [None] exactly when the body has
    no [data] key.  Otherwise the items of its result are exactly the
    entries among the first [limit] that carry a non-empty word, in the
    order of the body, one item per such entry: with the rank of each
    being its position in the body - so ranks increase strictly and
    leave gaps where entries were skipped - a heat that defaults to 0, a
    url that defaults to the empty string, no category and no tags; and
    [total] is the number of items listed. *)
Theorem parse_hot_search_data_positions (self : t) (data : page_body) :
  (b_data data = None -> _parse_hot_search_data now self data = None) /\
  (forall l : list page_entry,
     b_data data = Some l ->
     exists r : HotSearchResult,
       _parse_hot_search_data now self data = Some r /\
       items r
       = omap (fun ie : Z * page_entry =>
                 let '(idx, e) := ie in
                 match e_word e with
                 | Some (c :: w) =>
                     Some {| word := c :: w; heat := default 0 (e_heat e);
                             rank := idx + 1; url := default [] (e_url e);
                             category := None; tags := [];
                             created_at := now |}
                 | _ => None
                 end)
              (enumerate_from 0 (slice_to l (limit self))) /\
       total r = Z.of_nat (length (items r)) /\
       length (items r)
       = length (List.filter
                   (fun e => match e_word e with
                             | Some (_ :: _) => true
                             | _ => false
                             end)
                   (slice_to l (limit self))) /\
       (length (items r) <= length l)%nat /\
       (0 <= limit self -> total r <= limit self) /\
       Forall (fun it => word it <> [] /\
                         1 <= rank it <= Z.of_nat (length l) /\
                         category it = None /\ tags it = []) (items r) /\
       StronglySorted Z.lt (map rank (items r)) /\
       (forall (i : nat) (e : page_entry) (w : pystr),
          slice_to l (limit self) !! i = Some e ->
          e_word e = Some w ->
          w <> [] ->
          In {| word := w; heat := default 0 (e_heat e);
                rank := Z.of_nat i + 1; url := default [] (e_url e);
                category := None; tags := []; created_at := now |}
             (items r)) /\
       (forall it : HotSearchItem,
          In it (items r) ->
          exists (i : nat) (e : page_entry),
            slice_to l (limit self) !! i = Some e /\
            l !! i = Some e /\
            e_word e = Some (word it) /\
            it = {| word := word it; heat := default 0 (e_heat e);
                    rank := Z.of_nat i + 1; url := default [] (e_url e);
                    category := None; tags := []; created_at := now |})).
Proof.
  split.
  { intros Hd. unfold _parse_hot_search_data. by rewrite Hd. }
  intros l Hl. destruct (page_parse_items self data l Hl) as (r & Hr & Hi & Ht).
  exists r. split; [exact Hr|]. split; [exact Hi|]. split; [exact Ht|].
  destruct (slice_to_length l (limit self)) as [Hlen Hlim].
  pose proof (omap_length_le (entry_item now)
                (enumerate_from 0 (slice_to l (limit self)))) as Hle.
  rewrite enumerate_from_length in Hle.
  destruct (omap_enumerate_ranks (entry_item now) (slice_to l (limit self)) 0)
    as [Hb Hs].
  { intros idx a it E. by apply page_entry_item in E as (_ & _ & _ & ? & _). }
  rewrite Hi in Ht |- *.
  split; [apply page_listed_count|].
  split; [lia|]. split; [intros Hn; specialize (Hlim Hn); lia|].
  split; [|split; [exact Hs|split]].
  - rewrite List.Forall_forall in Hb |- *. intros it Hin.
    specialize (Hb it Hin).
    apply list_elem_of_In, list_elem_of_omap in Hin as ([idx e] & _ & E).
    apply page_entry_item in E as (Hw & _ & _ & _ & _ & Hc & Hg).
    repeat split; [done|lia|lia|done|done].
  - intros i e w Hi' Hw Hne.
    apply list_elem_of_In, list_elem_of_omap. exists (Z.of_nat i, e). split.
    + apply list_elem_of_lookup. exists i.
      rewrite enumerate_from_lookup, Hi'. simpl. do 2 f_equal.
    + unfold entry_item. rewrite Hw. by destruct w.
  - intros it Hin.
    apply list_elem_of_In, list_elem_of_omap in Hin as ([idx e] & Hin & E).
    apply list_elem_of_lookup in Hin as [i Hin].
    rewrite enumerate_from_lookup in Hin.
    destruct (slice_to l (limit self) !! i) as [e'|] eqn:Ei; [|done].
    injection Hin as <- ->.
    exists i, e. split; [done|]. split.
    { revert Ei. unfold slice_to.
      destruct (limit self <? 0); intros Ei;
        apply lookup_take_Some in Ei as [Ei _]; exact Ei. }
    unfold entry_item in E. destruct (e_word e) as [[|c w]|]; [done| |done].
    injection E as <-. cbn [word]. split; reflexivity.
Qed.

End PageParser.

Lemma parse_hot_search_data_positions_witness :
  exists r : Models.HotSearchResult,
    XiaohongshuCrawler._parse_hot_search_data Samples.clock
      (XiaohongshuCrawler.init (Samples.fallback_config false)) Samples.page
    = Some r /\
    map Models.word (Models.items r) = [Py.str "a"; Py.str "c"] /\
    map Models.rank (Models.items r) = [1; 3] /\
    Models.total r = 2.
Proof.
  destruct (parse_hot_search_data_positions Samples.clock
              (XiaohongshuCrawler.init (Samples.fallback_config false))
              Samples.page) as [_ Hsome].
  destruct (Hsome _ eq_refl) as (r & Hr & Hitems & Htotal & _).
  exists r. split; [exact Hr|].
  rewrite Htotal, Hitems. repeat split.
Defined.

Section RetryAnswers.
Import Py Models BaseCrawler.
Context {A : Type}.
Variable config : CrawlerConfig.
Variable net : transport A.
Variable g : rng.

(** The first body within the allowed attempts is what is returned. *)
Lemma make_request_at (j : nat) (d : A) :
  Z.of_nat j < max_retries config ->
  (forall i, (i < j)%nat -> net i = RequestException) ->
  net j = Body d ->
  _make_request config net g start
  = (Some d,
     {| requests := S j; draws := S (2 * j);
        trace := trace (after_failures config g j)
                 ++ attempt_events config g j |}).
Proof.
  intros Hj Hfail Hd. unfold _make_request, range.
  replace (Z.to_nat (max_retries config))
    with (j + S (Z.to_nat (max_retries config) - S j))%nat by lia.
  rewrite attempt_loop_failures by (done || lia).
  cbn [seq map]. by apply attempt_loop_answer.
Qed.

(** Without a body within the allowed attempts nothing is returned. *)
Lemma make_request_down :
  (forall k : nat, Z.of_nat k < max_retries config -> net k = RequestException) ->
  fst (_make_request config net g start) = None /\
  count_requests (trace (snd (_make_request config net g start)))
  = Z.to_nat (max_retries config).
Proof.
  intros Hnet. unfold _make_request, range.
  destruct (Z.to_nat (max_retries config)) as [|m] eqn:Em; [done|].
  destruct (attempt_loop_outcome config net g m 0)
    as (j & Hj & Hfail & Hlast & Hrun); [lia|intros; lia|].
  change (after_failures config g 0) with start in Hrun. rewrite Hrun.
  assert (net j = RequestException) as E by (apply Hnet; lia).
  rewrite E. split; [done|]. cbn [snd trace].
  rewrite count_requests_app.
  destruct (after_failures_counts config g j) as [-> _].
  rewrite (Hlast E). cbn. lia.
Qed.

End RetryAnswers.

Section PrimaryCrawl.
Import Py Models BaseCrawler XiaohongshuCrawler.
Context `{DateTimeLib}.
Variable net : transport page_body.
Variable g : rng.
Variable now : datetime.

(** X4.  The request strategy parses the first body that arrives within
    [max_retries] attempts and nothing else: replies after it are never
    requested, and without such a body the answer is [None].  A result,
    when there is one, has a [total] equal to its item count, which does
    not exceed a non-negative [limit]. *)
Theorem primary_crawl_first_body (self : t) :
  sleepable (config self) ->
  unit_interval g ->
  let run := crawl_hot_search net g now self start in
  (count_requests (trace (snd run))
   <= Z.to_nat (max_retries (config self)))%nat /\
  ((forall k : nat, Z.of_nat k < max_retries (config self) ->
                    net k = RequestException) ->
   fst run = None /\
   count_requests (trace (snd run)) = Z.to_nat (max_retries (config self))) /\
  (forall (j : nat) (d : page_body),
     Z.of_nat j < max_retries (config self) ->
     (forall i, (i < j)%nat -> net i = RequestException) ->
     net j = Body d ->
     fst run = _parse_hot_search_data now self d /\
     count_requests (trace (snd run)) = S j) /\
  (forall r : HotSearchResult,
     fst run = Some r ->
     total r = Z.of_nat (length (items r)) /\
     (0 <= limit self -> total r <= limit self)).
Proof.
  intros _ _ run. subst run. unfold crawl_hot_search.
  split; [|split; [|split]].
  - pose proof (attempt_loop_bound (config self) net g
                  (range (max_retries (config self))) start) as Hb.
    rewrite range_length in Hb. unfold _make_request.
    destruct (attempt_loop _ _ _ _ _) as [[d|] r]; exact Hb.
  - intros Hnet. destruct (make_request_down (config self) net g Hnet) as [Hn Hc].
    destruct (_make_request _ _ _ _) as [[d|] r]; [done|]. done.
  - intros j d Hj Hfail Hd.
    rewrite (make_request_at (config self) net g j d Hj Hfail Hd).
    cbn [fst snd trace]. split; [done|].
    rewrite count_requests_app.
    destruct (after_failures_counts (config self) g j) as [-> _]. cbn. lia.
  - intros r. destruct (_make_request _ _ _ _) as [[d|] r0]; [|done].
    cbn [fst]. intros Hr.
    destruct (b_data d) as [l|] eqn:El.
    + destruct (page_parse_items now self d l El) as (r' & Hr' & Hi & Ht).
      rewrite Hr' in Hr. injection Hr as ->. split; [exact Ht|].
      intros Hn. rewrite Ht, Hi.
      pose proof (omap_length_le (entry_item now)
                    (enumerate_from 0 (slice_to l (limit self)))) as Hle.
      rewrite enumerate_from_length in Hle.
      destruct (slice_to_length l (limit self)) as [_ Hlim]. lia.
    + unfold _parse_hot_search_data in Hr. by rewrite El in Hr.
Qed.

End PrimaryCrawl.

Lemma primary_crawl_first_body_witness :
  let self := XiaohongshuCrawler.init (Samples.fallback_config false) in
  let run := XiaohongshuCrawler.crawl_hot_search Samples.slow Samples.half
               Samples.clock self BaseCrawler.start in
  fst run
  = XiaohongshuCrawler._parse_hot_search_data Samples.clock self Samples.page /\
  BaseCrawler.count_requests (BaseCrawler.trace (snd run)) = 2%nat.
Proof.
  intros self run.
  destruct (primary_crawl_first_body Samples.slow Samples.half Samples.clock
              self) as (_ & _ & Hat & _).
  - repeat split; vm_compute; discriminate.
  - intros k. split; vm_compute; discriminate.
  - apply (Hat 1%nat Samples.page).
    + vm_compute. reflexivity.
    + intros i Hi. assert (i = 0%nat) as -> by lia. reflexivity.
    + reflexivity.
Defined.

Section HeatOverflow.
Import Py XiaohongshuApiCrawler.
Context `{UnicodeData}.

(** X5.  [_parse_heat_value] raises nothing but [OverflowError], and it
    raises it exactly when the text is not empty and its scaled number
    is an infinity - a literal infinity, or a number beyond the range of
    a float; in every other case an integer is returned. *)
Theorem parse_heat_value_overflow (heat_str : pystr) :
  (forall e, _parse_heat_value heat_str = Raises e -> e = OverflowError) /\
  (_parse_heat_value heat_str = Raises OverflowError <->
   heat_str <> [] /\ exists s, scaled heat_str = Returns (S754_infinity s)) /\
  ((forall s, scaled heat_str <> Returns (S754_infinity s)) ->
   exists z, _parse_heat_value heat_str = Returns z).
Proof.
  unfold _parse_heat_value, heat_value_body.
  destruct heat_str as [|c t]; cbn [str_falsy].
  { split; [done|]. split; [|by eexists]. split; [done|]. by intros [? _]. }
  destruct (scaled (c :: t)) as [x|e'] eqn:E; cbn [bind].
  - destruct x as [s|s| |s m e]; cbn [int_of_float].
    + split; [done|]. split; [|by eexists]. split; [done|].
      by intros (_ & s' & [=]).
    + split; [by intros e [= <-]|]. split.
      * split; [|done]. intros _. split; [done|]. by exists s.
      * intros Hn. by destruct (Hn s).
    + split; [done|]. split; [|by eexists]. split; [done|].
      by intros (_ & s' & [=]).
    + split; [done|]. split; [|by eexists]. split; [done|].
      by intros (_ & s' & [=]).
  - rewrite (scaled_raises _ _ E).
    split; [done|]. split; [|by eexists]. split; [done|].
    by intros (_ & s' & [=]).
Qed.

Lemma parse_heat_value_raises (heat_str : pystr) (e : exn) :
  _parse_heat_value heat_str = Raises e ->
  exists s, scaled heat_str = Returns (S754_infinity s).
Proof.
  unfold _parse_heat_value, heat_value_body.
  destruct heat_str as [|c t]; cbn [str_falsy]; [done|].
  destruct (scaled (c :: t)) as [x|e'] eqn:E; cbn [bind].
  - destruct x as [s|s| |s m e0]; cbn [int_of_float]; try done.
    intros _. by exists s.
  - by rewrite (scaled_raises _ _ E).
Qed.

End HeatOverflow.

Section ApiParser.
Import Py Models XiaohongshuApiCrawler.
Context `{UnicodeData} `{DateTimeLib}.
Variable now : datetime.

Lemma api_parse_entry (r : HotSearchResult) (ie : Z * api_entry) :
  parse_entry now r ie
  = match entry_item now ie with
    | Some it => add_item r it
    | None => r
    end.
Proof.
  destruct ie as [idx e]. unfold parse_entry, entry_item.
  destruct (e_name e) as [[|c w]|]; cbn [default str_falsy]; [done| |done].
  by destruct (_parse_heat_value _).
Qed.

Lemma api_entry_item (idx : Z) (e : api_entry) (it : HotSearchItem) :
  entry_item now (idx, e) = Some it <->
  word it <> [] /\ e_name e = Some (word it) /\
  _parse_heat_value (default (str "0") (e_viewnum e)) = Returns (heat it) /\
  it = {| word := word it; heat := heat it;
          rank := default (idx + 1) (e_rank e);
          url := default [] (e_url e);
          category := Some (default [28909%N] (e_word_type e));
          tags := []; created_at := now |}.
Proof.
  unfold entry_item. split.
  - destruct (e_name e) as [[|c w]|]; [done| |done].
    destruct (_parse_heat_value _) as [h|]; [|done]. by intros [= <-].
  - intros (Hw & -> & -> & ->). cbn [word]. by destruct (word it).
Qed.

Lemma api_parse_items (self : t) (data : api_body) :
  exists r,
    _parse_api_data now self data = Some r /\
    items r = omap (entry_item now)
                (enumerate_from 0
                   (slice_to (default [] (b_data data)) (limit (config self)))) /\
    total r = Z.of_nat (length (items r)).
Proof.
  unfold _parse_api_data. destruct (default [] (b_data data)) as [|e l].
  - eexists. split; [reflexivity|]. split; [|done].
    unfold slice_to. destruct (limit (config self) <? 0); by rewrite firstn_nil.
  - eexists. split; [reflexivity|].
    rewrite (fold_contribute _ _ api_parse_entry).
    rewrite fold_add_item_items, fold_add_item_total by done.
    by rewrite fold_add_item_items.
Qed.

Lemma api_listed_count (l : list api_entry) (k : Z) :
  length (omap (entry_item now) (enumerate_from k l))
  = length (List.filter
              (fun e => match e_name e,
                              _parse_heat_value
                                (default (str "0") (e_viewnum e)) with
                        | Some (_ :: _), Returns _ => true
                        | _, _ => false
                        end) l).
Proof.
  revert k. induction l as [|e l IH]; intros k; [done|].
  cbn [enumerate_from omap list_omap List.filter].
  fold (omap (entry_item now) (enumerate_from (k + 1) l)).
  unfold entry_item at 1.
  destruct (e_name e) as [[|c w]|]; [apply IH| |apply IH].
  destruct (_parse_heat_value _); [|apply IH].
  cbn [length]. by rewrite IH.
Qed.

(** X6.  [_parse_api_data] always returns a result.  Its items are
    exactly the entries among the first [limit] that carry a non-empty
    name and whose heat text does not overflow, in the order of the
    body, one item per such entry: with the parsed heat, the rank the
    entry gives or else its position, the category the entry gives or
    else the default one (never none), and no tags; an entry whose heat
    text overflows is left out.  [total] is the number of items
    listed. *)
Theorem parse_api_data_entries (self : t) (data : api_body) :
  let l := default [] (b_data data) in
  exists r : HotSearchResult,
    _parse_api_data now self data = Some r /\
    items r
    = omap (fun ie : Z * api_entry =>
              let '(idx, e) := ie in
              match e_name e,
                    _parse_heat_value (default (str "0") (e_viewnum e)) with
              | Some (c :: w), Returns heat =>
                  Some {| word := c :: w; heat := heat;
                          rank := default (idx + 1) (e_rank e);
                          url := default [] (e_url e);
                          category :=
                            Some (default [28909%N] (e_word_type e));
                          tags := [];
                          created_at := now |}
              | _, _ => None
              end)
           (enumerate_from 0 (slice_to l (limit (config self)))) /\
    total r = Z.of_nat (length (items r)) /\
    (length (items r) <= length l)%nat /\
    (0 <= limit (config self) -> total r <= limit (config self)) /\
    Forall (fun it => word it <> [] /\ category it <> None /\ tags it = [])
           (items r) /\
    (forall (i : nat) (e : api_entry) (w : pystr) (h : Z),
       slice_to l (limit (config self)) !! i = Some e ->
       e_name e = Some w ->
       w <> [] ->
       _parse_heat_value (default (str "0") (e_viewnum e)) = Returns h ->
       In {| word := w; heat := h;
             rank := default (Z.of_nat i + 1) (e_rank e);
             url := default [] (e_url e);
             category := Some (default [28909%N] (e_word_type e));
             tags := []; created_at := now |}
          (items r)) /\
    (forall it : HotSearchItem,
       In it (items r) ->
       exists (i : nat) (e : api_entry),
         slice_to l (limit (config self)) !! i = Some e /\
         l !! i = Some e /\
         e_name e = Some (word it) /\
         _parse_heat_value (default (str "0") (e_viewnum e))
         = Returns (heat it) /\
         rank it = default (Z.of_nat i + 1) (e_rank e) /\
         url it = default [] (e_url e)) /\
    length (items r)
    = length (List.filter
                (fun e => match e_name e,
                                _parse_heat_value
                                  (default (str "0") (e_viewnum e)) with
                          | Some (_ :: _), Returns _ => true
                          | _, _ => false
                          end)
                (slice_to l (limit (config self)))).
Proof.
  intros l. subst l.
  destruct (api_parse_items self data) as (r & Hr & Hi & Ht).
  exists r. split; [exact Hr|]. split; [exact Hi|]. split; [exact Ht|].
  set (l := default [] (b_data data)) in *.
  destruct (slice_to_length l (limit (config self))) as [Hlen Hlim].
  pose proof (omap_length_le (entry_item now)
                (enumerate_from 0 (slice_to l (limit (config self))))) as Hle.
  rewrite enumerate_from_length in Hle.
  rewrite Hi in Ht |- *.
  split; [lia|]. split; [intros Hn; specialize (Hlim Hn); lia|].
  split; [|split; [|split]].
  - apply List.Forall_forall. intros it Hin.
    apply list_elem_of_In, list_elem_of_omap in Hin as ([idx e] & _ & E).
    apply api_entry_item in E as (Hw & _ & _ & ->). done.
  - intros i e w h Hi' Hw Hne Hh.
    apply list_elem_of_In, list_elem_of_omap. exists (Z.of_nat i, e). split.
    + apply list_elem_of_lookup. exists i.
      by rewrite enumerate_from_lookup, Hi'.
    + by apply api_entry_item.
  - intros it Hin.
    apply list_elem_of_In, list_elem_of_omap in Hin as ([idx e] & Hin & E).
    apply list_elem_of_lookup in Hin as [i Hin].
    rewrite enumerate_from_lookup in Hin.
    destruct (slice_to l (limit (config self)) !! i) as [e'|] eqn:Ei; [|done].
    injection Hin as <- ->.
    apply api_entry_item in E as (_ & Hw & Hh & ->).
    exists i, e. cbn [rank url]. split; [done|]. split; [|done].
    revert Ei. unfold slice_to.
    destruct (limit (config self) <? 0); intros Ei;
      apply lookup_take_Some in Ei as [Ei _]; exact Ei.
  - apply api_listed_count.
Qed.

End ApiParser.

Lemma parse_heat_value_overflow_witness :
  @XiaohongshuApiCrawler._parse_heat_value Reference.ascii_unicode
    (Py.str "1e400") = Py.Raises Py.OverflowError /\
  exists z : Z,
    @XiaohongshuApiCrawler._parse_heat_value Reference.ascii_unicode
      (Py.str "12k") = Py.Returns z.
Proof.
  destruct (@parse_heat_value_overflow Reference.ascii_unicode
              (Py.str "1e400")) as (_ & Hiff & _).
  destruct (@parse_heat_value_overflow Reference.ascii_unicode
              (Py.str "12k")) as (_ & _ & Hret).
  split.
  - apply Hiff. split; [discriminate|]. exists false. vm_compute. reflexivity.
  - apply Hret. intros s. vm_compute. discriminate.
Defined.

Lemma parse_api_data_entries_witness :
  exists r : Models.HotSearchResult,
    @XiaohongshuApiCrawler._parse_api_data Reference.ascii_unicode
      Reference.text_dates Samples.clock
      (XiaohongshuApiCrawler.init None (Samples.fallback_config false))
      Samples.overflowing = Some r /\
    length (Models.items r) = 1%nat /\
    map Models.word (Models.items r) = [Py.str "topic"].
Proof.
  destruct (@parse_api_data_entries Reference.ascii_unicode
              Reference.text_dates Samples.clock
              (XiaohongshuApiCrawler.init None (Samples.fallback_config false))
              Samples.overflowing)
    as (r & Hr & Hitems & _ & _ & _ & _ & _ & _ & Hlen).
  exists r. split; [exact Hr|]. split; [rewrite Hlen|rewrite Hitems];
    vm_compute; reflexivity.
Defined.

Section ApiCrawl.
Import Py Models XiaohongshuApiCrawler.
Context `{UnicodeData} `{DateTimeLib}.
Variable net : option pystr -> api_reply.
Variable now : datetime.

Lemma make_api_request_spec (self : t) (data : api_body) :
  fst (_make_api_request net self) = Some data <->
  net (api_key self) = ApiResponse 200 (Some data) /\ b_code data = Some 200.
Proof.
  unfold _make_api_request.
  destruct (net (api_key self)) as [|status json].
  { split; [done|]. by intros [? _]. }
  destruct (Z.eqb_spec status 200) as [->|Hne]; cbn [negb].
  - destruct json as [d|]; [|split; [done|by intros [? _]]].
    destruct (bool_decide (b_code d = Some 200)) eqn:E; cbn [fst].
    + apply bool_decide_eq_true in E. split.
      * by intros [= <-].
      * by intros [[= <-] _].
    + apply bool_decide_eq_false in E. split; [done|].
      by intros [[= <-] Hc].
  - split; [done|]. intros [[= ? _] _]. done.
Qed.

(** X7.  [crawl_hot_search] of the API strategy returns [None] exactly
    when the reply is not a response with status 200 and a decodable
    body whose [code] is 200; otherwise it returns what the parser makes
    of the body, a result whose [total] is its item count and does not
    exceed a non-negative [limit].  A crawler made by
    [create_api_crawler] never returns more than 50 items. *)
Theorem api_crawl_outcome (self : t) :
  let run := crawl_hot_search net now self in
  (fst run = None <->
   forall data, net (api_key self) = ApiResponse 200 (Some data) ->
                b_code data <> Some 200) /\
  (forall data,
     net (api_key self) = ApiResponse 200 (Some data) ->
     b_code data = Some 200 ->
     fst run = _parse_api_data now self data) /\
  (forall r : HotSearchResult,
     fst run = Some r ->
     total r = Z.of_nat (length (items r)) /\
     (0 <= limit (config self) -> total r <= limit (config self))) /\
  (forall (api_key environ : option pystr) (crawler : t) (r : HotSearchResult),
     create_api_crawler api_key environ = Returns crawler ->
     fst (crawl_hot_search net now crawler) = Some r ->
     total r = Z.of_nat (length (items r)) /\ total r <= 50).
Proof.
  assert (forall self r,
            fst (crawl_hot_search net now self) = Some r ->
            total r = Z.of_nat (length (items r)) /\
            (0 <= limit (config self) -> total r <= limit (config self)))
    as Hbound.
  { intros s r. unfold crawl_hot_search.
    destruct (_make_api_request net s) as [[d|] tr]; [|done]. cbn [fst].
    intros Hr.
    destruct (api_parse_items now s d) as (r' & Hr' & Hi & Ht).
    rewrite Hr' in Hr. injection Hr as <-. split; [exact Ht|].
    intros Hn. rewrite Ht, Hi.
    pose proof (omap_length_le (entry_item now)
                  (enumerate_from 0
                     (slice_to (default [] (b_data d)) (limit (config s)))))
      as Hle.
    rewrite enumerate_from_length in Hle.
    destruct (slice_to_length (default [] (b_data d)) (limit (config s)))
      as [_ Hlim]. lia. }
  intros run. subst run. split; [|split; [|split]].
  - unfold crawl_hot_search.
    pose proof (make_api_request_spec self) as Hspec.
    destruct (_make_api_request net self) as [[d|] tr]; cbn [fst] in *.
    + destruct (api_parse_items now self d) as (r & -> & _). split; [done|].
      intros Hn. destruct (proj1 (Hspec d) eq_refl) as [Hd Hc].
      by destruct (Hn d Hd).
    + split; [|done]. intros _ data Hd Hc.
      discriminate (proj2 (Hspec data) (conj Hd Hc)).
  - intros data Hd Hc. unfold crawl_hot_search.
    pose proof (proj2 (make_api_request_spec self data) (conj Hd Hc)) as Hr.
    destruct (_make_api_request net self) as [d tr]. cbn [fst] in *.
    by rewrite Hr.
  - apply Hbound.
  - intros api_key environ crawler r Hc Hr.
    destruct (Hbound crawler r Hr) as [Ht Hl]. split; [exact Ht|].
    assert (limit (config crawler) = 50) as Hlim.
    { revert Hc. unfold create_api_crawler.
      destruct (key_absent (if key_absent api_key then environ else api_key));
        [done|]. by intros [= <-]. }
    rewrite Hlim in Hl. apply Hl. lia.
Qed.

End ApiCrawl.

Lemma api_crawl_outcome_witness :
  let self := XiaohongshuApiCrawler.init None (Samples.fallback_config false) in
  let run := @XiaohongshuApiCrawler.crawl_hot_search Reference.ascii_unicode
               Reference.text_dates Samples.open_endpoint Samples.clock self in
  exists r : Models.HotSearchResult,
    fst run = Some r /\
    Models.total r = Z.of_nat (length (Models.items r)) /\
    Models.total r <= 50.
Proof.
  intros self run.
  destruct (@api_crawl_outcome Reference.ascii_unicode Reference.text_dates
              Samples.open_endpoint Samples.clock self) as (_ & _ & Hres & _).
  fold run in Hres.
  destruct (fst run) as [r|] eqn:E; [|vm_compute in E; discriminate].
  exists r. split; [reflexivity|].
  destruct (Hres r eq_refl) as [Ht Hl]. split; [exact Ht|].
  apply Hl. vm_compute. discriminate.
Defined.

Section HeatCase.
Import Py XiaohongshuApiCrawler.
Context `{UnicodeData}.

Lemma ascii_lower_idem (c : N) : ascii_lower (ascii_lower c) = ascii_lower c.
Proof.
  unfold ascii_lower.
  destruct ((65 <=? c)%N && (c <=? 90)%N) eqn:E; [|by rewrite E].
  apply andb_true_iff in E as [E1 E2].
  apply N.leb_le in E1. apply N.leb_le in E2.
  destruct (N.leb_spec 65 (c + 32)); [|lia].
  destruct (N.leb_spec (c + 32) 90); [lia|done].
Qed.

Lemma ascii_lower_simple (c : N) : simple_cp c -> simple_cp (ascii_lower c).
Proof.
  unfold simple_cp, ascii_lower, cp_wan, cp_qian.
  destruct ((65 <=? c)%N && (c <=? 90)%N) eqn:E; [|done].
  apply andb_true_iff in E as [E1 E2].
  apply N.leb_le in E1. apply N.leb_le in E2. intros _. left. lia.
Qed.

(** X8.  On a text of ASCII characters and the two unit characters the
    parser does not distinguish upper case from lower case: [W] and [K]
    are unit markers as [w] and [k] are, and [E], [INF], [NaN] read as
    their lower-case forms. *)
Theorem parse_heat_value_ignores_case (heat_str : pystr) :
  Forall simple_cp heat_str ->
  _parse_heat_value (map ascii_lower heat_str) = _parse_heat_value heat_str.
Proof.
  intros Hs.
  assert (Forall simple_cp (map ascii_lower heat_str)) as Hs'.
  { apply Forall_map. eapply Forall_impl; [exact Hs|].
    intros c. apply ascii_lower_simple. }
  assert (normalized (map ascii_lower heat_str) = normalized heat_str) as Hn.
  { rewrite !normalized_simple by done. rewrite map_map.
    do 3 f_equal. apply map_ext. intros c. apply ascii_lower_idem. }
  unfold _parse_heat_value, heat_value_body, scaled. rewrite Hn.
  by destruct heat_str.
Qed.

End HeatCase.

Lemma parse_heat_value_ignores_case_witness :
  @XiaohongshuApiCrawler._parse_heat_value Reference.ascii_unicode
    (Py.str "1.5w")
  = @XiaohongshuApiCrawler._parse_heat_value Reference.ascii_unicode
      (Py.str "1.5W") /\
  @XiaohongshuApiCrawler._parse_heat_value Reference.ascii_unicode
    (Py.str "1.5W") = Py.Returns 15000.
Proof.
  split; [|reflexivity].
  apply (@parse_heat_value_ignores_case Reference.ascii_unicode (Py.str "1.5W")).
  repeat constructor; vm_compute; reflexivity.
Defined.

(** * The browser session, call by call *)

Section BrowserFacts.
Import Py Models XiaohongshuCrawlerWithFallback.
Context `{DateTimeLib}.
Variable sc : script.
Variable now : datetime.

(** The loop over the matched elements: what it appends and what it
    asks the page. *)
Lemma fold_extract_contribute (l : list Z) (r : HotSearchResult) (w : world) :
  fst (fold_left (extract_element sc now) l (r, w))
  = fold_left add_item
      (omap (fun i => match element_text sc (Z.to_nat i) with
                      | Text (c :: s) => Some (element_item now i (c :: s))
                      | _ => None
                      end) l) r /\
  calls (snd (fold_left (extract_element sc now) l (r, w)))
  = calls w ++ map (fun i => TextContent (Z.to_nat i)) l.
Proof.
  revert r w. induction l as [|i l IH]; intros r w.
  - split; [done|]. cbn. by rewrite app_nil_r.
  - cbn [fold_left omap list_omap map].
    assert (exists r', extract_element sc now (r, w) i
                       = (r', record_call (TextContent (Z.to_nat i)) w) /\
                       r' = match element_text sc (Z.to_nat i) with
                            | Text (c :: s) =>
                                add_item r (element_item now i (c :: s))
                            | _ => r
                            end) as (r' & -> & ->).
    { unfold extract_element.
      destruct (element_text sc (Z.to_nat i)) as [| |[|c s]]; by eexists. }
    destruct (IH (match element_text sc (Z.to_nat i) with
                  | Text (c :: s) => add_item r (element_item now i (c :: s))
                  | _ => r
                  end) (record_call (TextContent (Z.to_nat i)) w)) as [-> ->].
    split.
    + by destruct (element_text sc (Z.to_nat i)) as [| |[|c s]].
    + cbn [calls record_call]. by rewrite <- app_assoc.
Qed.

Lemma range_bounds (m : Z) (i : Z) : In i (range m) -> 0 <= i < m.
Proof.
  unfold range. intros Hin. apply in_map_iff in Hin as (k & <- & Hk).
  apply in_seq in Hk. lia.
Qed.

Lemma seq_sorted (a k : nat) :
  StronglySorted Z.lt (map Z.of_nat (seq a k)).
Proof.
  revert a. induction k as [|k IH]; intros a; [constructor|].
  cbn [seq map]. constructor; [apply IH|].
  apply List.Forall_forall. intros z Hin.
  apply in_map_iff in Hin as (j & <- & Hj). apply in_seq in Hj. lia.
Qed.

Lemma omap_sorted (f : Z -> option HotSearchItem) (l : list Z) :
  (forall i it, f i = Some it -> rank it = i + 1) ->
  StronglySorted Z.lt l ->
  StronglySorted Z.lt (map rank (omap f l)).
Proof.
  intros Hf. induction 1 as [|i l Hs IH Hi]; [constructor|].
  cbn [omap list_omap]. fold (omap f l).
  destruct (f i) as [it|] eqn:E; [|exact IH].
  cbn [map]. constructor; [exact IH|].
  apply List.Forall_forall. intros z Hin.
  apply in_map_iff in Hin as (it' & <- & Hin).
  apply list_elem_of_In, list_elem_of_omap in Hin as (j & Hj & Ej).
  apply list_elem_of_In in Hj. rewrite List.Forall_forall in Hi.
  specialize (Hi j Hj). rewrite (Hf _ _ E), (Hf _ _ Ej). lia.
Qed.

(** What a successful extraction returned. *)
Lemma extract_page_Some (self : t) (w we : world) (r : HotSearchResult) :
  _extract_data_from_page sc now self w = (Some r, we) ->
  exists n : nat,
    locator_count sc = Returns n /\
    items r
    = omap (fun i => match element_text sc (Z.to_nat i) with
                     | Text (c :: s) => Some (element_item now i (c :: s))
                     | _ => None
                     end)
        (range (Z.min (Z.of_nat n) (limit (config self)))).
Proof.
  unfold _extract_data_from_page.
  destruct (locator_count sc) as [n|e]; [|done].
  destruct (0 <? n)%nat.
  - destruct (fold_left _ _ _) as [r0 w0] eqn:E.
    pose proof (fold_extract_contribute
      (range (Z.min (Z.of_nat n) (limit (config self))))
      (default_result now) (record_call Count (record_call Count (record_call Count w)))) as [Hi _].
    rewrite E in Hi. cbn [fst] in Hi.
    destruct (negb (element_handles_ok sc)); [done|].
    destruct (0 <? total r0); [|done]. intros [= <- _].
    exists n. split; [done|]. by rewrite Hi, fold_add_item_items.
  - destruct (negb (element_handles_ok sc)); [done|].
    by destruct (0 <? total (default_result now)) eqn:E.
Qed.

Lemma crawl_with_playwright_Some (self : t) (w w' : world)
    (r : HotSearchResult) :
  _crawl_with_playwright sc now self w = (Some r, w') ->
  exists w0 we, _extract_data_from_page sc now self w0 = (Some r, we).
Proof.
  unfold _crawl_with_playwright.
  destruct (browser self) as [b|]; [|done].
  destruct (new_context_ok sc); [|done]. simpl.
  destruct (new_page_ok sc); [|done]. simpl.
  destruct (set_default_timeout_ok sc); [|done]. simpl.
  destruct (goto_ok sc); [|done]. simpl.
  destruct (content_ok sc); [|done]. simpl.
  destruct (_extract_data_from_page _ _ _ _) as [res we] eqn:E.
  destruct (page_close_ok sc); [|done]. simpl.
  destruct (context_close_ok sc); [|done]. simpl.
  intros [= -> _]. eauto.
Qed.

(** X9.  Every item that the browser session returns carries no heat,
    no url, no category and no tags; its rank is the position of its
    element among the matches, so at most [limit], and ranks increase
    strictly; its word is the text of that element, which was not
    empty, with surrounding white space removed.  No more items are
    returned than elements matched. *)
Theorem browser_items_shape (self : t) (w w' : world) (r : HotSearchResult) :
  _crawl_with_playwright sc now self w = (Some r, w') ->
  Forall (fun it =>
            heat it = 0 /\ url it = [] /\ category it = None /\ tags it = [] /\
            1 <= rank it <= limit (config self) /\
            exists s, element_text sc (Z.to_nat (rank it - 1)) = Text s /\
                      s <> [] /\ word it = strip s)
         (items r) /\
  StronglySorted Z.lt (map rank (items r)) /\
  (exists n : nat,
     locator_count sc = Returns n /\ (length (items r) <= n)%nat) /\
  Analysis.heat_values (items r) = [].
Proof.
  intros Hrun.
  destruct (crawl_with_playwright_Some _ _ _ _ Hrun) as (w0 & we & Hx).
  destruct (extract_page_Some _ _ _ _ Hx) as (n & Hn & Hi).
  set (f := fun i => match element_text sc (Z.to_nat i) with
                     | Text (c :: s) => Some (element_item now i (c :: s))
                     | _ => None
                     end) in Hi.
  set (m := Z.min (Z.of_nat n) (limit (config self))) in Hi.
  assert (forall i it, f i = Some it ->
            it = element_item now i (text_of sc i) /\
            exists s, element_text sc (Z.to_nat i) = Text s /\ s <> [] /\
                      text_of sc i = s) as Hf.
  { intros i it. unfold f, text_of.
    destruct (element_text sc (Z.to_nat i)) as [| |[|c s]]; try done.
    intros [= <-]. split; [done|]. by exists (c :: s). }
  assert (Forall (fun it =>
            heat it = 0 /\ url it = [] /\ category it = None /\ tags it = [] /\
            1 <= rank it <= limit (config self) /\
            exists s, element_text sc (Z.to_nat (rank it - 1)) = Text s /\
                      s <> [] /\ word it = strip s) (items r)) as Hshape.
  { rewrite Hi. apply List.Forall_forall. intros it Hin.
    apply list_elem_of_In, list_elem_of_omap in Hin as (i & Hin & E).
    apply list_elem_of_In, range_bounds in Hin.
    destruct (Hf i it E) as (-> & s & Hs & Hne & Ht).
    cbn [element_item heat url category tags rank word].
    repeat split; [lia|lia|].
    exists s. replace (i + 1 - 1) with i by lia. by rewrite Ht. }
  split; [exact Hshape|]. split; [|split].
  - rewrite Hi. apply omap_sorted; [|apply seq_sorted].
    intros i it E. by destruct (Hf i it E) as (-> & _).
  - exists n. split; [done|]. rewrite Hi.
    pose proof (omap_length_le f (range m)) as Hle.
    rewrite range_length in Hle. lia.
  - unfold Analysis.heat_values. clear -Hshape.
    induction Hshape as [|it l (Hh & _) _ IH]; [done|].
    cbn [map List.filter]. rewrite Hh. exact IH.
Qed.

(** X10.  A failed start of the browser switches the fallback off for
    good: the crawl answers [None], the crawler comes back with
    [use_playwright] cleared, and every later crawl whose request
    strategy gives nothing answers [None] without a single browser
    call.  The only calls made were [start] and, when the engine
    started, [launch]. *)
Theorem failed_setup_disables (self : t) (w : world)
    (primary : option HotSearchResult) :
  primary_empty primary ->
  use_playwright self = true ->
  engine_ok sc = false ->
  let run := crawl_hot_search sc now primary self w in
  fst (fst run) = None /\
  use_playwright (snd (fst run)) = false /\
  calls (snd run) = calls w ++ (if start_ok sc then [Start; Launch] else [Start]) /\
  (forall (primary' : option HotSearchResult) (w2 : world),
     primary_empty primary' ->
     crawl_hot_search sc now primary' (snd (fst run)) w2
     = (None, snd (fst run), w2)).
Proof.
  intros Hp Hu He run. subst run.
  rewrite crawl_primary_empty by done.
  unfold browser_fallback. rewrite Hu. unfold _setup_playwright. rewrite Hu.
  cbn [negb]. unfold engine_ok in He.
  destruct (start_ok sc) eqn:Hs; cbn [negb].
  - destruct (launch_ok sc) eqn:Hl; [done|]. cbn.
    split; [done|]. split; [done|]. split; [by rewrite <- app_assoc|].
    intros primary' w2 Hp'. by rewrite crawl_primary_empty.
  - cbn. split; [done|]. split; [done|]. split; [done|].
    intros primary' w2 Hp'. by rewrite crawl_primary_empty.
Qed.

End BrowserFacts.

Lemma browser_items_shape_witness :
  let self := XiaohongshuCrawlerWithFallback.init Samples.stub_script
                (Samples.fallback_config true) in
  let setup := XiaohongshuCrawlerWithFallback._setup_playwright
                 Samples.stub_script self
                 XiaohongshuCrawlerWithFallback.fresh_world in
  let run := XiaohongshuCrawlerWithFallback._crawl_with_playwright
               Samples.stub_script Samples.clock (snd (fst setup))
               (snd setup) in
  exists r : Models.HotSearchResult,
    fst run = Some r /\
    map Models.rank (Models.items r) = [1; 2; 3] /\
    Analysis.heat_values (Models.items r) = [].
Proof.
  intros self setup run.
  destruct run as [[r|] w'] eqn:E; [|vm_compute in E; discriminate].
  destruct (browser_items_shape Samples.stub_script Samples.clock _ _ _ _ E)
    as (_ & _ & _ & Hheat).
  exists r. split; [reflexivity|]. split; [|exact Hheat].
  vm_compute in E. injection E as <- _. reflexivity.
Defined.

Lemma failed_setup_disables_witness :
  let self := XiaohongshuCrawlerWithFallback.init Samples.start_fails
                (Samples.fallback_config true) in
  let w := XiaohongshuCrawlerWithFallback.fresh_world in
  let run := XiaohongshuCrawlerWithFallback.crawl_hot_search
               Samples.start_fails Samples.clock None self w in
  fst (fst run) = None /\
  XiaohongshuCrawlerWithFallback.use_playwright (snd (fst run)) = false /\
  XiaohongshuCrawlerWithFallback.calls (snd run)
  = [XiaohongshuCrawlerWithFallback.Start] /\
  XiaohongshuCrawlerWithFallback.crawl_hot_search Samples.start_fails
    Samples.clock None (snd (fst run)) w
  = (None, snd (fst run), w).
Proof.
  intros self w run.
  destruct (failed_setup_disables Samples.start_fails Samples.clock self w
              None) as (Hnone & Hoff & Hcalls & Hlater).
  - exact I.
  - reflexivity.
  - reflexivity.
  - split; [exact Hnone|]. split; [exact Hoff|]. split; [exact Hcalls|].
    apply Hlater. exact I.
Defined.

Section ReadsFacts.
Import Py Models XiaohongshuCrawlerWithFallback.
Context `{DateTimeLib}.
Variable sc : script.
Variable now : datetime.

Lemma texts_read_snoc (cs : list call) (c : call) :
  texts_read (cs ++ [c])
  = texts_read cs ++ match c with TextContent i => [i] | _ => [] end.
Proof. unfold texts_read. rewrite omap_app. by destruct c. Qed.

Lemma texts_read_texts (l : list nat) : texts_read (map TextContent l) = l.
Proof.
  unfold texts_read. induction l as [|k l IH]; [done|].
  cbn [map omap list_omap]. f_equal. exact IH.
Qed.

Lemma texts_read_scripts (cs : list call) (l : list nat) :
  texts_read (cs ++ map ScriptTextContent l) = texts_read cs.
Proof.
  unfold texts_read. rewrite omap_app.
  replace (omap _ (map ScriptTextContent l)) with (@nil nat);
    [by rewrite app_nil_r|].
  induction l as [|k l IH]; [done|]. exact IH.
Qed.

Lemma scripts_read_snoc (cs : list call) (c : call) :
  scripts_read (cs ++ [c])
  = scripts_read cs ++ match c with ScriptTextContent j => [j] | _ => [] end.
Proof. unfold scripts_read. rewrite omap_app. by destruct c. Qed.

Lemma scripts_read_scripts (cs : list call) (l : list nat) :
  scripts_read (cs ++ map ScriptTextContent l) = scripts_read cs ++ l.
Proof.
  unfold scripts_read. rewrite omap_app. f_equal.
  induction l as [|k l IH]; [done|].
  cbn [map omap list_omap]. f_equal. exact IH.
Qed.

Lemma scripts_read_texts (cs : list call) (l : list nat) :
  scripts_read (cs ++ map TextContent l) = scripts_read cs.
Proof.
  unfold scripts_read. rewrite omap_app.
  replace (omap _ (map TextContent l)) with (@nil nat);
    [by rewrite app_nil_r|].
  induction l as [|k l IH]; [done|]. exact IH.
Qed.

(** The calls of the extraction, one after the other. *)
Lemma extract_page_calls (self : t) (w : world) :
  calls (snd (_extract_data_from_page sc now self w))
  = calls w
    ++ match locator_count sc with
       | Raises _ => [Count]
       | Returns n =>
           (if (0 <? n)%nat
            then [Count; Count; Count]
                 ++ map TextContent
                      (seq 0 (Z.to_nat (Z.min (Z.of_nat n)
                                          (limit (config self)))))
            else [Count])
           ++ [Evaluate; ElementHandles]
           ++ (if element_handles_ok sc
               then map ScriptTextContent (seq 0 (script_elements sc))
               else [])
       end.
Proof.
  unfold _extract_data_from_page.
  destruct (locator_count sc) as [n|e]; [|done].
  set (m := Z.min (Z.of_nat n) (limit (config self))).
  destruct (0 <? n)%nat.
  - pose proof (fold_extract_contribute sc now (range m) (default_result now)
                  (record_call Count
                     (record_call Count (record_call Count w)))) as [_ Hc].
    destruct (fold_left (extract_element sc now) (range m)
                (default_result now,
                 record_call Count
                   (record_call Count (record_call Count w))))
      as [r1 w1] eqn:E.
    cbn [snd] in Hc.
    assert (map (fun i => TextContent (Z.to_nat i)) (range m)
            = map TextContent (seq 0 (Z.to_nat m))) as Hmap.
    { unfold range. rewrite map_map. apply List.map_ext. intros k.
      by rewrite Nat2Z.id. }
    rewrite Hmap in Hc. cbn [calls record_call] in Hc.
    destruct (element_handles_ok sc); cbn [negb];
      [destruct (0 <? total r1)|];
      cbn [snd calls record_call scan_scripts]; rewrite Hc;
      rewrite <- ?app_assoc; reflexivity.
  - destruct (element_handles_ok sc); cbn [negb];
      [destruct (0 <? total (default_result now))|];
      cbn [snd calls record_call scan_scripts];
      rewrite <- ?app_assoc; reflexivity.
Qed.

(** The extraction reads the matched elements in index order, as many
    as were counted and the limit allows, and the script elements after
    them. *)
Lemma extract_page_reads (self : t) (w : world) :
  texts_read (calls (snd (_extract_data_from_page sc now self w)))
  = texts_read (calls w)
    ++ seq 0 (match locator_count sc with
              | Returns n => Z.to_nat (Z.min (Z.of_nat n) (limit (config self)))
              | Raises _ => 0%nat
              end).
Proof.
  rewrite extract_page_calls. unfold texts_read at 1. rewrite omap_app.
  fold (texts_read (calls w)). f_equal.
  destruct (locator_count sc) as [n|e]; [|done].
  set (m := Z.min (Z.of_nat n) (limit (config self))).
  rewrite !omap_app.
  replace (omap _ (if element_handles_ok sc
                   then map ScriptTextContent (seq 0 (script_elements sc))
                   else [])) with (@nil nat).
  2:{ destruct (element_handles_ok sc); [|done].
      pose proof (texts_read_scripts [] (seq 0 (script_elements sc))) as Hs.
      symmetry. exact Hs. }
  destruct (Nat.ltb_spec 0 n) as [Hpos|Hzero].
  - rewrite omap_app. cbn [omap list_omap app].
    fold (texts_read (map TextContent (seq 0 (Z.to_nat m)))).
    rewrite texts_read_texts. by rewrite app_nil_r.
  - assert (Z.to_nat m = 0%nat) as -> by lia. done.
Qed.

Lemma extract_page_scripts (self : t) (w : world) :
  scripts_read (calls (snd (_extract_data_from_page sc now self w)))
  = scripts_read (calls w)
    ++ match locator_count sc with
       | Returns _ =>
           if element_handles_ok sc then seq 0 (script_elements sc) else []
       | Raises _ => []
       end.
Proof.
  rewrite extract_page_calls.
  destruct (locator_count sc) as [n|e];
    [|by rewrite scripts_read_snoc, app_nil_r].
  rewrite !app_assoc.
  assert (forall cs,
            scripts_read
              (cs ++ (if element_handles_ok sc
                      then map ScriptTextContent (seq 0 (script_elements sc))
                      else []))
            = scripts_read cs
              ++ (if element_handles_ok sc
                  then seq 0 (script_elements sc) else [])) as ->.
  { intros cs. destruct (element_handles_ok sc);
      [apply scripts_read_scripts|by rewrite !app_nil_r]. }
  f_equal.
  change [Evaluate; ElementHandles] with ([Evaluate] ++ [ElementHandles]).
  rewrite !app_assoc, !scripts_read_snoc, !app_nil_r.
  destruct (0 <? n)%nat.
  - change [Count; Count; Count] with ([Count] ++ [Count] ++ [Count]).
    rewrite !app_assoc, scripts_read_texts, !scripts_read_snoc.
    by rewrite !app_nil_r.
  - by rewrite scripts_read_snoc, app_nil_r.
Qed.

(** Whatever happens in the browser session, the elements read are an
    initial run of the matches, no longer than the limit. *)
Lemma crawl_with_playwright_reads (self : t) (w : world) :
  exists k : nat,
    Z.of_nat k <= Z.max 0 (limit (config self)) /\
    texts_read (calls (snd (_crawl_with_playwright sc now self w)))
    = texts_read (calls w) ++ seq 0 k.
Proof.
  assert (exists k : nat,
            Z.of_nat k <= Z.max 0 (limit (config self)) /\
            forall w0,
              texts_read (calls (snd (_extract_data_from_page sc now self w0)))
              = texts_read (calls w0) ++ seq 0 k) as (k & Hk & Hx).
  { eexists. split; [|intros w0; apply extract_page_reads].
    destruct (locator_count sc); lia. }
  unfold _crawl_with_playwright.
  destruct (browser self) as [b|];
    [|exists 0%nat; split; [lia|by rewrite app_nil_r]].
  destruct (new_context_ok sc), (new_page_ok sc), (set_default_timeout_ok sc),
    (goto_ok sc), (content_ok sc);
    cbn -[_extract_data_from_page release texts_read seq Z.max Z.of_nat];
    try (exists 0%nat; split; [lia|]; rewrite !texts_read_snoc;
         by rewrite !app_nil_r).
  exists k. split; [exact Hk|].
  match goal with
  | |- context [_extract_data_from_page sc now self ?w0] =>
      pose proof (Hx w0) as Hw0;
      destruct (_extract_data_from_page sc now self w0) as [res we]
  end.
  cbn [snd] in Hw0.
  cbn [calls record_call acquire] in Hw0. rewrite !texts_read_snoc in Hw0.
  rewrite !app_nil_r in Hw0.
  destruct (page_close_ok sc), (context_close_ok sc);
    cbn [negb snd calls record_call release]; rewrite !texts_read_snoc;
    by rewrite !app_nil_r.
Qed.

(** X11.  The text of the matched elements is asked in index order, once
    each: in any browser session the matched elements read are an
    initial run of the matches, never more than the limit, and in a
    session in which no call raises they are as many as were counted
    and the limit allows.  The scan of the page's [script] elements,
    which follows, asks the text of every script element in turn, once
    each; it is skipped when the scripts cannot be listed.  (The page is
    static: [count()] gives the same number each time.) *)
Theorem browser_reads_in_order (self : t) (w : world) :
  (exists k : nat,
     Z.of_nat k <= Z.max 0 (limit (config self)) /\
     texts_read (calls (snd (_crawl_with_playwright sc now self w)))
     = texts_read (calls w) ++ seq 0 k) /\
  (forall b n : nat,
     browser self = Some b ->
     session_ok sc = true ->
     locator_count sc = Returns n ->
     texts_read (calls (snd (_crawl_with_playwright sc now self w)))
     = texts_read (calls w)
       ++ seq 0 (Z.to_nat (Z.min (Z.of_nat n) (limit (config self)))) /\
     scripts_read (calls (snd (_crawl_with_playwright sc now self w)))
     = scripts_read (calls w)
       ++ (if element_handles_ok sc
           then seq 0 (script_elements sc) else [])).
Proof.
  split; [apply crawl_with_playwright_reads|].
  intros b n Hb Hs Hn. unfold session_ok in Hs.
  repeat (apply andb_true_iff in Hs as [Hs ?]).
  unfold _crawl_with_playwright. rewrite Hb.
  repeat match goal with Hf : _ sc = true |- _ => rewrite Hf; clear Hf end.
  cbn -[_extract_data_from_page release].
  match goal with
  | |- context [_extract_data_from_page sc now self ?w0] =>
      pose proof (extract_page_reads self w0) as Hw0;
      pose proof (extract_page_scripts self w0) as Hs0;
      destruct (_extract_data_from_page sc now self w0) as [res we]
  end.
  rewrite Hn in Hw0, Hs0. cbn [snd] in Hw0, Hs0.
  cbn [calls record_call acquire] in Hw0, Hs0.
  rewrite !texts_read_snoc in Hw0. rewrite !scripts_read_snoc in Hs0.
  rewrite !app_nil_r in Hw0, Hs0.
  cbn [snd calls record_call release].
  rewrite !texts_read_snoc, !scripts_read_snoc.
  by rewrite !app_nil_r.
Qed.

End ReadsFacts.

Lemma browser_reads_in_order_witness :
  let self := XiaohongshuCrawlerWithFallback.init Samples.stub_script
                (Samples.fallback_config true) in
  let setup := XiaohongshuCrawlerWithFallback._setup_playwright
                 Samples.stub_script self
                 XiaohongshuCrawlerWithFallback.fresh_world in
  let run := XiaohongshuCrawlerWithFallback._crawl_with_playwright
               Samples.stub_script Samples.clock (snd (fst setup))
               (snd setup) in
  XiaohongshuCrawlerWithFallback.texts_read
    (XiaohongshuCrawlerWithFallback.calls (snd run)) = [0; 1; 2]%nat /\
  XiaohongshuCrawlerWithFallback.scripts_read
    (XiaohongshuCrawlerWithFallback.calls (snd run)) = [0; 1]%nat.
Proof.
  intros self setup run.
  destruct (browser_reads_in_order Samples.stub_script Samples.clock
              (snd (fst setup)) (snd setup)) as [_ Hall].
  exact (Hall _ 3%nat eq_refl eq_refl eq_refl).
Defined.

Section OnlineCrawl.
Import Py Models BaseCrawler XiaohongshuCrawlerWithFallback.
Context `{DateTimeLib}.
Variable sc : script.
Variable net : transport XiaohongshuCrawler.page_body.
Variable g : rng.
Variable now : datetime.

Lemma online_unfold (self : t) (r : run) (w : world) :
  crawl_hot_search_online sc net g now self r w
  = (let primary :=
       XiaohongshuCrawler.crawl_hot_search net g now
         (XiaohongshuCrawler.init (config self)) r in
     let fallback := crawl_hot_search sc now (fst primary) self w in
     (fst (fst fallback), snd (fst fallback), snd primary, snd fallback)).
Proof.
  unfold crawl_hot_search_online.
  destruct (XiaohongshuCrawler.crawl_hot_search _ _ _ _ _) as [p r'].
  cbn [fst snd].
  by destruct (crawl_hot_search sc now p self w) as [[res self'] w'].
Qed.

(** X12.  [crawl_hot_search] of the crawler with fallback, from the first
    request on.  At most [max_retries] requests are made.  When the first
    body that arrives parses to a result with items, that result is
    returned and the browser is not touched.  The browser is touched only
    when the request strategy gave nothing.  When no body arrives, the
    answer is [None] with the fallback off, and with the fallback on and
    a browser in which no call raises it is one item per matched element
    with a non-empty text, up to the limit. *)
Theorem online_crawl_order (self : t) (w : world) :
  sleepable (config self) ->
  unit_interval g ->
  let primary :=
    XiaohongshuCrawler.crawl_hot_search net g now
      (XiaohongshuCrawler.init (config self)) start in
  let run := crawl_hot_search_online sc net g now self start w in
  let result := fst (fst (fst run)) in
  (count_requests (trace (snd (fst run)))
   <= Z.to_nat (max_retries (config self)))%nat /\
  (forall (j : nat) (d : XiaohongshuCrawler.page_body) (p : HotSearchResult),
     Z.of_nat j < max_retries (config self) ->
     (forall i, (i < j)%nat -> net i = RequestException) ->
     net j = Body d ->
     XiaohongshuCrawler._parse_hot_search_data now
       (XiaohongshuCrawler.init (config self)) d = Some p ->
     0 < total p ->
     run = (Some p, self, snd primary, w) /\
     count_requests (trace (snd (fst run))) = S j) /\
  (snd run = w \/ primary_empty (fst primary)) /\
  ((forall k : nat, Z.of_nat k < max_retries (config self) ->
                    net k = RequestException) ->
   use_playwright self = false ->
   run = (None, self, snd primary, w) /\
   count_requests (trace (snd (fst run)))
   = Z.to_nat (max_retries (config self))) /\
  (forall n : nat,
     (forall k : nat, Z.of_nat k < max_retries (config self) ->
                      net k = RequestException) ->
     use_playwright self = true ->
     engine_ok sc = true ->
     session_ok sc = true ->
     element_handles_ok sc = true ->
     locator_count sc = Returns n ->
     0 < Z.min (Z.of_nat n) (limit (config self)) ->
     Forall (fun i => exists s, element_text sc (Z.to_nat i) = Text s /\ s <> [])
            (range (Z.min (Z.of_nat n) (limit (config self)))) ->
     exists r' : HotSearchResult,
       result = Some r' /\
       items r' = map (fun i => element_item now i (text_of sc i))
                      (range (Z.min (Z.of_nat n) (limit (config self)))) /\
       total r' = Z.min (Z.of_nat n) (limit (config self))).
Proof.
  intros _ _ primary run result. subst result run.
  rewrite online_unfold. fold primary. cbn zeta. cbn [fst snd].
  split; [|split; [|split; [|split]]].
  - subst primary. unfold XiaohongshuCrawler.crawl_hot_search.
    pose proof (attempt_loop_bound (config self) net g
                  (range (max_retries (config self))) start) as Hb.
    rewrite range_length in Hb. unfold _make_request. cbn [XiaohongshuCrawler.config XiaohongshuCrawler.init].
    destruct (attempt_loop _ _ _ _ _) as [[d|] r]; exact Hb.
  - intros j d p Hj Hfail Hd Hp Hpos.
    assert (primary
            = (Some p,
               {| requests := S j; draws := S (2 * j);
                  trace := trace (after_failures (config self) g j)
                           ++ attempt_events (config self) g j |})) as Hprim.
    { subst primary. unfold XiaohongshuCrawler.crawl_hot_search.
      cbn [XiaohongshuCrawler.config XiaohongshuCrawler.init].
      rewrite (make_request_at (config self) net g j d Hj Hfail Hd).
      by rewrite Hp. }
    rewrite Hprim. cbn [fst snd trace]. unfold crawl_hot_search.
    destruct (Z.ltb_spec 0 (total p)); [|lia]. split; [done|].
    rewrite count_requests_app.
    destruct (after_failures_counts (config self) g j) as [-> _]. cbn. lia.
  - destruct (fst primary) as [p|] eqn:Ep; [|by right].
    destruct (Z.ltb_spec 0 (total p)) as [Hpos|Hle].
    + left. unfold crawl_hot_search.
      destruct (Z.ltb_spec 0 (total p)); [done|lia].
    + by right.
  - intros Hnet Hu.
    destruct (make_request_down (config self) net g Hnet) as [Hn Hc].
    assert (fst primary = None /\
            count_requests (trace (snd primary))
            = Z.to_nat (max_retries (config self))) as [Hprim Hreq].
    { subst primary. unfold XiaohongshuCrawler.crawl_hot_search.
      cbn [XiaohongshuCrawler.config XiaohongshuCrawler.init].
      by destruct (_make_request _ _ _ _) as [[d|] r]. }
    rewrite Hprim. split; [|exact Hreq].
    unfold crawl_hot_search, browser_fallback. by rewrite Hu.
  - intros n Hnet Hu He Hs Hh Hc Hm Hall.
    destruct (make_request_down (config self) net g Hnet) as [Hn _].
    assert (fst primary = None) as ->.
    { subst primary. unfold XiaohongshuCrawler.crawl_hot_search.
      cbn [XiaohongshuCrawler.config XiaohongshuCrawler.init].
      by destruct (_make_request _ _ _ _) as [[d|] r]. }
    rewrite crawl_primary_empty by done.
    unfold browser_fallback. rewrite Hu, setup_ok by done.
    cbv beta iota zeta.
    match goal with
    | |- context [_crawl_with_playwright sc now ?s ?w0] =>
        destruct (crawl_with_playwright_session_ok sc now s w0 _ eq_refl Hs)
          as [w1 Hw1];
        pose proof (extract_page_items sc now s w1 n Hh Hc Hm Hall) as Hx
    end.
    destruct (_crawl_with_playwright _ _ _ _) as [res w2] eqn:E.
    simpl in Hw1 |- *. rewrite Hw1. exact Hx.
Qed.

End OnlineCrawl.

Lemma online_crawl_order_witness :
  let self := XiaohongshuCrawlerWithFallback.init Samples.stub_script
                (Samples.fallback_config true) in
  let w := XiaohongshuCrawlerWithFallback.fresh_world in
  let run := XiaohongshuCrawlerWithFallback.crawl_hot_search_online
               Samples.stub_script Samples.slow Samples.half Samples.clock
               self BaseCrawler.start w in
  (exists p : Models.HotSearchResult,
     fst (fst (fst run)) = Some p /\ Models.total p = 2) /\
  snd run = w /\
  BaseCrawler.count_requests (BaseCrawler.trace (snd (fst run))) = 2%nat.
Proof.
  intros self w run.
  destruct (online_crawl_order Samples.stub_script Samples.slow Samples.half
              Samples.clock self w) as (_ & Hat & _).
  - repeat split; vm_compute; discriminate.
  - intros k. split; vm_compute; discriminate.
  - destruct (XiaohongshuCrawler._parse_hot_search_data Samples.clock
                (XiaohongshuCrawler.init (Samples.fallback_config true))
                Samples.page) as [p|] eqn:Hp; [|vm_compute in Hp; discriminate].
    assert (Models.total p = 2) as Htotal.
    { pose proof Hp as Hp'. vm_compute in Hp'. injection Hp' as <-.
      reflexivity. }
    destruct (Hat 1%nat Samples.page p) as [Hrun Hcount].
    + vm_compute. reflexivity.
    + intros i Hi. assert (i = 0%nat) as -> by lia. reflexivity.
    + reflexivity.
    + exact Hp.
    + rewrite Htotal. reflexivity.
    + fold run in Hrun, Hcount. split; [|split].
      * exists p. split; [by rewrite Hrun|exact Htotal].
      * by rewrite Hrun.
      * exact Hcount.
Defined.

Section StockCrawler.
Import Py Models BaseCrawler XiaohongshuCrawlerWithFallback.
Context `{DateTimeLib}.
Variable sc : script.
Variable net : transport XiaohongshuCrawler.page_body.
Variable g : rng.
Variable now : datetime.

Lemma primary_run (self : XiaohongshuCrawler.t) (r : run) :
  snd (XiaohongshuCrawler.crawl_hot_search net g now self r)
  = snd (_make_request (XiaohongshuCrawler.config self) net g r).
Proof.
  unfold XiaohongshuCrawler.crawl_hot_search.
  by destruct (_make_request _ _ _ _) as [[d|] r'].
Qed.

(** What [crawl_hot_search] answers is never an empty result. *)
Lemma crawl_answer (primary : option HotSearchResult) (self : t) (w : world)
    (r : HotSearchResult) :
  (forall p, primary = Some p -> total p = Z.of_nat (length (items p))) ->
  fst (fst (crawl_hot_search sc now primary self w)) = Some r ->
  0 < total r /\ total r = Z.of_nat (length (items r)) /\
  (primary = Some r \/
   exists s w0 w1, limit (config s) = limit (config self) /\
                   _crawl_with_playwright sc now s w0 = (Some r, w1)).
Proof.
  intros Hp. unfold crawl_hot_search.
  assert (fst (fst (browser_fallback sc now self w)) = Some r ->
          0 < total r /\ total r = Z.of_nat (length (items r)) /\
          exists s w0 w1, limit (config s) = limit (config self) /\
                          _crawl_with_playwright sc now s w0 = (Some r, w1))
    as Hfb.
  { unfold browser_fallback. destruct (use_playwright self) eqn:Hu; [|done].
    assert (config (snd (fst (_setup_playwright sc self w))) = config self)
      as Hcfg.
    { unfold _setup_playwright. rewrite Hu. cbn [negb].
      destruct (start_ok sc); [|done]. cbn [negb].
      by destruct (launch_ok sc). }
    destruct (_setup_playwright sc self w) as [[ok self'] w'].
    cbn [fst snd] in Hcfg. destruct ok; [|done].
    destruct (_crawl_with_playwright sc now self' w') as [res w''] eqn:E.
    cbn [fst]. intros ->.
    destruct (crawl_with_playwright_total sc now _ _ _ _ E) as [Hpos Ht].
    split; [done|]. split; [done|]. exists self', w', w''.
    by rewrite Hcfg. }
  destruct primary as [p|].
  - destruct (Z.ltb_spec 0 (total p)).
    + cbn [fst]. intros [= <-]. split; [done|]. split; [by apply Hp|].
      by left.
    + intros Hr. destruct (Hfb Hr) as (? & ? & ?). auto.
  - intros Hr. destruct (Hfb Hr) as (? & ? & ?). auto.
Qed.

(** X13.  The crawler that [create_crawler_with_fallback] makes, on any
    network and with any browser: one to three requests are sent, at
    most 24 seconds are slept between and before them, the text of at
    most 50 of the matched elements is read in the browser (the script
    elements of the page are read besides, however many there are), and
    the answer is [None] or a result of 1 to 50 items whose [total] is
    its item count. *)
Theorem stock_crawler_budget (w : world) :
  unit_interval g ->
  let run :=
    crawl_hot_search_online sc net g now (create_crawler_with_fallback sc)
      start w in
  (1 <= count_requests (trace (snd (fst run))) <= 3)%nat /\
  (slept (trace (snd (fst run))) <= 24)%Q /\
  (exists k : nat,
     (k <= 50)%nat /\
     texts_read (calls (snd run)) = texts_read (calls w) ++ seq 0 k) /\
  (forall r : HotSearchResult,
     fst (fst (fst run)) = Some r ->
     total r = Z.of_nat (length (items r)) /\ 0 < total r <= 50).
Proof.
  intros Hg run. subst run. rewrite online_unfold. cbn zeta. cbn [fst snd].
  set (self := create_crawler_with_fallback sc).
  set (config0 := config self).
  assert (max_retries config0 = 3 /\ request_delay config0 = 3 /\
          limit config0 = 50) as (Hmr & Hrd & Hlim) by done.
  rewrite primary_run. cbn [XiaohongshuCrawler.config XiaohongshuCrawler.init].
  fold config0.
  destruct (make_request_trace config0 net g) as (j & Hj & Htrace); [lia|].
  rewrite Htrace.
  split; [|split; [|split]].
  - rewrite count_requests_app.
    destruct (after_failures_counts config0 g j) as [-> _]. cbn. lia.
  - destruct (slept_run config0 g j Hg) as [_ Hupper].
    eapply Qle_trans; [exact Hupper|].
    change 24%Q with (inject_Z 24). rewrite <- Zle_Qle. rewrite Hrd.
    assert (j = 0 \/ j = 1 \/ j = 2)%nat as [-> | [-> | ->]] by lia; done.
  - set (primary := XiaohongshuCrawler.crawl_hot_search net g now
                      (XiaohongshuCrawler.init config0) start).
    unfold crawl_hot_search.
    assert (exists k : nat,
              (k <= 50)%nat /\
              texts_read (calls (snd (browser_fallback sc now self w)))
              = texts_read (calls w) ++ seq 0 k) as Hfb.
    { unfold browser_fallback.
      destruct (use_playwright self) eqn:Hu;
        [|exists 0%nat; split; [lia|by rewrite app_nil_r]].
      unfold _setup_playwright. rewrite Hu. cbn [negb].
      destruct (start_ok sc); cbn [negb];
        [|exists 0%nat; split; [lia|]; cbn [snd calls record_call];
          rewrite texts_read_snoc; cbn [seq]; by rewrite !app_nil_r].
      destruct (launch_ok sc); cbn [negb];
        [|exists 0%nat; split; [lia|];
          cbn [snd calls record_call acquire];
          rewrite !texts_read_snoc; cbn [seq]; by rewrite !app_nil_r].
      cbn [acquire record_call].
      match goal with
      | |- context [_crawl_with_playwright sc now ?s ?w0] =>
          destruct (crawl_with_playwright_reads sc now s w0) as (k & Hk & Hr);
          destruct (_crawl_with_playwright sc now s w0) as [res w1]
      end.
      cbn [snd config calls record_call] in *. fold config0 in Hk.
      rewrite Hlim in Hk.
      rewrite !texts_read_snoc, !app_nil_r in Hr.
      exists k. split; [lia|exact Hr]. }
    destruct (fst primary) as [p|]; [|exact Hfb].
    destruct (0 <? total p); [|exact Hfb].
    exists 0%nat. split; [lia|]. by rewrite app_nil_r.
  - intros r Hr.
    assert (forall p,
              fst (XiaohongshuCrawler.crawl_hot_search net g now
                     (XiaohongshuCrawler.init config0) start) = Some p ->
              total p = Z.of_nat (length (items p)) /\ total p <= 50) as Hprim.
    { intros p. unfold XiaohongshuCrawler.crawl_hot_search.
      destruct (_make_request _ _ _ _) as [[d|] r0]; [|done].
      cbn [fst]. intros Hpd.
      destruct (XiaohongshuCrawler.b_data d) as [l|] eqn:El.
      - destruct (page_parse_items now (XiaohongshuCrawler.init config0) d l El)
          as (r' & Hr' & Hi & Ht).
        rewrite Hr' in Hpd. injection Hpd as ->. split; [exact Ht|].
        rewrite Ht, Hi.
        pose proof (omap_length_le (XiaohongshuCrawler.entry_item now)
                      (enumerate_from 0
                         (slice_to l (XiaohongshuCrawler.limit
                                        (XiaohongshuCrawler.init config0)))))
          as Hle.
        rewrite enumerate_from_length in Hle.
        destruct (slice_to_length l (XiaohongshuCrawler.limit
                                       (XiaohongshuCrawler.init config0)))
          as [_ Hl].
        cbn [XiaohongshuCrawler.limit XiaohongshuCrawler.init] in *.
        rewrite Hlim in Hl, Hle |- *. lia.
      - unfold XiaohongshuCrawler._parse_hot_search_data in Hpd.
        by rewrite El in Hpd. }
    destruct (crawl_answer _ self w r (fun p Hp => proj1 (Hprim p Hp)) Hr)
      as (Hpos & Ht & Hfrom).
    split; [exact Ht|]. split; [exact Hpos|].
    destruct Hfrom as [Hp|(s & w0 & w1 & Hcfg & Hrun)].
    + by destruct (Hprim r Hp).
    + destruct (crawl_with_playwright_Some sc now _ _ _ _ Hrun)
        as (w2 & we & Hx).
      destruct (extract_page_Some sc now _ _ _ _ Hx) as (n & Hn & Hi).
      rewrite Ht, Hi.
      match goal with
      | |- Z.of_nat (length (omap ?f ?l)) <= _ =>
          pose proof (omap_length_le f l) as Hle
      end.
      rewrite range_length in Hle. fold config0 in Hcfg.
      rewrite Hcfg, Hlim in Hle |- *. lia.
Qed.

End StockCrawler.

Lemma stock_crawler_budget_witness :
  let run := XiaohongshuCrawlerWithFallback.crawl_hot_search_online
               Samples.stub_script Samples.offline Samples.half Samples.clock
               (XiaohongshuCrawlerWithFallback.create_crawler_with_fallback
                  Samples.stub_script)
               BaseCrawler.start XiaohongshuCrawlerWithFallback.fresh_world in
  BaseCrawler.count_requests (BaseCrawler.trace (snd (fst run))) = 3%nat /\
  (BaseCrawler.slept (BaseCrawler.trace (snd (fst run))) <= 24)%Q /\
  exists r : Models.HotSearchResult,
    fst (fst (fst run)) = Some r /\ 0 < Models.total r <= 50.
Proof.
  intros run.
  destruct (stock_crawler_budget Samples.stub_script Samples.offline
              Samples.half Samples.clock
              XiaohongshuCrawlerWithFallback.fresh_world)
    as (_ & Hslept & _ & Hres).
  - intros k. split; vm_compute; discriminate.
  - fold run in Hslept, Hres. split; [reflexivity|]. split; [exact Hslept|].
    destruct (fst (fst (fst run))) as [r|] eqn:E;
      [|vm_compute in E; discriminate].
    exists r. split; [reflexivity|]. by destruct (Hres r eq_refl).
Defined.

(** * Loading and saving *)

Section Loading.
Import Py Models DataSaver.
Context `{DateTimeLib}.

Lemma item_of_dict_readable (now : datetime) (d : item_dict) :
  is_Some (item_of_dict now d) <-> readable d.
Proof.
  unfold item_of_dict, readable.
  destruct (j_word d) as [w|]; cbn; [|split; [by intros []|by intros [[] _]]].
  destruct (j_heat d) as [h|]; cbn;
    [|split; [by intros []|by intros (_ & [] & _)]].
  destruct (j_rank d) as [r|]; cbn;
    [|split; [by intros []|by intros (_ & _ & [] & _)]].
  destruct (j_url d) as [u|]; cbn;
    [|split; [by intros []|by intros (_ & _ & _ & [] & _)]].
  destruct (j_created_at d) as [s|]; cbn.
  - destruct (fromisoformat s) as [c|] eqn:E; cbn.
    + split; [|by eexists]. intros _.
      do 4 (split; [by eexists|]). intros s' [= <-]. by rewrite E.
    + split; [by intros []|]. intros (_ & _ & _ & _ & Hs).
      destruct (Hs s eq_refl) as [c Hc]. congruence.
  - rewrite fromisoformat_isoformat. cbn.
    split; [|by eexists]. intros _. do 4 (split; [by eexists|]). done.
Qed.

Lemma item_of_dict_fields (now : datetime) (d : item_dict)
    (it : HotSearchItem) :
  item_of_dict now d = Some it ->
  j_word d = Some (word it) /\ j_heat d = Some (heat it) /\
  j_rank d = Some (rank it) /\ j_url d = Some (url it) /\
  category it = j_category d /\ tags it = default [] (j_tags d).
Proof.
  unfold item_of_dict.
  destruct (j_word d) as [w|]; cbn; [|done].
  destruct (j_heat d) as [h|]; cbn; [|done].
  destruct (j_rank d) as [r|]; cbn; [|done].
  destruct (j_url d) as [u|]; cbn; [|done].
  destruct (fromisoformat _) as [c|]; cbn; [|done].
  by intros [= <-].
Qed.

(** The loop of [load_json] either reads every entry or gives up. *)
Lemma load_items_spec (now : datetime) (l : list item_dict)
    (r0 : HotSearchResult) :
  (is_Some (load_items now l r0) <-> Forall readable l) /\
  forall r, load_items now l r0 = Some r ->
    exists its,
      r = fold_left add_item its r0 /\
      Forall2 (fun d it => item_of_dict now d = Some it) l its.
Proof.
  revert r0. induction l as [|d l IH]; intros r0.
  - split; [split; [constructor|by eexists]|].
    intros r [= <-]. exists []. by split; [|constructor].
  - cbn [load_items]. pose proof (item_of_dict_readable now d) as Hd.
    destruct (item_of_dict now d) as [it|] eqn:E; cbn.
    + destruct (IH (add_item r0 it)) as [Hs Hr]. split.
      * rewrite Hs. split.
        -- intros Hl. constructor; [|done]. apply Hd. by eexists.
        -- by intros [_ Hl]%Forall_cons.
      * intros r Hload. destruct (Hr r Hload) as (its & -> & Hall).
        exists (it :: its). split; [done|]. by constructor.
    + split; [|done]. split; [by intros []|].
      intros [Hx _]%Forall_cons. apply Hd in Hx. by destruct Hx.
Qed.

(** X14.  [load_json] is all or nothing.  It returns a result exactly
    when the file is in the data directory, its [crawl_time], if any, is
    in ISO format, and every listed entry is readable; one entry without
    [word], [heat], [rank] or [url], or with an unreadable date, makes
    the whole load return [None], whatever the other entries hold. *)
Theorem load_json_all_or_nothing (self : t) (now : datetime)
    (filename : pystr) (fs : filesystem) :
  (is_Some (load_json self now filename fs) <->
   exists doc,
     fs !! join (data_dir self) filename = Some doc /\
     (forall s, j_crawl_time doc = Some s -> is_Some (fromisoformat s)) /\
     Forall readable (default [] (j_items doc))) /\
  (forall doc d,
     fs !! join (data_dir self) filename = Some doc ->
     In d (default [] (j_items doc)) ->
     j_word d = None \/ j_heat d = None \/ j_rank d = None \/ j_url d = None ->
     load_json self now filename fs = None).
Proof.
  assert (is_Some (load_json self now filename fs) <->
          exists doc,
            fs !! join (data_dir self) filename = Some doc /\
            (forall s, j_crawl_time doc = Some s -> is_Some (fromisoformat s)) /\
            Forall readable (default [] (j_items doc))) as Hiff.
  { unfold load_json.
    destruct (fs !! join (data_dir self) filename) as [doc|]; cbn;
      [|split; [by intros []|by intros (? & [=] & _)]].
    destruct (j_crawl_time doc) as [s|] eqn:Ec; cbn.
    - destruct (fromisoformat s) as [ct|] eqn:Ef; cbn.
      + rewrite (proj1 (load_items_spec now _ _)). split.
        * intros Hl. exists doc. split; [done|]. split; [|done].
          intros s' Hs'. assert (s' = s) as -> by congruence. by rewrite Ef.
        * by intros (doc' & [= <-] & _ & Hl).
      + split; [by intros []|]. intros (doc' & [= <-] & Hs & _).
        destruct (Hs s Ec) as [c Hc]. congruence.
    - rewrite fromisoformat_isoformat. cbn.
      rewrite (proj1 (load_items_spec now _ _)). split.
      + intros Hl. exists doc. split; [done|]. split; [|done].
        intros s' Hs'. congruence.
      + by intros (doc' & [= <-] & _ & Hl). }
  split; [exact Hiff|].
  intros doc d Hdoc Hin Hmiss.
  destruct (load_json self now filename fs) as [r|] eqn:E; [|done].
  exfalso. destruct (proj1 Hiff) as (doc' & Hdoc' & _ & Hall); [by eexists|].
  rewrite Hdoc in Hdoc'. injection Hdoc' as <-.
  rewrite List.Forall_forall in Hall.
  destruct (Hall d Hin) as ([] & [] & [] & [] & _).
  destruct Hmiss as [|[|[|]]]; congruence.
Qed.

(** X15.  What [load_json] returns: one item per listed entry, in order,
    with the fields of the entry, a missing [category] read as none and
    missing [tags] as the empty list; the stored [source], or the
    default one; and a [total] that is the number of entries listed -
    the stored [total] (or 0) survives only when no entry is listed. *)
Theorem load_json_contents (self : t) (now : datetime)
    (filename : pystr) (fs : filesystem) (doc : data_dict)
    (r : HotSearchResult) :
  fs !! join (data_dir self) filename = Some doc ->
  load_json self now filename fs = Some r ->
  Forall2 (fun d it =>
             j_word d = Some (word it) /\ j_heat d = Some (heat it) /\
             j_rank d = Some (rank it) /\ j_url d = Some (url it) /\
             category it = j_category d /\ tags it = default [] (j_tags d))
          (default [] (j_items doc)) (items r) /\
  source r = default (str "xiaohongshu") (j_source doc) /\
  total r = match default [] (j_items doc) with
            | [] => default 0 (j_total doc)
            | l => Z.of_nat (length l)
            end.
Proof.
  intros Hdoc. unfold load_json. rewrite Hdoc. cbn [mbind option_bind].
  destruct (fromisoformat _) as [ct|]; cbn [mbind option_bind]; [|done].
  intros Hload.
  destruct (proj2 (load_items_spec now _ _) r Hload) as (its & -> & Hall).
  rewrite fold_add_item_items. cbn [items app].
  destruct (fold_add_item_fixed its
              {| items := []; total := default 0 (j_total doc);
                 crawl_time := ct;
                 source := default (str "xiaohongshu") (j_source doc) |})
    as [_ ->].
  split; [|split; [done|]].
  - eapply Forall2_impl; [exact Hall|]. intros d it. apply item_of_dict_fields.
  - pose proof (Forall2_length _ _ _ Hall) as Hlen.
    destruct Hall as [|d it l its' Hd Hl]; [done|].
    cbn [fold_left]. rewrite fold_add_item_total by done.
    rewrite fold_add_item_items. cbn [items add_item app length] in *.
    lia.
Qed.

End Loading.

Section Saving.
Import Py Models DataSaver.
Context `{DateTimeLib}.

Lemma join_inj (p : path) (f1 f2 : pystr) : join p f1 = join p f2 -> f1 = f2.
Proof. unfold join. intros Heq. by apply app_inj_tail in Heq as [_ ?]. Qed.

(** Loading what was just written for a consistent result. *)
Lemma load_written (self : t) (now : datetime) (data : HotSearchResult)
    (f : pystr) (fs : filesystem) :
  total data = Z.of_nat (length (items data)) ->
  load_json self now f
    (<[join (data_dir self) f :=
         {| j_total := Some (total data);
            j_crawl_time := Some (isoformat (crawl_time data));
            j_source := Some (source data);
            j_items := Some (map item_to_dict (items data)) |}]> fs)
  = Some data.
Proof.
  intros Ht. unfold load_json. rewrite lookup_insert_eq. cbn.
  rewrite fromisoformat_isoformat. cbn.
  rewrite load_items_to_dict. f_equal. by apply rebuild.
Qed.

Lemma save_json_in_data_dir (self : t) (now : datetime)
    (data : HotSearchResult) (f : pystr) (flag : bool) (fs : filesystem) :
  f <> [] ->
  flag = false \/ current_session_dir self = None ->
  save_json self now data (Some f) flag fs
  = (join (data_dir self) f,
     <[join (data_dir self) f :=
         {| j_total := Some (total data);
            j_crawl_time := Some (isoformat (crawl_time data));
            j_source := Some (source data);
            j_items := Some (map item_to_dict (items data)) |}]> fs).
Proof.
  intros Hf Hdir. unfold save_json. destruct f as [|c f]; [done|].
  destruct Hdir as [-> | ->]; [done|]. by destruct flag.
Qed.

(** X16.  [save_json] writes one file and leaves every other path as it
    was.  The file is named as asked, or after the time of the call when
    the name is missing or empty.  In the data directory the last write
    under a name is what [load_json] returns for it, and a file saved
    under another name stays loadable.  (File names are plain names, and
    writing a file succeeds.) *)
Theorem save_json_frame (self : t) (now : datetime) (data : HotSearchResult)
    (filename : option pystr) (flag : bool) (fs : filesystem) :
  (forall f, filename = Some f -> f <> [] -> plain_name f) ->
  let saved := save_json self now data filename flag fs in
  (forall p, p <> fst saved -> snd saved !! p = fs !! p) /\
  (forall f, filename = Some f -> f <> [] -> name (fst saved) = f) /\
  (filename = None \/ filename = Some [] ->
   name (fst saved)
   = str "xiaohongshu_hot_search_" ++ strftime_compact now ++ str ".json") /\
  (forall (now2 now' : datetime) (data2 : HotSearchResult) (f1 f2 : pystr),
     filename = Some f1 ->
     f1 <> [] -> plain_name f2 ->
     flag = false \/ current_session_dir self = None ->
     total data = Z.of_nat (length (items data)) ->
     total data2 = Z.of_nat (length (items data2)) ->
     let fs2 := snd (save_json self now2 data2 (Some f2) flag (snd saved)) in
     load_json self now' f2 fs2 = Some data2 /\
     (f1 <> f2 -> load_json self now' f1 fs2 = Some data)).
Proof.
  intros _ saved. subst saved. split; [|split; [|split]].
  - intros p Hp. unfold save_json in *. cbn [fst snd] in *.
    by rewrite lookup_insert_ne.
  - intros f -> Hf. unfold save_json. cbn [fst].
    destruct f as [|c f]; [done|].
    destruct flag, (current_session_dir self); apply name_join.
  - intros Hf. unfold save_json. cbn [fst].
    destruct Hf as [-> | ->];
      destruct flag, (current_session_dir self); apply name_join.
  - intros now2 now' data2 f1 f2 -> Hf1 [Hf2 _] Hdir Ht Ht2 fs2. subst fs2.
    rewrite (save_json_in_data_dir self now data f1) by done.
    rewrite (save_json_in_data_dir self now2 data2 f2) by done.
    cbn [snd]. split; [by apply load_written|].
    intros Hne. rewrite insert_insert_ne.
    2:{ intros Heq. apply join_inj in Heq. congruence. }
    by apply load_written.
Qed.


End Saving.

Lemma load_json_all_or_nothing_witness :
  DataSaver.load_json Samples.saver Samples.clock (Py.str "a.json")
    (<[[Py.str "data"; Py.str "a.json"] := Samples.damaged_document]> ∅)
  = None /\
  is_Some
    (DataSaver.load_json Samples.saver Samples.clock (Py.str "a.json")
       (<[[Py.str "data"; Py.str "a.json"] := Samples.sound_document]> ∅)).
Proof.
  split.
  - destruct (load_json_all_or_nothing Samples.saver Samples.clock
                (Py.str "a.json")
                (<[[Py.str "data"; Py.str "a.json"]
                   := Samples.damaged_document]> ∅)) as [_ Hnone].
    apply (Hnone Samples.damaged_document (Samples.stored_item None 2)).
    + apply lookup_insert_eq.
    + right. left. reflexivity.
    + left. reflexivity.
  - destruct (load_json_all_or_nothing Samples.saver Samples.clock
                (Py.str "a.json")
                (<[[Py.str "data"; Py.str "a.json"]
                   := Samples.sound_document]> ∅)) as [Hiff _].
    apply Hiff. exists Samples.sound_document. split; [|split].
    + apply lookup_insert_eq.
    + intros s Hs. discriminate Hs.
    + repeat constructor; try (by eexists); intros s Hs; discriminate Hs.
Defined.

Lemma load_json_contents_witness :
  exists r : Models.HotSearchResult,
    DataSaver.load_json Samples.saver Samples.clock (Py.str "a.json")
      (<[[Py.str "data"; Py.str "a.json"] := Samples.sound_document]> ∅)
    = Some r /\
    map Models.word (Models.items r) = [Py.str "a"; Py.str "b"] /\
    Models.source r = Py.str "xiaohongshu" /\
    Models.total r = 2.
Proof.
  destruct (DataSaver.load_json Samples.saver Samples.clock (Py.str "a.json")
              (<[[Py.str "data"; Py.str "a.json"]
                 := Samples.sound_document]> ∅)) as [r|] eqn:E.
  - destruct (load_json_contents Samples.saver Samples.clock (Py.str "a.json")
                _ Samples.sound_document r (lookup_insert_eq _ _ _) E)
      as (Hitems & Hsource & Htotal).
    exists r. split; [reflexivity|]. split; [|split; [exact Hsource|exact Htotal]].
    apply Forall2_cons_inv_l in Hitems as (i1 & l1 & (H1 & _) & Hitems & ->).
    apply Forall2_cons_inv_l in Hitems as (i2 & l2 & (H2 & _) & Hitems & ->).
    apply Forall2_nil_inv_l in Hitems as ->.
    cbn [map]. injection H1 as <-. injection H2 as <-. reflexivity.
  - exfalso. revert E. unfold DataSaver.load_json.
    rewrite (lookup_insert_eq (M:=gmap DataSaver.path)). vm_compute. discriminate.
Defined.

Lemma save_json_frame_witness :
  let first := DataSaver.save_json Samples.saver Samples.clock Samples.three
                 (Some (Py.str "a.json")) false ∅ in
  let second := DataSaver.save_json Samples.saver Samples.clock Samples.zeros
                  (Some (Py.str "b.json")) false (snd first) in
  DataSaver.name (fst first) = Py.str "a.json" /\
  DataSaver.load_json Samples.saver Samples.clock (Py.str "b.json")
    (snd second) = Some Samples.zeros /\
  DataSaver.load_json Samples.saver Samples.clock (Py.str "a.json")
    (snd second) = Some Samples.three.
Proof.
  intros first second.
  assert (DataSaver.plain_name (Py.str "a.json")) as Ha.
  { unfold DataSaver.plain_name. repeat split; try discriminate;
      vm_compute; intuition discriminate. }
  assert (DataSaver.plain_name (Py.str "b.json")) as Hb.
  { unfold DataSaver.plain_name. repeat split; try discriminate;
      vm_compute; intuition discriminate. }
  destruct (save_json_frame Samples.saver Samples.clock Samples.three
              (Some (Py.str "a.json")) false ∅) as (_ & Hname & _ & Hload).
  { intros f Hf _. injection Hf as <-. exact Ha. }
  split; [apply (Hname _ eq_refl); discriminate|].
  destruct (Hload Samples.clock Samples.clock Samples.zeros (Py.str "a.json")
              (Py.str "b.json") eq_refl) as [Hsecond Hfirst].
  - discriminate.
  - exact Hb.
  - left. reflexivity.
  - reflexivity.
  - reflexivity.
  - split; [exact Hsecond|]. apply Hfirst. discriminate.
Defined.


(** * Grouping and keywords *)

Section Categorize.
Import Py Models Analysis.
Context `{DateTimeLib}.

Lemma categorize_step_get (d : dict (list HotSearchItem))
    (it : HotSearchItem) (k : pystr) :
  dict_get (categorize_step d it) k
  = if decide (k = category_key it)
    then Some (default [] (dict_get d k) ++ [it])
    else dict_get d k.
Proof.
  unfold categorize_step, dict_mem. rewrite dict_get_set.
  destruct (decide (k = category_key it)) as [->|Hne].
  - destruct (dict_get d (category_key it)) as [g|] eqn:E; [by rewrite E|].
    rewrite dict_get_set. by destruct (decide _).
  - destruct (dict_get d (category_key it)) as [g|] eqn:E; [done|].
    rewrite dict_get_set. by destruct (decide (k = category_key it)).
Qed.

Lemma categorize_step_NoDup (d : dict (list HotSearchItem))
    (it : HotSearchItem) :
  List.NoDup (map fst d) -> List.NoDup (map fst (categorize_step d it)).
Proof.
  intros Hd. unfold categorize_step.
  destruct (dict_mem d (category_key it)); by repeat apply dict_set_NoDup.
Qed.

Lemma fold_categorize_get (items : list HotSearchItem)
    (d : dict (list HotSearchItem)) (k : pystr) :
  dict_get (fold_left categorize_step items d) k
  = match dict_get d k,
          List.filter (fun it => bool_decide (category_key it = k)) items with
    | None, [] => None
    | g, l => Some (default [] g ++ l)
    end.
Proof.
  revert d. induction items as [|it items IH]; intros d.
  - cbn. destruct (dict_get d k); [|done]. by rewrite app_nil_r.
  - cbn [fold_left List.filter]. rewrite IH, categorize_step_get.
    destruct (decide (k = category_key it)) as [->|Hne].
    + rewrite bool_decide_eq_true_2 by done.
      destruct (dict_get d (category_key it)) as [g|]; simpl;
        by rewrite <- ?app_assoc.
    + rewrite bool_decide_eq_false_2 by congruence. done.
Qed.

Lemma fold_categorize_NoDup (items : list HotSearchItem)
    (d : dict (list HotSearchItem)) :
  List.NoDup (map fst d) ->
  List.NoDup (map fst (fold_left categorize_step items d)).
Proof.
  revert d. induction items as [|it items IH]; intros d Hd; [done|].
  cbn [fold_left]. by apply IH, categorize_step_NoDup.
Qed.

(** Replacing or adding a group changes the concatenation of the groups
    by what the group gained. *)
Lemma dict_set_concat (d : dict (list HotSearchItem)) (k : pystr)
    (extra : list HotSearchItem) :
  concat (map snd (dict_set d k (default [] (dict_get d k) ++ extra)))
  ≡ₚ concat (map snd d) ++ extra.
Proof.
  induction d as [|[k0 g0] d IH]; cbn [dict_set dict_get map concat].
  - cbn. by rewrite app_nil_r.
  - destruct (decide (k = k0)) as [->|Hne]; cbn [map concat snd default].
    + rewrite <- !app_assoc. apply Permutation_app_head, Permutation_app_comm.
    + rewrite IH. by rewrite app_assoc.
Qed.

Lemma categorize_step_concat (d : dict (list HotSearchItem))
    (it : HotSearchItem) :
  concat (map snd (categorize_step d it)) ≡ₚ concat (map snd d) ++ [it].
Proof.
  unfold categorize_step, dict_mem.
  destruct (dict_get d (category_key it)) as [g|] eqn:E.
  - apply dict_set_concat.
  - rewrite dict_set_concat.
    pose proof (dict_set_concat d (category_key it) []) as Hd.
    rewrite E in Hd. cbn [default app] in Hd. rewrite Hd.
    by rewrite app_nil_r.
Qed.

Lemma fold_categorize_concat (items : list HotSearchItem)
    (d : dict (list HotSearchItem)) :
  concat (map snd (fold_left categorize_step items d))
  ≡ₚ concat (map snd d) ++ items.
Proof.
  revert d. induction items as [|it items IH]; intros d.
  - cbn. by rewrite app_nil_r.
  - cbn [fold_left]. rewrite IH, categorize_step_concat.
    by rewrite <- app_assoc.
Qed.

(** X18.  [categorize_hot_search_items] partitions the items: the group
    under a key holds exactly the items with that key, in their original
    order, and exists only when there is such an item; no key occurs
    twice and every item is in one group.  An item without a category,
    or with the empty one, goes under the key [other_category] together
    with the items that name that category themselves.  For any other
    category the group is what [filter_by_category] selects. *)
Theorem categorize_partition (result : HotSearchResult) :
  let groups := categorize_hot_search_items (items result) in
  List.NoDup (map fst groups) /\
  (forall k : pystr,
     dict_get groups k
     = match List.filter (fun it => bool_decide (category_key it = k))
               (items result) with
       | [] => None
       | l => Some l
       end) /\
  concat (map snd groups) ≡ₚ items result /\
  (forall it : HotSearchItem,
     category_key it = other_category <->
     category it = None \/ category it = Some [] \/
     category it = Some other_category) /\
  (forall c : pystr,
     c <> [] -> c <> other_category ->
     dict_get groups c
     = match filter_by_category result c with
       | [] => None
       | l => Some l
       end).
Proof.
  intros groups. subst groups. unfold categorize_hot_search_items.
  assert (forall k : pystr,
            dict_get (fold_left categorize_step (items result) []) k
            = match List.filter (fun it => bool_decide (category_key it = k))
                      (items result) with
              | [] => None
              | l => Some l
              end) as Hget.
  { intros k. rewrite fold_categorize_get. cbn [dict_get default app].
    by destruct (List.filter _ _). }
  split; [apply fold_categorize_NoDup; constructor|].
  split; [exact Hget|]. split; [apply (fold_categorize_concat _ [])|].
  split.
  - intros it. unfold category_key.
    destruct (category it) as [[|c s]|].
    + split; [intros _; by right; left|done].
    + split; [intros ->; by right; right|].
      intros [Heq|[Heq|Heq]]; [discriminate..|congruence].
    + split; [intros _; by left|done].
  - intros c Hc Ho. rewrite Hget. unfold filter_by_category.
    assert (forall it, bool_decide (category_key it = c)
                       = bool_decide (category it = Some c)) as Hsame.
    { intros it. apply bool_decide_ext. unfold category_key.
      destruct (category it) as [[|x s]|]; split; try congruence. }
    by rewrite (List.filter_ext _ _ Hsame).
Qed.

End Categorize.

Lemma categorize_partition_witness :
  let groups := Analysis.categorize_hot_search_items
                  (Models.items Samples.mixed) in
  option_map (map Models.rank) (Py.dict_get groups (Py.str "food"))
  = Some [1; 3] /\
  Py.dict_get groups (Py.str "sport") = None.
Proof.
  intros groups.
  destruct (categorize_partition Samples.mixed) as (_ & _ & _ & _ & Hcat).
  fold groups in Hcat. split.
  - rewrite (Hcat (Py.str "food")); [reflexivity|discriminate|discriminate].
  - rewrite (Hcat (Py.str "sport")); [reflexivity|discriminate|discriminate].
Defined.

Section Keywords.
Import Py Models Analysis.
Context `{DateTimeLib}.

(** [split()] gives non-empty words without white space, made of
    characters of the text. *)
Lemma split_ws_words (cur s : pystr) :
  Forall (fun c => is_unicode_space c = false) cur ->
  Forall (fun w => w <> [] /\
                   Forall (fun c => is_unicode_space c = false) w /\
                   forall c, In c w -> In c cur \/ In c s)
         (split_ws cur s).
Proof.
  revert cur. induction s as [|c s IH]; intros cur Hcur.
  - cbn [split_ws]. destruct cur as [|c0 cur]; [constructor|].
    constructor; [|constructor]. split; [|split].
    + intros Hnil. apply (f_equal (@length N)) in Hnil.
      rewrite length_rev in Hnil. done.
    + by apply Forall_rev.
    + intros c Hin. left. by apply in_rev.
  - cbn [split_ws]. destruct (is_unicode_space c) eqn:Ec.
    + assert (Forall (fun w => w <> [] /\
                Forall (fun c0 => is_unicode_space c0 = false) w /\
                forall c0, In c0 w -> In c0 cur \/ In c0 (c :: s))
                (split_ws [] s)) as Hrest.
      { eapply Forall_impl; [apply (IH []); constructor|].
        intros w (Hne & Hsp & Hin). split; [done|]. split; [done|].
        intros c0 Hc0. destruct (Hin c0 Hc0) as [[]|]. right. by right. }
      destruct cur as [|c0 cur]; [exact Hrest|].
      constructor; [|exact Hrest]. split; [|split].
      * intros Hnil. apply (f_equal (@length N)) in Hnil.
        rewrite length_rev in Hnil. done.
      * by apply Forall_rev.
      * intros c1 Hin. left. by apply in_rev.
    + eapply Forall_impl; [apply (IH (c :: cur)); by constructor|].
      intros w (Hne & Hsp & Hin). split; [done|]. split; [done|].
      intros c0 Hc0. destruct (Hin c0 Hc0) as [[<-|]|]; auto.
      * right. by left.
      * right. by right.
Qed.

(** [lstrip] removes a prefix and [rstrip] a suffix. *)
Lemma lstrip_suffix (sp : N -> bool) (s : pystr) :
  exists pre, s = pre ++ lstrip sp s /\
              match lstrip sp s with
              | c :: _ => sp c = false
              | [] => True
              end.
Proof.
  induction s as [|c s (pre & IH & Hh)]; [by exists []|].
  cbn [lstrip]. destruct (sp c) eqn:E.
  - exists (c :: pre). split; [|done]. cbn. by f_equal.
  - by exists [].
Qed.

Lemma rstrip_prefix (sp : N -> bool) (s : pystr) :
  exists post, s = rstrip sp s ++ post /\
               forall c, last (rstrip sp s) = Some c -> sp c = false.
Proof.
  unfold rstrip. destruct (lstrip_suffix sp (rev s)) as (pre & Hs & Hh).
  exists (rev pre). split.
  - rewrite <- rev_app_distr, <- Hs. by rewrite rev_involutive.
  - intros c. destruct (lstrip sp (rev s)) as [|c0 t]; [done|].
    cbn [rev]. rewrite last_snoc. by intros [= <-].
Qed.

Lemma strip_chars_ends (chars : list N) (s : pystr) :
  (forall c, head (strip_chars chars s) = Some c -> c ∉ chars) /\
  (forall c, last (strip_chars chars s) = Some c -> c ∉ chars) /\
  (forall c, In c (strip_chars chars s) -> In c s).
Proof.
  unfold strip_chars.
  set (sp := fun c => bool_decide (c ∈ chars)).
  destruct (lstrip_suffix sp s) as (pre & Hs & Hh).
  destruct (rstrip_prefix sp (lstrip sp s)) as (post & Hr & Hl).
  split; [|split].
  - intros c Hc.
    destruct (rstrip sp (lstrip sp s)) as [|c0 t] eqn:E; [done|].
    injection Hc as ->. rewrite Hr in Hh. cbn in Hh.
    unfold sp in Hh. by apply bool_decide_eq_false in Hh.
  - intros c Hc. specialize (Hl c Hc). unfold sp in Hl.
    by apply bool_decide_eq_false in Hl.
  - intros c Hc. rewrite Hs, Hr. apply in_or_app. right.
    apply in_or_app. by left.
Qed.

(** X19.  [extract_keywords_from_items] returns every keyword once.  A
    word is a keyword exactly when it is what remains of a
    white-space-separated piece of some item's text once the listed
    punctuation is stripped from both ends, and has at least two
    characters.  So a keyword contains no white space, neither starts
    nor ends with a listed punctuation character, and consists of
    characters of the text it came from. *)
Theorem extract_keywords_spec (items : list HotSearchItem) :
  List.NoDup (extract_keywords_from_items items) /\
  (forall k : pystr,
     In k (extract_keywords_from_items items) <->
     exists it w,
       In it items /\ In w (split (word it)) /\
       k = strip_chars punctuation w /\ (2 <= length k)%nat) /\
  Forall (fun k =>
            (2 <= length k)%nat /\
            Forall (fun c => is_unicode_space c = false) k /\
            (forall c, head k = Some c \/ last k = Some c -> c ∉ punctuation) /\
            exists it, In it items /\ forall c, In c k -> In c (word it))
         (extract_keywords_from_items items).
Proof.
  assert (forall k : pystr,
            In k (extract_keywords_from_items items) <->
            exists it w,
              In it items /\ In w (split (word it)) /\
              k = strip_chars punctuation w /\ (2 <= length k)%nat) as Hin.
  { intros k. unfold extract_keywords_from_items, keywords_of.
    rewrite <- list_elem_of_In, elem_of_elements, elem_of_list_to_set.
    rewrite list_elem_of_In, in_flat_map. split.
    - intros (it & Hit & Hk). apply filter_In in Hk as [Hk Hlen].
      apply in_map_iff in Hk as (w & <- & Hw). apply Nat.leb_le in Hlen.
      by exists it, w.
    - intros (it & w & Hit & Hw & -> & Hlen). exists it. split; [done|].
      apply filter_In. split; [by apply in_map|]. by apply Nat.leb_le. }
  split; [|split; [exact Hin|]].
  - unfold extract_keywords_from_items. apply NoDup_ListNoDup, NoDup_elements.
  - apply List.Forall_forall. intros k Hk.
    apply Hin in Hk as (it & w & Hit & Hw & -> & Hlen).
    pose proof (split_ws_words [] (word it) ltac:(constructor)) as Hsplit.
    rewrite List.Forall_forall in Hsplit.
    destruct (Hsplit w Hw) as (Hne & Hsp & Hsub).
    destruct (strip_chars_ends punctuation w) as (Hh & Hl & Hs).
    split; [done|]. split; [|split].
    + apply List.Forall_forall. intros c Hc. apply Hs in Hc.
      rewrite List.Forall_forall in Hsp. by apply Hsp.
    + intros c [Hc|Hc]; [by apply Hh|by apply Hl].
    + exists it. split; [done|]. intros c Hc. apply Hs, Hsub in Hc.
      by destruct Hc as [[]|].
Qed.

End Keywords.

(** * Counters and the analysis report *)

Section CounterFacts.
Import Py Analysis.

Lemma occurrences_cons (x : pystr) (l : list pystr) (k : pystr) :
  occurrences (x :: l) k
  = (if decide (x = k) then 1 else 0) + occurrences l k.
Proof.
  unfold occurrences. cbn [List.filter].
  destruct (decide (x = k)) as [->|Hne].
  - rewrite bool_decide_eq_true_2 by done. cbn [length]. lia.
  - rewrite bool_decide_eq_false_2 by done. lia.
Qed.

Lemma occurrences_nonneg (l : list pystr) (k : pystr) : 0 <= occurrences l k.
Proof. unfold occurrences. lia. Qed.

Lemma occurrences_pos (l : list pystr) (k : pystr) :
  0 < occurrences l k <-> In k l.
Proof.
  induction l as [|x l IH]; [unfold occurrences; cbn; split; [lia|done]|].
  rewrite occurrences_cons. pose proof (occurrences_nonneg l k).
  destruct (decide (x = k)) as [->|Hne]; cbn [In].
  - split; [by left|lia].
  - rewrite Z.add_0_l, IH. split; [by right|]. by intros [|].
Qed.

Lemma counter_add_get (c : dict Z) (x k : pystr) :
  dict_get (counter_add c x) k
  = if decide (k = x) then Some (default 0 (dict_get c x) + 1)
    else dict_get c k.
Proof. unfold counter_add. apply dict_get_set. Qed.

Lemma fold_counter_get (l : list pystr) (c : dict Z) (k : pystr) :
  dict_get (fold_left counter_add l c) k
  = match dict_get c k with
    | Some m => Some (m + occurrences l k)
    | None => if occurrences l k =? 0 then None else Some (occurrences l k)
    end.
Proof.
  revert c. induction l as [|x l IH]; intros c.
  - cbn [fold_left]. change (occurrences [] k) with 0.
    destruct (dict_get c k); [|done]. by rewrite Z.add_0_r.
  - cbn [fold_left]. rewrite IH, counter_add_get, occurrences_cons.
    pose proof (occurrences_nonneg l k).
    destruct (decide (k = x)) as [->|Hne].
    + destruct (decide (x = x)); [|done].
      destruct (dict_get c x) as [m|]; unfold default, from_option, id.
      * f_equal. lia.
      * destruct (Z.eqb_spec (1 + occurrences l x) 0); [lia|done].
    + destruct (decide (x = k)); [congruence|]. by rewrite Z.add_0_l.
Qed.

Lemma Counter_get (l : list pystr) (k : pystr) :
  dict_get (Counter l) k
  = if occurrences l k =? 0 then None else Some (occurrences l k).
Proof. unfold Counter. by rewrite fold_counter_get. Qed.

Lemma Counter_NoDup (l : list pystr) : List.NoDup (map fst (Counter l)).
Proof.
  unfold Counter.
  assert (forall c, List.NoDup (map fst c) ->
                    List.NoDup (map fst (fold_left counter_add l c))) as Hgen.
  { induction l as [|x l IH]; intros c Hc; [done|].
    cbn [fold_left]. apply IH. by apply dict_set_NoDup. }
  apply Hgen. constructor.
Qed.

Lemma Counter_In (l : list pystr) (k : pystr) (c : Z) :
  In (k, c) (Counter l) <-> c = occurrences l k /\ 0 < c.
Proof.
  rewrite dict_get_In by apply Counter_NoDup. rewrite Counter_get.
  pose proof (occurrences_nonneg l k).
  destruct (Z.eqb_spec (occurrences l k) 0) as [E|E].
  - split; [done|]. lia.
  - split; [intros [= <-]; lia|]. by intros [-> _].
Qed.

(** The order that [most_common] establishes. *)
Lemma insert_by_count_perm (x : pystr * Z) (l : dict Z) :
  insert_by_count x l ≡ₚ x :: l.
Proof.
  induction l as [|y l IH]; [done|]. cbn [insert_by_count].
  destruct (snd y <? snd x); [done|]. rewrite IH. apply perm_swap.
Qed.

Lemma insert_by_count_sorted (x : pystr * Z) (l : dict Z) :
  StronglySorted (fun a b => snd b <= snd a) l ->
  StronglySorted (fun a b => snd b <= snd a) (insert_by_count x l).
Proof.
  induction 1 as [|y l Hs IH Hy]; cbn [insert_by_count].
  - repeat constructor.
  - destruct (Z.ltb_spec (snd y) (snd x)).
    + constructor; [by constructor|].
      constructor; [lia|]. eapply Forall_impl; [exact Hy|].
      simpl. intros b. lia.
    + constructor; [exact IH|].
      rewrite insert_by_count_perm. by constructor.
Qed.

Lemma by_count_spec (c : dict Z) (acc : dict Z) :
  StronglySorted (fun a b => snd b <= snd a) acc ->
  fold_left (fun acc x => insert_by_count x acc) c acc ≡ₚ acc ++ c /\
  StronglySorted (fun a b => snd b <= snd a)
    (fold_left (fun acc x => insert_by_count x acc) c acc).
Proof.
  revert acc. induction c as [|x c IH]; intros acc Hacc.
  - cbn. by rewrite app_nil_r.
  - cbn [fold_left].
    destruct (IH (insert_by_count x acc)) as [Hp Hs];
      [by apply insert_by_count_sorted|].
    split; [|exact Hs]. rewrite Hp, insert_by_count_perm.
    cbn [app]. apply Permutation_middle.
Qed.

Lemma most_common_spec (n : nat) (l : list pystr) :
  most_frequent n l (most_common n (Counter l)).
Proof.
  unfold most_common.
  destruct (by_count_spec (Counter l) []) as [Hp Hs]; [constructor|].
  cbn [app] in Hp.
  set (sorted := fold_left (fun acc x => insert_by_count x acc)
                   (Counter l) []) in *.
  assert (List.NoDup (map fst sorted)) as Hnd.
  { eapply Permutation_NoDup; [|apply (Counter_NoDup l)].
    symmetry. by apply Permutation_map. }
  rewrite <- (firstn_skipn n sorted) in Hs, Hnd.
  apply StronglySorted_app in Hs as (Hcross & Hs1 & Hs2).
  split; [rewrite length_firstn; lia|].
  split.
  { rewrite map_app in Hnd. by apply NoDup_app_remove_r in Hnd. }
  split; [exact Hs1|]. split.
  - intros k c Hin. apply Counter_In.
    eapply Permutation_in; [exact Hp|].
    rewrite <- (firstn_skipn n sorted). apply in_or_app. by left.
  - intros k Hk.
    assert (In (k, occurrences l k) sorted) as Hin.
    { eapply Permutation_in; [symmetry; exact Hp|].
      apply Counter_In. split; [done|]. by apply occurrences_pos. }
    rewrite <- (firstn_skipn n sorted) in Hin.
    apply in_app_or in Hin as [Hin|Hin].
    + left. apply in_map_iff. by exists (k, occurrences l k).
    + right. split.
      * rewrite length_firstn. apply Nat.min_l.
        destruct (Nat.le_gt_cases n (length sorted)) as [|Hlt]; [done|].
        rewrite skipn_all2 in Hin by lia. done.
      * apply List.Forall_forall. intros x Hx.
        apply (Hcross x (k, occurrences l k));
          by apply list_elem_of_In.
Qed.

End CounterFacts.

Section AnalysisReport.
Import Py Models Analysis.
Context `{DateTimeLib}.

(** What a returned report holds. *)
Lemma analysis_body_inv (result : HotSearchResult) (a : analysis) :
  analysis_body result = Returns a ->
  total_items a = Z.of_nat (length (items result)) /\
  match heat_values (items result) with
  | [] => Returns (Int 0)
  | hv => mean hv
  end = Returns (avg_heat (heat_stats a)) /\
  max_heat (heat_stats a)
  = Int (match heat_values (items result) with
         | [] => 0
         | hv => max_list hv
         end) /\
  min_heat (heat_stats a)
  = Int (match heat_values (items result) with
         | [] => 0
         | hv => min_list hv
         end) /\
  match heat_values (items result) with
  | [] => Returns (Int 0)
  | hv => median hv
  end = Returns (median_heat (heat_stats a)) /\
  categories a
  = Counter (omap (fun item => match category item with
                               | Some (c :: s) => Some (c :: s)
                               | _ => None
                               end) (items result)) /\
  match map (fun item => Z.of_nat (length (word item))) (items result) with
  | [] => Returns (Int 0)
  | wl => mean wl
  end = Returns (avg_word_length a) /\
  top_tags a = most_common 10 (Counter (concat (map tags (items result)))) /\
  top_words a
  = most_common 20
      (Counter (concat (map (fun item => split (word item)) (items result)))) /\
  crawl_time_iso a = isoformat (crawl_time result).
Proof.
  unfold analysis_body. intros Hrun.
  set (wl := map (fun item => Z.of_nat (length (word item))) (items result))
    in *.
  assert (exists len,
            match wl with [] => Returns (Int 0) | _ => mean wl end
            = Returns len /\
            match wl with [] => Returns (Int 0) | w0 :: l => mean (w0 :: l) end
            = Returns len /\
            avg_word_length a = len) as (len & El & El' & Hlen).
  { destruct (heat_values (items result)) as [|h hv];
      cbn [bind] in Hrun.
    - destruct (match wl with [] => Returns (Int 0) | _ => mean wl end)
        as [len|] eqn:El; cbn [bind] in Hrun; [|done].
      exists len. split; [done|]. split; [by destruct wl|].
      destruct (format_f (Int 0)); cbn [bind] in Hrun; [|done].
      by injection Hrun as <-.
    - destruct (mean (h :: hv)) as [avg|]; cbn [bind] in Hrun; [|done].
      destruct (median (h :: hv)) as [med|]; cbn [bind] in Hrun; [|done].
      destruct (match wl with [] => Returns (Int 0) | _ => mean wl end)
        as [len|] eqn:El; cbn [bind] in Hrun; [|done].
      exists len. split; [done|]. split; [by destruct wl|].
      destruct (format_f avg); cbn [bind] in Hrun; [|done].
      destruct (format_f (Int (max_list (h :: hv)))); cbn [bind] in Hrun;
        [|done].
      by injection Hrun as <-. }
  rewrite El in Hrun. cbn [bind] in Hrun. rewrite El', Hlen. clear El El' Hlen.
  destruct (heat_values (items result)) as [|h hv] eqn:Ehv.
  - cbn [bind] in Hrun.
    destruct (format_f (Int 0)); cbn [bind] in Hrun; [|done].
    by injection Hrun as <-.
  - destruct (mean (h :: hv)) as [avg|] eqn:Ea; cbn [bind] in Hrun; [|done].
    destruct (median (h :: hv)) as [med|] eqn:Em; cbn [bind] in Hrun; [|done].
    destruct (format_f avg); cbn [bind] in Hrun; [|done].
    destruct (format_f (Int (max_list (h :: hv)))); cbn [bind] in Hrun; [|done].
    by injection Hrun as <-.
Qed.

Lemma analyze_inv (result : HotSearchResult) (a : analysis) :
  analyze_hot_search_data (Some result) = Some a ->
  analysis_body result = Returns a.
Proof.
  unfold analyze_hot_search_data. destruct (total result =? 0); [done|].
  destruct (analysis_body result); [|done]. by intros [= ->].
Qed.

Lemma occurrences_categories (its : list HotSearchItem) (c : pystr) :
  occurrences (omap (fun item => match category item with
                                 | Some (x :: s) => Some (x :: s)
                                 | _ => None
                                 end) its) c
  = if decide (c = []) then 0
    else Z.of_nat (length (List.filter
                             (fun item => bool_decide (category item = Some c))
                             its)).
Proof.
  induction its as [|it its IH].
  - by destruct (decide (c = [])).
  - cbn [omap list_omap List.filter].
    destruct (category it) as [[|x s]|] eqn:E.
    + rewrite IH. case_decide; [done|].
      rewrite bool_decide_eq_false_2; [done|]. congruence.
    + rewrite occurrences_cons, IH.
      destruct (decide (Some (x :: s) = Some c)) as [Eb|Eb].
      * injection Eb as <-. rewrite bool_decide_eq_true_2 by done.
        repeat case_decide; try done. cbn [length]. lia.
      * rewrite bool_decide_eq_false_2 by done.
        repeat case_decide; subst; try done; lia.
    + rewrite IH. by rewrite bool_decide_eq_false_2.
Qed.

(** X20.  What a report of [analyze_hot_search_data] counts.
    [total_items] is the number of items, whatever the [total] field
    says.  [categories] gives, for each non-empty category that occurs,
    the number of items carrying it, and has no entry for the empty
    category.  [top_tags] lists ten most frequent tags with their
    counts, most frequent first, or all tags when there are fewer than
    ten; [top_words] does the same for twenty of the
    white-space-separated words of the item texts. *)
Theorem analysis_counts (result : HotSearchResult) (a : analysis) :
  analyze_hot_search_data (Some result) = Some a ->
  total_items a = Z.of_nat (length (items result)) /\
  crawl_time_iso a = isoformat (crawl_time result) /\
  List.NoDup (map fst (categories a)) /\
  dict_get (categories a) [] = None /\
  (forall c : pystr,
     c <> [] ->
     dict_get (categories a) c
     = match filter_by_category result c with
       | [] => None
       | l => Some (Z.of_nat (length l))
       end) /\
  most_frequent 10 (concat (map tags (items result))) (top_tags a) /\
  most_frequent 20
    (concat (map (fun item => split (word item)) (items result)))
    (top_words a).
Proof.
  intros Hrun. apply analyze_inv, analysis_body_inv in Hrun.
  destruct Hrun as (Hn & _ & _ & _ & _ & Hc & _ & Ht & Hw & Hiso).
  split; [exact Hn|]. split; [exact Hiso|].
  rewrite Hc, Ht, Hw.
  split; [apply Counter_NoDup|]. split; [|split; [|split]].
  - rewrite Counter_get, occurrences_categories. by case_decide.
  - intros c Hne. rewrite Counter_get, occurrences_categories.
    case_decide; [done|]. unfold filter_by_category.
    by destruct (List.filter _ (items result)).
  - apply most_common_spec.
  - apply most_common_spec.
Qed.

Lemma max_list_spec (x : Z) (l : list Z) :
  In (max_list (x :: l)) (x :: l) /\ Forall (fun h => h <= max_list (x :: l)) (x :: l).
Proof.
  cbn [max_list]. revert x. induction l as [|y l IH]; intros x.
  - cbn. split; [by left|]. constructor; [lia|constructor].
  - cbn [fold_left]. destruct (IH (Z.max x y)) as [Hin Hall].
    apply Forall_cons in Hall as [Hm Hall]. split.
    + destruct Hin as [Heq|Hin]; [|by right; right].
      rewrite <- Heq. destruct (Z.max_spec x y) as [[_ ->]|[_ ->]];
        [right; by left|by left].
    + constructor; [lia|]. constructor; [lia|exact Hall].
Qed.

Lemma min_list_spec (x : Z) (l : list Z) :
  In (min_list (x :: l)) (x :: l) /\ Forall (fun h => min_list (x :: l) <= h) (x :: l).
Proof.
  cbn [min_list]. revert x. induction l as [|y l IH]; intros x.
  - cbn. split; [by left|]. constructor; [lia|constructor].
  - cbn [fold_left]. destruct (IH (Z.min x y)) as [Hin Hall].
    apply Forall_cons in Hall as [Hm Hall]. split.
    + destruct Hin as [Heq|Hin]; [|by right; right].
      rewrite <- Heq. destruct (Z.min_spec x y) as [[_ ->]|[_ ->]];
        [by left|right; by left].
    + constructor; [lia|]. constructor; [lia|exact Hall].
Qed.

Lemma sum_Z_between (lo hi : Z) (data : list Z) :
  Forall (fun h => lo <= h <= hi) data ->
  Z.of_nat (length data) * lo <= sum_Z data <= Z.of_nat (length data) * hi.
Proof.
  induction 1 as [|h data Hh Hd IH]; [cbn; lia|].
  unfold sum_Z in *. cbn [fold_right length]. nia.
Qed.

(** X21.  When some item has a positive heat, the reported minimum and
    maximum are heats of items, the minimum is positive, and every
    positive heat lies between them; so do the mean and the median
    whenever they are integers. *)
Theorem analysis_heat_extremes (result : HotSearchResult) (a : analysis) :
  analyze_hot_search_data (Some result) = Some a ->
  (exists it, In it (items result) /\ 0 < heat it) ->
  exists lo hi : Z,
    min_heat (heat_stats a) = Int lo /\
    max_heat (heat_stats a) = Int hi /\
    0 < lo <= hi /\
    (exists it, In it (items result) /\ heat it = lo) /\
    (exists it, In it (items result) /\ heat it = hi) /\
    (forall it, In it (items result) -> 0 < heat it -> lo <= heat it <= hi) /\
    (forall m, avg_heat (heat_stats a) = Int m -> lo <= m <= hi) /\
    (forall m, median_heat (heat_stats a) = Int m -> lo <= m <= hi).
Proof.
  intros Hrun (it0 & Hit0 & Hpos0). apply analyze_inv, analysis_body_inv in Hrun.
  destruct Hrun as (_ & Havg & Hmax & Hmin & Hmed & _).
  assert (forall h, In h (heat_values (items result)) <->
                    exists it, In it (items result) /\ heat it = h /\ 0 < h)
    as Hhv.
  { intros h. unfold heat_values. rewrite filter_In, in_map_iff, Z.ltb_lt.
    split; [intros [(it & <- & Hin) Hp]; by exists it|].
    intros (it & Hin & <- & Hp). split; [by exists it|done]. }
  destruct (heat_values (items result)) as [|h hv] eqn:E.
  { exfalso. apply (proj2 (Hhv (heat it0))). by exists it0. }
  destruct (max_list_spec h hv) as [Hmax_in Hmax_all].
  destruct (min_list_spec h hv) as [Hmin_in Hmin_all].
  rewrite List.Forall_forall in Hmax_all, Hmin_all.
  set (hi := max_list (h :: hv)) in *. set (lo := min_list (h :: hv)) in *.
  assert (Forall (fun x => lo <= x <= hi) (h :: hv)) as Hbetween.
  { apply List.Forall_forall. intros x Hx.
    specialize (Hmax_all x Hx). specialize (Hmin_all x Hx). cbn in *. lia. }
  exists lo, hi. split; [exact Hmin|]. split; [exact Hmax|].
  apply Hhv in Hmax_in as (ihi & Hihi & Hhi & Hhipos).
  apply Hhv in Hmin_in as (ilo & Hilo & Hlo & Hlopos).
  split.
  { split; [done|]. apply (Hmax_all lo). apply Hhv. by exists ilo. }
  split; [by exists ilo|]. split; [by exists ihi|]. split; [|split].
  - intros it Hit Hp.
    assert (In (heat it) (h :: hv)) as Hin by (apply Hhv; by exists it).
    split; [by apply Hmin_all|by apply Hmax_all].
  - intros m Hm. rewrite Hm in Havg. unfold mean in Havg.
    pose proof (sum_Z_between lo hi (h :: hv) Hbetween) as Hsum.
    set (n := Z.of_nat (length (h :: hv))) in *.
    assert (0 < n) as Hn by (subst n; cbn [length]; lia).
    destruct (Z.eqb_spec (sum_Z (h :: hv) mod n) 0) as [Hmod|Hmod].
    + injection Havg as <-.
      assert (sum_Z (h :: hv) = n * (sum_Z (h :: hv) / n)) as Hq
        by (apply Z_div_exact_full_2; lia).
      set (q := sum_Z (h :: hv) / n) in *. rewrite Hq in Hsum.
      destruct Hsum as [H1 H2].
      split; apply (Z.mul_le_mono_pos_l _ _ n); done.
    + destruct (int_truediv _ _); done.
  - intros m Hm. rewrite Hm in Hmed. unfold median in Hmed.
    assert (Forall (fun x => lo <= x <= hi) (merge_sort Z.le (h :: hv)))
      as Hsorted.
    { eapply Permutation_Forall; [|exact Hbetween].
      symmetry. apply merge_sort_Permutation. }
    destruct (merge_sort Z.le (h :: hv)) as [|s0 s] eqn:Es; [done|].
    destruct (Nat.odd (length (s0 :: s))).
    + injection Hmed as <-.
      destruct (nth_in_or_default (length (s0 :: s) / 2) (s0 :: s) 0)
        as [Hin|Hdef].
      * rewrite List.Forall_forall in Hsorted. by apply Hsorted.
      * exfalso.
        assert (length (s0 :: s) / 2 < length (s0 :: s))%nat as Hlt
          by (apply Nat.div_lt; cbn [length]; lia).
        pose proof (nth_In (s0 :: s) 0 Hlt) as Hin.
        rewrite List.Forall_forall in Hsorted.
        pose proof (Hsorted _ Hin) as Hb.
        rewrite Hdef in Hb. lia.
    + destruct (int_truediv _ _); done.
Qed.

End AnalysisReport.

Lemma analysis_counts_witness :
  exists a : Analysis.analysis,
    Analysis.analyze_hot_search_data (Some Samples.mixed) = Some a /\
    Analysis.total_items a = 3 /\
    Py.dict_get (Analysis.categories a) (Py.str "food") = Some 2 /\
    Py.dict_get (Analysis.categories a) (Py.str "sport") = None.
Proof.
  destruct (Analysis.analyze_hot_search_data (Some Samples.mixed))
    as [a|] eqn:E; [|vm_compute in E; discriminate].
  destruct (analysis_counts Samples.mixed a E)
    as (Htotal & _ & _ & _ & Hcat & _).
  exists a. split; [reflexivity|]. split; [exact Htotal|]. split.
  - rewrite (Hcat (Py.str "food")); [reflexivity|discriminate].
  - rewrite (Hcat (Py.str "sport")); [reflexivity|discriminate].
Defined.

Lemma analysis_heat_extremes_witness :
  exists a : Analysis.analysis,
    Analysis.analyze_hot_search_data (Some Samples.mixed) = Some a /\
    exists lo hi : Z,
      Analysis.min_heat (Analysis.heat_stats a) = Analysis.Int lo /\
      Analysis.max_heat (Analysis.heat_stats a) = Analysis.Int hi /\
      0 < lo <= hi.
Proof.
  destruct (Analysis.analyze_hot_search_data (Some Samples.mixed))
    as [a|] eqn:E; [|vm_compute in E; discriminate].
  destruct (analysis_heat_extremes Samples.mixed a E)
    as (lo & hi & Hlo & Hhi & Hle & _).
  - exists (Samples.labelled "ef" "food" [] 10 3). split.
    + right. right. left. reflexivity.
    + reflexivity.
  - exists a. split; [reflexivity|]. exists lo, hi.
    split; [exact Hlo|]. split; [exact Hhi|exact Hle].
Defined.

Section OrderIndependence.
Import Py Models Analysis.
Context `{DateTimeLib}.

Lemma filter_perm {A} (f : A -> bool) (l1 l2 : list A) :
  l1 ≡ₚ l2 -> List.filter f l1 ≡ₚ List.filter f l2.
Proof.
  induction 1 as [|x l1 l2 Hp IH|x y l|l1 l2 l3 H1 IH1 H2 IH2]; cbn [List.filter].
  - done.
  - destruct (f x); [by constructor|done].
  - destruct (f x), (f y); try done. apply perm_swap.
  - by etrans.
Qed.

Lemma sum_Z_perm (l1 l2 : list Z) : l1 ≡ₚ l2 -> sum_Z l1 = sum_Z l2.
Proof.
  unfold sum_Z.
  induction 1 as [|x l1 l2 Hp IH|x y l|l1 l2 l3 H1 IH1 H2 IH2];
    cbn [fold_right]; lia.
Qed.

Lemma mean_perm (l1 l2 : list Z) : l1 ≡ₚ l2 -> mean l1 = mean l2.
Proof.
  intros Hp. unfold mean.
  rewrite (sum_Z_perm _ _ Hp), (Permutation_length Hp).
  destruct l1 as [|x1 l1], l2 as [|x2 l2]; try done.
  - by apply Permutation_nil_cons in Hp.
  - symmetry in Hp. by apply Permutation_nil_cons in Hp.
Qed.

Lemma merge_sort_perm (l1 l2 : list Z) :
  l1 ≡ₚ l2 -> merge_sort Z.le l1 = merge_sort Z.le l2.
Proof.
  intros Hp. apply (Sorted_unique Z.le).
  - apply Sorted_merge_sort. intros x y. lia.
  - apply Sorted_merge_sort. intros x y. lia.
  - by rewrite !merge_sort_Permutation.
Qed.

Lemma median_perm (l1 l2 : list Z) : l1 ≡ₚ l2 -> median l1 = median l2.
Proof. intros Hp. unfold median. by rewrite (merge_sort_perm _ _ Hp). Qed.

Lemma max_list_perm (l1 l2 : list Z) :
  l1 ≡ₚ l2 -> max_list l1 = max_list l2.
Proof.
  intros Hp. destruct l1 as [|x1 l1], l2 as [|x2 l2]; try done.
  - by apply Permutation_nil_cons in Hp.
  - symmetry in Hp. by apply Permutation_nil_cons in Hp.
  - destruct (max_list_spec x1 l1) as [Hin1 Hall1].
    destruct (max_list_spec x2 l2) as [Hin2 Hall2].
    rewrite List.Forall_forall in Hall1, Hall2.
    apply (Permutation_in _ Hp) in Hin1.
    apply (Permutation_in _ (Permutation_sym Hp)) in Hin2.
    specialize (Hall2 _ Hin1). specialize (Hall1 _ Hin2). cbn beta in *. lia.
Qed.

Lemma min_list_perm (l1 l2 : list Z) :
  l1 ≡ₚ l2 -> min_list l1 = min_list l2.
Proof.
  intros Hp. destruct l1 as [|x1 l1], l2 as [|x2 l2]; try done.
  - by apply Permutation_nil_cons in Hp.
  - symmetry in Hp. by apply Permutation_nil_cons in Hp.
  - destruct (min_list_spec x1 l1) as [Hin1 Hall1].
    destruct (min_list_spec x2 l2) as [Hin2 Hall2].
    rewrite List.Forall_forall in Hall1, Hall2.
    apply (Permutation_in _ Hp) in Hin1.
    apply (Permutation_in _ (Permutation_sym Hp)) in Hin2.
    specialize (Hall2 _ Hin1). specialize (Hall1 _ Hin2). cbn beta in *. lia.
Qed.

Lemma guarded_perm {B} (f : list Z -> B) (d : B) (l1 l2 : list Z) :
  l1 ≡ₚ l2 -> f l1 = f l2 ->
  match l1 with [] => d | x :: l => f (x :: l) end
  = match l2 with [] => d | x :: l => f (x :: l) end.
Proof.
  intros Hp Hf. destruct l1 as [|x1 l1], l2 as [|x2 l2]; try done.
  - by apply Permutation_nil_cons in Hp.
  - symmetry in Hp. by apply Permutation_nil_cons in Hp.
Qed.

(** X22.  The numbers of a report do not depend on the order of the
    items: two results that hold the same items in different orders get
    the same item count, the same four heat statistics and the same mean
    term length. *)
Theorem analysis_order_independent (r1 r2 : HotSearchResult)
    (a1 a2 : analysis) :
  items r1 ≡ₚ items r2 ->
  analyze_hot_search_data (Some r1) = Some a1 ->
  analyze_hot_search_data (Some r2) = Some a2 ->
  total_items a1 = total_items a2 /\
  heat_stats a1 = heat_stats a2 /\
  avg_word_length a1 = avg_word_length a2.
Proof.
  intros Hp H1 H2.
  apply analyze_inv, analysis_body_inv in H1, H2.
  destruct H1 as (Hn1 & Havg1 & Hmax1 & Hmin1 & Hmed1 & _ & Hlen1 & _).
  destruct H2 as (Hn2 & Havg2 & Hmax2 & Hmin2 & Hmed2 & _ & Hlen2 & _).
  assert (heat_values (items r1) ≡ₚ heat_values (items r2)) as Hhv.
  { unfold heat_values. by apply filter_perm, Permutation_map. }
  assert (map (fun item => Z.of_nat (length (word item))) (items r1)
          ≡ₚ map (fun item => Z.of_nat (length (word item))) (items r2))
    as Hwl by (by apply Permutation_map).
  split; [rewrite Hn1, Hn2; by rewrite (Permutation_length Hp)|]. split.
  - rewrite (guarded_perm mean (Returns (Int 0)) _ _ Hhv (mean_perm _ _ Hhv))
      in Havg1.
    rewrite (guarded_perm median (Returns (Int 0)) _ _ Hhv (median_perm _ _ Hhv))
      in Hmed1.
    rewrite (guarded_perm max_list 0 _ _ Hhv (max_list_perm _ _ Hhv)) in Hmax1.
    rewrite (guarded_perm min_list 0 _ _ Hhv (min_list_perm _ _ Hhv)) in Hmin1.
    rewrite Havg2 in Havg1. rewrite Hmed2 in Hmed1.
    injection Havg1 as Havg. injection Hmed1 as Hmed.
    destruct (heat_stats a1), (heat_stats a2). cbn in *. congruence.
  - rewrite (guarded_perm mean (Returns (Int 0)) _ _ Hwl (mean_perm _ _ Hwl))
      in Hlen1.
    congruence.
Qed.

End OrderIndependence.

Lemma analysis_order_independent_witness :
  exists a1 a2 : Analysis.analysis,
    Analysis.analyze_hot_search_data (Some Samples.three) = Some a1 /\
    Analysis.analyze_hot_search_data (Some Samples.three_reversed) = Some a2 /\
    Analysis.heat_stats a1 = Analysis.heat_stats a2.
Proof.
  destruct (Analysis.analyze_hot_search_data (Some Samples.three))
    as [a1|] eqn:E1; [|vm_compute in E1; discriminate].
  destruct (Analysis.analyze_hot_search_data (Some Samples.three_reversed))
    as [a2|] eqn:E2; [|vm_compute in E2; discriminate].
  destruct (analysis_order_independent Samples.three Samples.three_reversed
              a1 a2) as (_ & Hheat & _).
  - change (Models.items Samples.three_reversed)
      with (reverse (Models.items Samples.three)).
    symmetry. apply reverse_Permutation.
  - exact E1.
  - exact E2.
  - exists a1, a2. by repeat split.
Defined.

Section TrendSymmetry.
Import Py Models Analysis.
Context `{DateTimeLib}.

Lemma omap_none {A B} (f : A -> option B) (l : list A) :
  (forall x, In x l -> f x = None) -> omap f l = [].
Proof.
  induction l as [|x l IH]; intros Hf; [done|].
  cbn [omap list_omap]. rewrite (Hf x) by (by left).
  apply IH. intros y Hy. apply Hf. by right.
Qed.

Lemma only_in_self (d : dict HotSearchItem) : only_in d d = [].
Proof.
  unfold only_in. apply omap_none. intros [k v] Hin. cbn [fst snd].
  assert (dict_mem d k = true) as ->; [|done].
  apply dict_mem_In, in_map_iff. by exists (k, v).
Qed.

Lemma rank_changes_self (d : dict HotSearchItem) :
  List.NoDup (map fst d) -> rank_changes_of d d = [].
Proof.
  intros Hnd. unfold rank_changes_of. apply omap_none. intros [k v] Hin.
  apply (dict_get_In d k v Hnd) in Hin. rewrite Hin.
  by rewrite Z.sub_diag.
Qed.

(** X23.  A snapshot compared with itself shows no change: no new and
    no removed terms and no rank changes.  Comparing two snapshots the
    other way round swaps the new terms with the removed ones, counts
    and lists alike, and reverses every rank change: the two ranks
    change places and the delta changes sign. *)
Theorem trend_self_and_swap :
  (forall items : list HotSearchItem,
     items <> [] ->
     generate_trend_analysis items (Some items) = Trend 0 0 [] [] []) /\
  (forall current previous : list HotSearchItem,
     current <> [] ->
     previous <> [] ->
     exists (n r : Z) (rcs rcs' : list rank_change) (nl rl : list pystr),
       generate_trend_analysis current (Some previous) = Trend n r rcs nl rl /\
       generate_trend_analysis previous (Some current) = Trend r n rcs' rl nl /\
       forall x : rank_change,
         In x rcs <->
         In {| rc_word := rc_word x;
               current_rank := previous_rank x;
               previous_rank := current_rank x;
               change := - change x |} rcs').
Proof.
  split.
  - intros [|it items] Hne; [done|]. unfold generate_trend_analysis.
    rewrite only_in_self, rank_changes_self by apply word_map_NoDup. done.
  - intros [|c current] [|p previous] Hc Hp; try done.
    unfold generate_trend_analysis. do 6 eexists.
    split; [reflexivity|]. split; [reflexivity|].
    intros x. rewrite !rank_changes_spec. cbn [rc_word current_rank
      previous_rank change].
    split.
    + intros (ci & pi & H1 & H2 & H3 & H4 & H5 & H6).
      exists pi, ci. repeat split; try done; lia.
    + intros (ci & pi & H1 & H2 & H3 & H4 & H5 & H6).
      exists pi, ci. repeat split; try done; lia.
Qed.

End TrendSymmetry.

Lemma trend_self_and_swap_witness :
  Analysis.generate_trend_analysis (Models.items Samples.three)
    (Some (Models.items Samples.three))
  = Analysis.Trend 0 0 [] [] [].
Proof.
  destruct (@trend_self_and_swap Reference.text_dates) as [Hself _].
  apply Hself. discriminate.
Defined.

(** * From the crawlers to the files and the report *)

Section Pipeline.
Import Py Models.
Context `{UnicodeData} `{DateTimeLib}.

(** X24.  Whatever one of the three strategies returns - the API
    request, the page request or the browser session - is a result that
    [save_json] and [load_json] give back unchanged from the data
    directory.  (The file name is a plain name, and writing the file
    succeeds.) *)
Theorem crawled_result_round_trip
    (api_net : option pystr -> XiaohongshuApiCrawler.api_reply)
    (api : XiaohongshuApiCrawler.t)
    (net : BaseCrawler.transport XiaohongshuCrawler.page_body) (g : rng)
    (page : XiaohongshuCrawler.t)
    (sc : XiaohongshuCrawlerWithFallback.script)
    (self : XiaohongshuCrawlerWithFallback.t)
    (w : XiaohongshuCrawlerWithFallback.world)
    (now : datetime) (r : HotSearchResult)
    (saver : DataSaver.t) (t1 t2 : datetime) (f : pystr) (flag : bool)
    (fs : DataSaver.filesystem) :
  fst (XiaohongshuApiCrawler.crawl_hot_search api_net now api) = Some r \/
  fst (XiaohongshuCrawler.crawl_hot_search net g now page BaseCrawler.start)
  = Some r \/
  fst (XiaohongshuCrawlerWithFallback._crawl_with_playwright sc now self w)
  = Some r ->
  DataSaver.plain_name f ->
  flag = false \/ DataSaver.current_session_dir saver = None ->
  total r = Z.of_nat (length (items r)) /\
  let saved := DataSaver.save_json saver t1 r (Some f) flag fs in
  DataSaver.load_json saver t2 (DataSaver.name (fst saved)) (snd saved)
  = Some r.
Proof.
  intros Hfrom [Hf _] Hdir.
  assert (total r = Z.of_nat (length (items r))) as Ht.
  { destruct Hfrom as [Hr|[Hr|Hr]].
    - revert Hr. unfold XiaohongshuApiCrawler.crawl_hot_search.
      destruct (XiaohongshuApiCrawler._make_api_request _ _) as [[d|] tr];
        [|done].
      cbn [fst].
      destruct (api_parse_items now api d) as (r' & -> & _ & Ht).
      by intros [= <-].
    - revert Hr. unfold XiaohongshuCrawler.crawl_hot_search.
      destruct (BaseCrawler._make_request _ _ _ _) as [[d|] r0]; [|done].
      cbn [fst]. destruct (XiaohongshuCrawler.b_data d) as [l|] eqn:El.
      + destruct (page_parse_items now page d l El) as (r' & -> & _ & Ht).
        by intros [= <-].
      + unfold XiaohongshuCrawler._parse_hot_search_data. by rewrite El.
    - destruct (XiaohongshuCrawlerWithFallback._crawl_with_playwright
                  sc now self w) as [res w'] eqn:E.
      cbn [fst] in Hr. subst res.
      by apply crawl_with_playwright_total in E as [_ ?]. }
  split; [exact Ht|]. intros saved. subst saved.
  rewrite (save_json_in_data_dir saver t1 r f flag fs Hf Hdir).
  cbn [fst snd]. rewrite name_join. by apply load_written.
Qed.

(** X25.  A result of the browser session is never refused by the
    guard of the analysis, and its report shows the number of elements
    read but nothing about heat, categories or tags: the four heat
    statistics are 0 and both counters are empty. *)
Theorem browser_result_analysis
    (sc : XiaohongshuCrawlerWithFallback.script)
    (self : XiaohongshuCrawlerWithFallback.t)
    (w w' : XiaohongshuCrawlerWithFallback.world)
    (now : datetime) (r : HotSearchResult) :
  XiaohongshuCrawlerWithFallback._crawl_with_playwright sc now self w
  = (Some r, w') ->
  total r <> 0 /\
  (Analysis.convertible r ->
   exists a, Analysis.analyze_hot_search_data (Some r) = Some a) /\
  (forall a : Analysis.analysis,
     Analysis.analyze_hot_search_data (Some r) = Some a ->
     Analysis.total_items a = total r /\
     Analysis.heat_stats a = Analysis.no_heat /\
     Analysis.categories a = [] /\
     Analysis.top_tags a = []).
Proof.
  intros Hrun.
  destruct (crawl_with_playwright_total _ _ _ _ _ _ Hrun) as [Hpos Ht].
  destruct (crawl_with_playwright_Some _ _ _ _ _ _ Hrun) as (w0 & we & Hx).
  destruct (extract_page_Some _ _ _ _ _ _ Hx) as (n & Hn & Hi).
  assert (Forall (fun it => heat it = 0 /\ category it = None /\ tags it = [])
                 (items r)) as Hshape.
  { rewrite Hi. apply List.Forall_forall. intros it Hin.
    apply list_elem_of_In, list_elem_of_omap in Hin as (i & _ & E).
    destruct (XiaohongshuCrawlerWithFallback.element_text sc (Z.to_nat i))
      as [| |[|c s]]; try done.
    by injection E as <-. }
  split; [lia|]. split.
  - intros Hc. destruct (analysis_body_returns r Hc) as (a & Ha & _).
    exists a. unfold Analysis.analyze_hot_search_data.
    destruct (Z.eqb_spec (total r) 0); [lia|]. by rewrite Ha.
  - intros a Ha. apply analyze_inv, analysis_body_inv in Ha.
    destruct Ha as (Hcount & Havg & Hmax & Hmin & Hmed & Hcat & _ & Htags & _).
    assert (Analysis.heat_values (items r) = []) as Hhv.
    { unfold Analysis.heat_values. clear -Hshape.
      induction Hshape as [|it l (Hh & _) _ IH]; [done|].
      cbn [map List.filter]. rewrite Hh. exact IH. }
    assert (omap (fun item => match category item with
                              | Some (c :: s) => Some (c :: s)
                              | _ => None
                              end) (items r) = []) as Hnocat.
    { apply omap_none. intros it Hin. rewrite List.Forall_forall in Hshape.
      destruct (Hshape it Hin) as (_ & -> & _). done. }
    assert (concat (map tags (items r)) = []) as Hnotag.
    { clear -Hshape. induction Hshape as [|it l (_ & _ & Hg) _ IH]; [done|].
      cbn [map concat]. by rewrite Hg, IH. }
    rewrite Hhv in Havg, Hmax, Hmin, Hmed.
    injection Havg as Havg. injection Hmed as Hmed.
    split; [by rewrite Hcount, Ht|]. split.
    + destruct (Analysis.heat_stats a). cbn in *. unfold Analysis.no_heat.
      congruence.
    + rewrite Hcat, Htags, Hnocat, Hnotag. done.
Qed.

End Pipeline.

Lemma crawled_result_round_trip_witness :
  let api := XiaohongshuApiCrawler.init None (Samples.fallback_config false) in
  exists r : Models.HotSearchResult,
    fst (@XiaohongshuApiCrawler.crawl_hot_search Reference.ascii_unicode
           Reference.text_dates Samples.open_endpoint Samples.clock api)
    = Some r /\
    let saved := DataSaver.save_json Samples.saver Samples.clock r
                   (Some (Py.str "a.json")) false ∅ in
    DataSaver.load_json Samples.saver Samples.clock
      (DataSaver.name (fst saved)) (snd saved) = Some r.
Proof.
  intros api.
  destruct (fst (@XiaohongshuApiCrawler.crawl_hot_search
                   Reference.ascii_unicode Reference.text_dates
                   Samples.open_endpoint Samples.clock api))
    as [r|] eqn:E; [|vm_compute in E; discriminate].
  exists r. split; [reflexivity|].
  apply (@crawled_result_round_trip Reference.ascii_unicode
           Reference.text_dates Samples.open_endpoint api Samples.offline
           Samples.half
           (XiaohongshuCrawler.init (Samples.fallback_config false))
           Samples.stub_script
           (XiaohongshuCrawlerWithFallback.init Samples.stub_script
              (Samples.fallback_config true))
           XiaohongshuCrawlerWithFallback.fresh_world Samples.clock r
           Samples.saver Samples.clock Samples.clock (Py.str "a.json") false ∅).
  - left. exact E.
  - unfold DataSaver.plain_name. repeat split; try discriminate;
      vm_compute; intuition discriminate.
  - left. reflexivity.
Defined.

Lemma browser_result_analysis_witness :
  let self := XiaohongshuCrawlerWithFallback.init Samples.stub_script
                (Samples.fallback_config true) in
  let setup := XiaohongshuCrawlerWithFallback._setup_playwright
                 Samples.stub_script self
                 XiaohongshuCrawlerWithFallback.fresh_world in
  let run := XiaohongshuCrawlerWithFallback._crawl_with_playwright
               Samples.stub_script Samples.clock (snd (fst setup))
               (snd setup) in
  exists (r : Models.HotSearchResult) (a : Analysis.analysis),
    fst run = Some r /\
    Analysis.analyze_hot_search_data (Some r) = Some a /\
    Analysis.total_items a = 3 /\
    Analysis.heat_stats a = Analysis.no_heat.
Proof.
  intros self setup run.
  destruct run as [[r|] w'] eqn:E; [|vm_compute in E; discriminate].
  destruct (browser_result_analysis Samples.stub_script _ _ _ Samples.clock
              _ E) as (_ & Hsome & Hshape).
  assert (Models.total r = 3) as Htotal.
  { pose proof E as E'. vm_compute in E'. injection E' as <- _. reflexivity. }
  destruct Hsome as [a Ha].
  - pose proof E as E'. vm_compute in E'. injection E' as <- _.
    repeat constructor.
  - destruct (Hshape a Ha) as (Hitems & Hheat & _).
    exists r, a. split; [reflexivity|]. split; [exact Ha|].
    split; [by rewrite Hitems|exact Hheat].
Defined.
